(** * Controller factory and agent-addon factory of addon-framework

    A shallow embedding of [pkg/basecontroller/factory/factory.go] and of the
    agent-addon factory, with the properties of their builder surfaces.

    Both files are fluent builders over a pointer receiver: every method
    mutates the object behind [f] and returns [f].  The embedding therefore
    threads an explicit store through every call, and a Go panic is a result
    of its own. *)

From stdpp Require Import gmap strings list fin_maps.

(** ** Fragments of the Go runtime *)
Module Go.

Definition loc := nat.

(** The nil pointer; no object is ever allocated there. *)
Definition null : loc := 0.

(** The address every zero-sized allocation shares. *)
Definition zerobase : loc := 1.

(** A call either returns a value and the store it leaves, or panics. *)
Inductive result (E W A : Type) : Type :=
  | Ok (a : A) (w : W)
  | Panic (v : E).
Arguments Ok {E W A} a w.
Arguments Panic {E W A} v.

Definition M (E W A : Type) : Type := W -> result E W A.

#[global] Instance M_ret {E W} : MRet (M E W) := fun A a w => Ok a w.

#[global] Instance M_bind {E W} : MBind (M E W) := fun A B k m w =>
  match m w with
  | Ok a w' => k a w'
  | Panic v => Panic v
  end.

Definition panic {E W A} (v : E) : M E W A := fun _ => Panic v.
Definition get {E W} : M E W W := fun w => Ok w w.
Definition put {E W} (w : W) : M E W unit := fun _ => Ok tt w.

(** A slice header: pointer to the backing array, offset of the first
    element in it, length and capacity. *)
Record slice := Slice { s_arr : loc; s_off : nat; s_len : nat; s_cap : nat }.

(** [var s []T] *)
Definition nil_slice : slice := Slice null 0 0 0.

(** [[]T{}] *)
Definition empty_slice : slice := Slice zerobase 0 0 0.

Section slices.
Context {A : Type}.
(** The zero value of the element type. *)
Variable zero : A.
(** What the runtime's growth policy allocates beyond the capacity asked
    for, from the old capacity and the capacity needed. *)
Variable spare : nat -> nat -> nat.

(** The elements a slice shows of its backing array. *)
Definition elems (h : gmap loc (list A)) (s : slice) : list A :=
  take (s_len s) (drop (s_off s) (default [] (h !! s_arr s))).

(** [copy(arr[i:], xs)] for an [xs] that fits. *)
Definition write_at (i : nat) (xs arr : list A) : list A :=
  take i arr ++ xs ++ drop (i + length xs) arr.

Definition fresh_loc (h : gmap loc (list A)) : loc :=
  fresh ({[null; zerobase]} ∪ dom h).

(** [append(s, xs...)]: in place when the capacity allows it, else into a
    new backing array. *)
Definition append (s : slice) (xs : list A) (h : gmap loc (list A))
  : slice * gmap loc (list A) :=
  let need := s_len s + length xs in
  if decide (need <= s_cap s) then
    (Slice (s_arr s) (s_off s) need (s_cap s),
     alter (write_at (s_off s + s_len s) xs) (s_arr s) h)
  else
    let l := fresh_loc h in
    let extra := spare (s_cap s) need in
    (Slice l 0 need (need + extra),
     <[l := elems h s ++ xs ++ replicate extra zero]> h).


(** What memory safety gives about a slice header. *)
Definition slice_wf (h : gmap loc (list A)) (s : slice) : Prop :=
  s_len s <= s_cap s /\
  (s_cap s = 0 \/
   exists arr, h !! s_arr s = Some arr /\ s_off s + s_cap s <= length arr).
End slices.

End Go.

(** ** pkg/basecontroller/factory/factory.go *)
Module Factory.
Import Go.

(** What the file takes from elsewhere: the object types of apimachinery,
    the non-nil values of [SyncFunc], the package constant
    [defaultCacheSyncTimeout], and the runtime's slice growth. *)
Class Externals := {
  Object : Type;
  Any : Type;
  SyncFn : Type;
  defaultCacheSyncTimeout : Z;
  growslice_spare : nat -> nat -> nat;
}.

(** [time.Duration] is an int64 of nanoseconds. *)
Definition Duration := Z.

(** The identity of an informer object, and the interface value holding one
    ([None] is the nil interface). *)
Definition InformerRef := nat.
Definition Informer := option InformerRef.

(** The identity of a work queue. *)
Definition QueueRef := nat.

(** [cache.InformerSynced], a [func() bool]: nil, the method value
    [informer.HasSynced], or some other function. *)
Inductive InformerSynced :=
  | synced_nil
  | HasSynced (i : InformerRef)
  | synced_fn (id : nat).

(** DefaultQueueKey is the queue key used for string trigger based
    controllers. *)
Definition DefaultQueueKey : string := "key".

Section model.
Context `{Ext : Externals}.

(** DefaultQueueKeysFunc returns a slice with a single element - the
    DefaultQueueKey *)
Definition DefaultQueueKeysFunc (_ : Object) : list string := [DefaultQueueKey].

(** Function values; [None] is nil. *)
Definition SyncFunc := option SyncFn.
Definition ObjectQueueKeysFunc := option (Object -> list string).
Definition EventFilterFunc := option (Any -> bool).

(** The [SyncContext] interface value: nil, a value of the package's own
    struct type [syncContext] (which owns a queue), or a value of any other
    type implementing the interface. *)
Inductive SyncContext :=
  | ctx_nil
  | ctx_syncContext (queue : QueueRef)
  | ctx_foreign (id : nat).

(** What [syncContext.eventHandler(queueKeysFunc, filter)] is built from. *)
Record ResourceEventHandler := {
  eh_queue : QueueRef;
  eh_queueKeysFunc : ObjectQueueKeysFunc;
  eh_filter : EventFilterFunc;
}.

Record informersWithQueueKey := {
  qk_informers : list Informer;
  qk_filter : EventFilterFunc;
  qk_queueKeyFn : ObjectQueueKeysFunc;
}.

Record filteredInformers := {
  fi_informers : list Informer;
  fi_filter : EventFilterFunc;
}.

Record Factory := {
  sync : SyncFunc;
  syncContext : SyncContext;
  resyncInterval : Duration;
  informers : list filteredInformers;
  informerQueueKeys : list informersWithQueueKey;
  bareInformers : list Informer;
  cachesToSync : slice;
}.

Record baseController := {
  bc_name : string;
  bc_sync : SyncFunc;
  bc_resyncEvery : Duration;
  bc_cachesToSync : slice;
  bc_syncContext : SyncContext;
  bc_cacheSyncTimeout : Duration;
}.

(** The store: the factories and controllers behind their pointers, the
    backing arrays of [[]cache.InformerSynced] slices, the handlers each
    informer has been given (in order), and the named work queues. *)
Record World := {
  factories : gmap loc Factory;
  controllers : gmap loc baseController;
  syncedArrays : gmap loc (list InformerSynced);
  handlers : gmap InformerRef (list ResourceEventHandler);
  queues : gmap QueueRef string;
}.

Inductive PanicValue :=
  (** a [runtime.Error]: nil dereference, failed type assertion *)
  | RuntimeError
  (** "WithSync() must be used before calling ToController() in %q" *)
  | WithSyncMissing (name : string).

Definition emptyWorld : World :=
  {| factories := ∅; controllers := ∅; syncedArrays := ∅; handlers := ∅; queues := ∅ |}.

Definition set_factories (x : gmap loc Factory) (w : World) : World :=
  {| factories := x; controllers := controllers w; syncedArrays := syncedArrays w;
     handlers := handlers w; queues := queues w |}.
Definition set_controllers (x : gmap loc baseController) (w : World) : World :=
  {| factories := factories w; controllers := x; syncedArrays := syncedArrays w;
     handlers := handlers w; queues := queues w |}.
Definition set_syncedArrays (x : gmap loc (list InformerSynced)) (w : World) : World :=
  {| factories := factories w; controllers := controllers w; syncedArrays := x;
     handlers := handlers w; queues := queues w |}.
Definition set_handlers (x : gmap InformerRef (list ResourceEventHandler)) (w : World) : World :=
  {| factories := factories w; controllers := controllers w; syncedArrays := syncedArrays w;
     handlers := x; queues := queues w |}.
Definition set_queues (x : gmap QueueRef string) (w : World) : World :=
  {| factories := factories w; controllers := controllers w; syncedArrays := syncedArrays w;
     handlers := handlers w; queues := x |}.

Definition set_sync (x : SyncFunc) (f : Factory) : Factory :=
  {| sync := x; syncContext := syncContext f; resyncInterval := resyncInterval f;
     informers := informers f; informerQueueKeys := informerQueueKeys f;
     bareInformers := bareInformers f; cachesToSync := cachesToSync f |}.
Definition set_syncContext (x : SyncContext) (f : Factory) : Factory :=
  {| sync := sync f; syncContext := x; resyncInterval := resyncInterval f;
     informers := informers f; informerQueueKeys := informerQueueKeys f;
     bareInformers := bareInformers f; cachesToSync := cachesToSync f |}.
Definition set_resyncInterval (x : Duration) (f : Factory) : Factory :=
  {| sync := sync f; syncContext := syncContext f; resyncInterval := x;
     informers := informers f; informerQueueKeys := informerQueueKeys f;
     bareInformers := bareInformers f; cachesToSync := cachesToSync f |}.
Definition set_informers (x : list filteredInformers) (f : Factory) : Factory :=
  {| sync := sync f; syncContext := syncContext f; resyncInterval := resyncInterval f;
     informers := x; informerQueueKeys := informerQueueKeys f;
     bareInformers := bareInformers f; cachesToSync := cachesToSync f |}.
Definition set_informerQueueKeys (x : list informersWithQueueKey) (f : Factory) : Factory :=
  {| sync := sync f; syncContext := syncContext f; resyncInterval := resyncInterval f;
     informers := informers f; informerQueueKeys := x;
     bareInformers := bareInformers f; cachesToSync := cachesToSync f |}.
Definition set_bareInformers (x : list Informer) (f : Factory) : Factory :=
  {| sync := sync f; syncContext := syncContext f; resyncInterval := resyncInterval f;
     informers := informers f; informerQueueKeys := informerQueueKeys f;
     bareInformers := x; cachesToSync := cachesToSync f |}.

Definition set_bc_cachesToSync (x : slice) (c : baseController) : baseController :=
  {| bc_name := bc_name c; bc_sync := bc_sync c; bc_resyncEvery := bc_resyncEvery c;
     bc_cachesToSync := x; bc_syncContext := bc_syncContext c;
     bc_cacheSyncTimeout := bc_cacheSyncTimeout c |}.

Abbreviation Call := (M PanicValue World).

(** [*f] and [*f = x] through a [*Factory]; nil panics. *)
Definition loadFactory (f : loc) : Call Factory := fun w =>
  match factories w !! f with
  | Some x => Ok x w
  | None => Panic RuntimeError
  end.

Definition storeFactory (f : loc) (x : Factory) : Call unit := fun w =>
  match factories w !! f with
  | Some _ => Ok tt (set_factories (<[f := x]> (factories w)) w)
  | None => Panic RuntimeError
  end.

Definition loadController (c : loc) : Call baseController := fun w =>
  match controllers w !! c with
  | Some x => Ok x w
  | None => Panic RuntimeError
  end.

Definition storeController (c : loc) (x : baseController) : Call unit := fun w =>
  match controllers w !! c with
  | Some _ => Ok tt (set_controllers (<[c := x]> (controllers w)) w)
  | None => Panic RuntimeError
  end.

(** [&Factory{}] *)
Definition New : Call loc := fun w =>
  let f := fresh ({[null]} ∪ dom (factories w)) in
  Ok f (set_factories
          (<[f := {| sync := None; syncContext := ctx_nil; resyncInterval := 0%Z;
                     informers := []; informerQueueKeys := []; bareInformers := [];
                     cachesToSync := nil_slice |}]> (factories w)) w).

Definition WithSync (f : loc) (syncFn : SyncFunc) : Call loc :=
  x ← loadFactory f;
  storeFactory f (set_sync syncFn x);;
  mret f.

Definition WithFilteredEventsInformers (f : loc) (filter : EventFilterFunc)
    (informers_ : list Informer) : Call loc :=
  x ← loadFactory f;
  storeFactory f
    (set_informers
       (informers x ++ [{| fi_informers := informers_; fi_filter := filter |}]) x);;
  mret f.

Definition WithInformers (f : loc) (informers_ : list Informer) : Call loc :=
  WithFilteredEventsInformers f None informers_;;
  mret f.

Definition WithBareInformers (f : loc) (informers_ : list Informer) : Call loc :=
  x ← loadFactory f;
  storeFactory f (set_bareInformers (bareInformers x ++ informers_) x);;
  mret f.

Definition WithInformersQueueKeysFunc (f : loc) (queueKeyFn : ObjectQueueKeysFunc)
    (informers_ : list Informer) : Call loc :=
  x ← loadFactory f;
  storeFactory f
    (set_informerQueueKeys
       (informerQueueKeys x ++
        [{| qk_informers := informers_; qk_filter := None; qk_queueKeyFn := queueKeyFn |}]) x);;
  mret f.

Definition WithFilteredEventsInformersQueueKeysFunc (f : loc)
    (queueKeyFn : ObjectQueueKeysFunc) (filter : EventFilterFunc)
    (informers_ : list Informer) : Call loc :=
  x ← loadFactory f;
  storeFactory f
    (set_informerQueueKeys
       (informerQueueKeys x ++
        [{| qk_informers := informers_; qk_filter := filter; qk_queueKeyFn := queueKeyFn |}]) x);;
  mret f.

Definition ResyncEvery (f : loc) (interval : Duration) : Call loc :=
  x ← loadFactory f;
  storeFactory f (set_resyncInterval interval x);;
  mret f.

Definition WithSyncContext (f : loc) (ctx : SyncContext) : Call loc :=
  x ← loadFactory f;
  storeFactory f (set_syncContext ctx x);;
  mret f.

(** Modelled from the spec: [NewSyncContext] is declared in another file of
    the package.  The controller exclusively owns its work queue, so every
    call makes a queue of its own, named after the controller; the result has
    the dynamic type [syncContext], the one [ToController] asserts below. *)
Definition NewSyncContext (name : string) : Call SyncContext := fun w =>
  let q := fresh (dom (queues w)) in
  Ok (ctx_syncContext q) (set_queues (<[q := name]> (queues w)) w).

(** The type assertion [ctx.(syncContext)]: a run-time panic unless the
    dynamic type of [ctx] is [syncContext]. *)
Definition assert_syncContext (ctx : SyncContext) : Call QueueRef :=
  match ctx with
  | ctx_syncContext q => mret q
  | _ => panic RuntimeError
  end.

(** Modelled from the spec: [syncContext.eventHandler(queueKeysFunc, filter)]
    is declared in another file of the package.  A dispatcher binds a source
    to the work queue through a key extractor and an optional filter, so the
    handler is that triple. *)
Definition eventHandler (q : QueueRef) (queueKeysFunc : ObjectQueueKeysFunc)
    (filter : EventFilterFunc) : ResourceEventHandler :=
  {| eh_queue := q; eh_queueKeysFunc := queueKeysFunc; eh_filter := filter |}.

(** Modelled from the spec: [informer.AddEventHandler(handler)] is the
    event source's [subscribe(handler)].  The informer keeps the handlers it
    is given, in order; on the nil interface the call panics. *)
Definition AddEventHandler (informer : Informer) (handler : ResourceEventHandler)
    : Call unit :=
  match informer with
  | None => panic RuntimeError
  | Some i => fun w =>
      Ok tt (set_handlers (<[i := default [] (handlers w !! i) ++ [handler]]> (handlers w)) w)
  end.

(** The method value [informer.HasSynced]; on the nil interface evaluating
    it panics. *)
Definition HasSynced_of (informer : Informer) : Call InformerSynced :=
  match informer with
  | None => panic RuntimeError
  | Some i => mret (HasSynced i)
  end.

(** [c.cachesToSync = append(c.cachesToSync, p)] *)
Definition appendCachesToSync (c : loc) (p : InformerSynced) : Call unit :=
  x ← loadController c;
  w ← get;
  let sh := append synced_nil growslice_spare (bc_cachesToSync x) [p] (syncedArrays w) in
  put (set_syncedArrays sh.2 w);;
  storeController c (set_bc_cachesToSync sh.1 x).

(** The inner loop of [ToController] over the informers of one registration:
    attach a handler built by the controller's sync context, then record the
    informer's readiness predicate. *)
Fixpoint attachInformers (c : loc) (queueKeyFn : ObjectQueueKeysFunc)
    (filter : EventFilterFunc) (informers_ : list Informer) : Call unit :=
  match informers_ with
  | [] => mret tt
  | informer :: rest =>
      x ← loadController c;
      q ← assert_syncContext (bc_syncContext x);
      AddEventHandler informer (eventHandler q queueKeyFn filter);;
      p ← HasSynced_of informer;
      appendCachesToSync c p;;
      attachInformers c queueKeyFn filter rest
  end.

(** [for i := range f.informerQueueKeys] *)
Fixpoint attachQueueKeys (c : loc) (regs : list informersWithQueueKey) : Call unit :=
  match regs with
  | [] => mret tt
  | r :: rest =>
      attachInformers c (qk_queueKeyFn r) (qk_filter r) (qk_informers r);;
      attachQueueKeys c rest
  end.

(** [for i := range f.informers] *)
Fixpoint attachFiltered (c : loc) (regs : list filteredInformers) : Call unit :=
  match regs with
  | [] => mret tt
  | r :: rest =>
      attachInformers c (Some DefaultQueueKeysFunc) (fi_filter r) (fi_informers r);;
      attachFiltered c rest
  end.

(** [for i := range f.bareInformers] *)
Fixpoint attachBare (c : loc) (informers_ : list Informer) : Call unit :=
  match informers_ with
  | [] => mret tt
  | informer :: rest =>
      p ← HasSynced_of informer;
      appendCachesToSync c p;;
      attachBare c rest
  end.

(** [&baseController{...}] *)
Definition newController (x : baseController) : Call loc := fun w =>
  let c := fresh ({[null]} ∪ dom (controllers w)) in
  Ok c (set_controllers (<[c := x]> (controllers w)) w).

(** Controller produce a runnable controller.

    The factory is not written to between its first read and the return, so
    it is read once. *)
Definition ToController (f : loc) (name : string) : Call loc :=
  x ← loadFactory f;
  match sync x with
  | None => panic (WithSyncMissing name)
  | Some _ =>
      ctx ← match syncContext x with
            | ctx_nil => NewSyncContext name
            | ctx => mret ctx
            end;
      w ← get;
      let sh := append synced_nil growslice_spare empty_slice
                  (elems (syncedArrays w) (cachesToSync x)) (syncedArrays w) in
      put (set_syncedArrays sh.2 w);;
      c ← newController
            {| bc_name := name;
               bc_sync := sync x;
               bc_resyncEvery := resyncInterval x;
               bc_cachesToSync := sh.1;
               bc_syncContext := ctx;
               bc_cacheSyncTimeout := defaultCacheSyncTimeout |};
      attachQueueKeys c (informerQueueKeys x);;
      attachFiltered c (informers x);;
      attachBare c (bareInformers x);;
      mret c
  end.

End model.
End Factory.

(** ** The agent-addon factory (package addonfactory) *)
Module AddonFactory.
Import Go.

Definition AddonDefaultInstallNamespace : string :=
  "open-cluster-management-agent-addon".

(** AnnotationValuesName is the annotation Name of customized values *)
Definition AnnotationValuesName : string :=
  "addon.open-cluster-management.io/values".

(** [schema.GroupVersionResource] of apimachinery, a comparable struct of
    three strings, with its methods [Empty] and [String]. *)
Record GroupVersionResource := GVR {
  Group : string;
  Version : string;
  Resource : string;
}.

#[global] Instance GroupVersionResource_eq_dec : EqDecision GroupVersionResource.
Proof. solve_decision. Defined.

#[global] Instance GroupVersionResource_countable : Countable GroupVersionResource.
Proof.
  refine (inj_countable' (fun g => (Group g, Version g, Resource g))
            (fun t => GVR t.1.1 t.1.2 t.2) _).
  by intros [].
Defined.

Definition GVR_Empty (gvr : GroupVersionResource) : bool :=
  bool_decide (String.length (Group gvr) = 0) &&
  bool_decide (String.length (Version gvr) = 0) &&
  bool_decide (String.length (Resource gvr) = 0).

Definition GVR_String (gvr : GroupVersionResource) : string :=
  Group gvr +:+ "/" +:+ Version gvr +:+ ", Resource=" +:+ Resource gvr.

(** The scheme builders the factory registers into its scheme. *)
Inductive SchemeBuilder :=
  | kubernetes_scheme
  | apiextensions_v1
  | apiextensions_v1beta1.

(** The types the file takes from elsewhere: [embed.FS], the non-nil values
    of [GetValuesFunc] and of the cluster filter, the fields of
    [agent.InstallStrategy] other than its namespace, the loaded chart, the
    two kinds of agent addon, and the errors of the file system and the chart
    loader. *)
Class Externals := {
  FS : Type;
  GetValuesFn : Type;
  ClusterFilterFn : Type;
  InstallStrategyRest : Type;
  Chart : Type;
  HelmAgentAddon : Type;
  TemplateAgentAddon : Type;
  ExternalError : Type;
}.

Section model.
Context `{Ext : Externals}.

Definition GetValuesFunc := option GetValuesFn.

(** [agent.InstallStrategy] *)
Record InstallStrategy := {
  InstallNamespace : string;
  strategy_rest : InstallStrategyRest;
}.

(** [agent.AgentAddonOptions], with the fields this file refers to;
    pointers are locations, [null] for nil.  The field [InstallStrategy] is
    written [InstallStrategy_] here, the name being that of the struct. *)
Record AgentAddonOptions := {
  AddonName : string;
  Registration : loc;
  InstallStrategy_ : loc;
  HealthProber : loc;
  SupportedConfigGVRs : list GroupVersionResource;
  HostedModeEnabled : bool;
  AgentDeployTriggerClusterFilter : option ClusterFilterFn;
}.

(** AgentAddonFactory includes the common fields for building different
    agentAddon instances. *)
Record AgentAddonFactory := {
  scheme : loc;
  fs : FS;
  dir : string;
  getValuesFuncs : list GetValuesFunc;
  agentAddonOptions : AgentAddonOptions;
  trimCRDDescription : bool;
  hostingCluster : loc;
}.

(** The store: the factories and install strategies behind their pointers,
    and for every scheme the [AddToScheme] calls it has received. *)
Record World := {
  factories : gmap loc AgentAddonFactory;
  strategies : gmap loc InstallStrategy;
  schemes : gmap loc (list SchemeBuilder);
}.

(** The errors the file makes, and those it passes on. *)
Inductive Err :=
  (** "config type is empty, index=%d" *)
  | ErrConfigTypeEmpty (index : nat)
  (** "config version is required, index=%d" *)
  | ErrConfigVersionRequired (index : nat)
  (** "config resource is required, index=%d" *)
  | ErrConfigResourceRequired (index : nat)
  (** "config type %q is duplicated" *)
  | ErrConfigTypeDuplicated (gvr : string)
  (** "there is no template files" *)
  | ErrNoTemplateFiles
  | ErrExternal (e : ExternalError).

(** The [agent.AgentAddon] interface value the builders return. *)
Inductive AgentAddon :=
  | helmAgentAddon (a : HelmAgentAddon)
  | templateAgentAddon (a : TemplateAgentAddon).

(** The only panic of this file is the nil dereference. *)
Inductive PanicValue := RuntimeError.

Abbreviation Call := (M PanicValue World).

Definition set_factories (x : gmap loc AgentAddonFactory) (w : World) : World :=
  {| factories := x; strategies := strategies w; schemes := schemes w |}.
Definition set_strategies (x : gmap loc InstallStrategy) (w : World) : World :=
  {| factories := factories w; strategies := x; schemes := schemes w |}.
Definition set_schemes (x : gmap loc (list SchemeBuilder)) (w : World) : World :=
  {| factories := factories w; strategies := strategies w; schemes := x |}.

Definition set_Registration (x : loc) (o : AgentAddonOptions) : AgentAddonOptions :=
  {| AddonName := AddonName o; Registration := x; InstallStrategy_ := InstallStrategy_ o;
     HealthProber := HealthProber o; SupportedConfigGVRs := SupportedConfigGVRs o;
     HostedModeEnabled := HostedModeEnabled o;
     AgentDeployTriggerClusterFilter := AgentDeployTriggerClusterFilter o |}.
Definition set_InstallStrategy (x : loc) (o : AgentAddonOptions) : AgentAddonOptions :=
  {| AddonName := AddonName o; Registration := Registration o; InstallStrategy_ := x;
     HealthProber := HealthProber o; SupportedConfigGVRs := SupportedConfigGVRs o;
     HostedModeEnabled := HostedModeEnabled o;
     AgentDeployTriggerClusterFilter := AgentDeployTriggerClusterFilter o |}.
Definition set_HealthProber (x : loc) (o : AgentAddonOptions) : AgentAddonOptions :=
  {| AddonName := AddonName o; Registration := Registration o;
     InstallStrategy_ := InstallStrategy_ o;
     HealthProber := x; SupportedConfigGVRs := SupportedConfigGVRs o;
     HostedModeEnabled := HostedModeEnabled o;
     AgentDeployTriggerClusterFilter := AgentDeployTriggerClusterFilter o |}.
Definition set_SupportedConfigGVRs (x : list GroupVersionResource) (o : AgentAddonOptions)
    : AgentAddonOptions :=
  {| AddonName := AddonName o; Registration := Registration o;
     InstallStrategy_ := InstallStrategy_ o;
     HealthProber := HealthProber o; SupportedConfigGVRs := x;
     HostedModeEnabled := HostedModeEnabled o;
     AgentDeployTriggerClusterFilter := AgentDeployTriggerClusterFilter o |}.
Definition set_HostedModeEnabled (x : bool) (o : AgentAddonOptions) : AgentAddonOptions :=
  {| AddonName := AddonName o; Registration := Registration o;
     InstallStrategy_ := InstallStrategy_ o;
     HealthProber := HealthProber o; SupportedConfigGVRs := SupportedConfigGVRs o;
     HostedModeEnabled := x;
     AgentDeployTriggerClusterFilter := AgentDeployTriggerClusterFilter o |}.
Definition set_AgentDeployTriggerClusterFilter (x : option ClusterFilterFn)
    (o : AgentAddonOptions) : AgentAddonOptions :=
  {| AddonName := AddonName o; Registration := Registration o;
     InstallStrategy_ := InstallStrategy_ o;
     HealthProber := HealthProber o; SupportedConfigGVRs := SupportedConfigGVRs o;
     HostedModeEnabled := HostedModeEnabled o;
     AgentDeployTriggerClusterFilter := x |}.

Definition set_scheme (x : loc) (f : AgentAddonFactory) : AgentAddonFactory :=
  {| scheme := x; fs := fs f; dir := dir f; getValuesFuncs := getValuesFuncs f;
     agentAddonOptions := agentAddonOptions f; trimCRDDescription := trimCRDDescription f;
     hostingCluster := hostingCluster f |}.
Definition set_getValuesFuncs (x : list GetValuesFunc) (f : AgentAddonFactory)
    : AgentAddonFactory :=
  {| scheme := scheme f; fs := fs f; dir := dir f; getValuesFuncs := x;
     agentAddonOptions := agentAddonOptions f; trimCRDDescription := trimCRDDescription f;
     hostingCluster := hostingCluster f |}.
Definition set_agentAddonOptions (x : AgentAddonOptions) (f : AgentAddonFactory)
    : AgentAddonFactory :=
  {| scheme := scheme f; fs := fs f; dir := dir f; getValuesFuncs := getValuesFuncs f;
     agentAddonOptions := x; trimCRDDescription := trimCRDDescription f;
     hostingCluster := hostingCluster f |}.
Definition set_trimCRDDescription (x : bool) (f : AgentAddonFactory) : AgentAddonFactory :=
  {| scheme := scheme f; fs := fs f; dir := dir f; getValuesFuncs := getValuesFuncs f;
     agentAddonOptions := agentAddonOptions f; trimCRDDescription := x;
     hostingCluster := hostingCluster f |}.
Definition set_hostingCluster (x : loc) (f : AgentAddonFactory) : AgentAddonFactory :=
  {| scheme := scheme f; fs := fs f; dir := dir f; getValuesFuncs := getValuesFuncs f;
     agentAddonOptions := agentAddonOptions f; trimCRDDescription := trimCRDDescription f;
     hostingCluster := x |}.

Definition loadFactory (f : loc) : Call AgentAddonFactory := fun w =>
  match factories w !! f with
  | Some x => Ok x w
  | None => Panic RuntimeError
  end.

Definition storeFactory (f : loc) (x : AgentAddonFactory) : Call unit := fun w =>
  match factories w !! f with
  | Some _ => Ok tt (set_factories (<[f := x]> (factories w)) w)
  | None => Panic RuntimeError
  end.

Definition loadStrategy (p : loc) : Call InstallStrategy := fun w =>
  match strategies w !! p with
  | Some x => Ok x w
  | None => Panic RuntimeError
  end.

Definition storeStrategy (p : loc) (x : InstallStrategy) : Call unit := fun w =>
  match strategies w !! p with
  | Some _ => Ok tt (set_strategies (<[p := x]> (strategies w)) w)
  | None => Panic RuntimeError
  end.

(** [_ = b.AddToScheme(s)]: the scheme records the call; on a nil scheme the
    registration panics. *)
Definition AddToScheme (b : SchemeBuilder) (s : loc) : Call unit := fun w =>
  match schemes w !! s with
  | Some bs => Ok tt (set_schemes (<[s := bs ++ [b]]> (schemes w)) w)
  | None => Panic RuntimeError
  end.

(** [runtime.NewScheme()] *)
Definition NewScheme : Call loc := fun w =>
  let s := fresh ({[null]} ∪ dom (schemes w)) in
  Ok s (set_schemes (<[s := []]> (schemes w)) w).

(** [&AgentAddonFactory{...}] *)
Definition newFactory (x : AgentAddonFactory) : Call loc := fun w =>
  let f := fresh ({[null]} ∪ dom (factories w)) in
  Ok f (set_factories (<[f := x]> (factories w)) w).

(** NewAgentAddonFactory builds an addonAgentFactory instance with addon name
    and fs.  dir is the path prefix based on the fs path. *)
Definition NewAgentAddonFactory (addonName : string) (fs_ : FS) (dir_ : string) : Call loc :=
  s ← NewScheme;
  AddToScheme kubernetes_scheme s;;
  AddToScheme apiextensions_v1 s;;
  AddToScheme apiextensions_v1beta1 s;;
  newFactory
    {| fs := fs_;
       dir := dir_;
       agentAddonOptions :=
         {| AddonName := addonName;
            Registration := null;
            InstallStrategy_ := null;
            HealthProber := null;
            SupportedConfigGVRs := [];
            HostedModeEnabled := false;
            AgentDeployTriggerClusterFilter := None |};
       trimCRDDescription := false;
       scheme := s;
       getValuesFuncs := [];
       hostingCluster := null |}.

(** WithScheme is an optional configuration, only used when the agentAddon
    has customized resource types. *)
Definition WithScheme (f : loc) (s : loc) : Call loc :=
  x ← loadFactory f;
  storeFactory f (set_scheme s x);;
  AddToScheme kubernetes_scheme s;;
  AddToScheme apiextensions_v1 s;;
  AddToScheme apiextensions_v1beta1 s;;
  mret f.

(** WithGetValuesFuncs adds a list of the getValues func. *)
Definition WithGetValuesFuncs (f : loc) (getValuesFuncs_ : list GetValuesFunc) : Call loc :=
  x ← loadFactory f;
  storeFactory f (set_getValuesFuncs getValuesFuncs_ x);;
  mret f.

(** WithInstallStrategy defines the installation strategy of the manifests
    prescribed by Manifests(..). *)
Definition WithInstallStrategy (f : loc) (strategy : loc) : Call loc :=
  s ← loadStrategy strategy;
  (if decide (InstallNamespace s = "")
   then storeStrategy strategy
          {| InstallNamespace := AddonDefaultInstallNamespace;
             strategy_rest := strategy_rest s |}
   else mret tt);;
  x ← loadFactory f;
  storeFactory f (set_agentAddonOptions (set_InstallStrategy strategy (agentAddonOptions x)) x);;
  mret f.

(** WithAgentRegistrationOption defines how agent is registered to the hub
    cluster. *)
Definition WithAgentRegistrationOption (f : loc) (option_ : loc) : Call loc :=
  x ← loadFactory f;
  storeFactory f (set_agentAddonOptions (set_Registration option_ (agentAddonOptions x)) x);;
  mret f.

(** WithAgentHealthProber defines how is the healthiness status of the
    ManagedClusterAddon probed. *)
Definition WithAgentHealthProber (f : loc) (prober : loc) : Call loc :=
  x ← loadFactory f;
  storeFactory f (set_agentAddonOptions (set_HealthProber prober (agentAddonOptions x)) x);;
  mret f.

(** WithAgentHostedModeEnabledOption will enable the agent hosted deploying
    mode. *)
Definition WithAgentHostedModeEnabledOption (f : loc) : Call loc :=
  x ← loadFactory f;
  storeFactory f (set_agentAddonOptions (set_HostedModeEnabled true (agentAddonOptions x)) x);;
  mret f.

(** WithTrimCRDDescription is to enable trim the description of CRDs in
    manifestWork. *)
Definition WithTrimCRDDescription (f : loc) : Call loc :=
  x ← loadFactory f;
  storeFactory f (set_trimCRDDescription true x);;
  mret f.

(** WithConfigGVRs defines the addon supported configuration
    GroupVersionResource *)
Definition WithConfigGVRs (f : loc) (gvrs : list GroupVersionResource) : Call loc :=
  x ← loadFactory f;
  storeFactory f
    (set_agentAddonOptions
       (set_SupportedConfigGVRs (SupportedConfigGVRs (agentAddonOptions x) ++ gvrs)
          (agentAddonOptions x)) x);;
  mret f.

(** WithHostingCluster defines the hosting cluster used in hosted mode. *)
Definition WithHostingCluster (f : loc) (cluster : loc) : Call loc :=
  x ← loadFactory f;
  storeFactory f (set_hostingCluster cluster x);;
  mret f.

(** WithAgentDeployTriggerClusterFilter defines the filter func to trigger
    the agent deploy/redploy when cluster info is changed. *)
Definition WithAgentDeployTriggerClusterFilter (f : loc)
    (filter : option ClusterFilterFn) : Call loc :=
  x ← loadFactory f;
  storeFactory f
    (set_agentAddonOptions
       (set_AgentDeployTriggerClusterFilter filter (agentAddonOptions x)) x);;
  mret f.

(** The body of the loop of [validateSupportedConfigGVRs], from position
    [index] on, with the map of the entries seen so far. *)
Fixpoint validateFrom (index : nat) (configGVRMap : gmap GroupVersionResource bool)
    (configGVRs : list GroupVersionResource) : option Err :=
  match configGVRs with
  | [] => None
  | gvr :: rest =>
      if GVR_Empty gvr then Some (ErrConfigTypeEmpty index)
      else if decide (Version gvr = "") then Some (ErrConfigVersionRequired index)
      else if decide (Resource gvr = "") then Some (ErrConfigResourceRequired index)
      else match configGVRMap !! gvr with
           | Some _ => Some (ErrConfigTypeDuplicated (GVR_String gvr))
           | None => validateFrom (S index) (<[gvr := true]> configGVRMap) rest
           end
  end.

Definition validateSupportedConfigGVRs (configGVRs : list GroupVersionResource)
    : option Err :=
  if decide (length configGVRs = 0) then
    (* no configs required, ignore *)
    None
  else validateFrom 0 ∅ configGVRs.

(** The functions of the package declared in other files: the chart and
    template loaders, the file system's [ReadFile], and the constructors of
    the two addons.  A Go result pair [(v, err)] is a pair here. *)
Class Loaders := {
  loadChart : FS -> string -> Chart * option ExternalError;
  getTemplateFiles : FS -> string -> list string * option ExternalError;
  ReadFile : FS -> string -> list Byte.byte * option ExternalError;
  newHelmAgentAddon : loc -> AgentAddonFactory -> Chart -> HelmAgentAddon;
  newTemplateAgentAddon : loc -> AgentAddonFactory -> TemplateAgentAddon;
  addTemplateData : TemplateAgentAddon -> string -> list Byte.byte -> TemplateAgentAddon;
}.

Context `{Ld : Loaders}.

(** BuildHelmAgentAddon builds a helm agentAddon instance. *)
Definition BuildHelmAgentAddon (f : loc) : Call (option AgentAddon * option Err) :=
  x ← loadFactory f;
  match validateSupportedConfigGVRs (SupportedConfigGVRs (agentAddonOptions x)) with
  | Some err => mret (None, Some err)
  | None =>
      let r := loadChart (fs x) (dir x) in
      match r.2 with
      | Some err => mret (None, Some (ErrExternal err))
      | None => mret (Some (helmAgentAddon (newHelmAgentAddon f x r.1)), None)
      end
  end.

(** [for _, file := range templateFiles] *)
Fixpoint readTemplates (fs_ : FS) (agentAddon : TemplateAgentAddon)
    (templateFiles : list string) : option AgentAddon * option Err :=
  match templateFiles with
  | [] => (Some (templateAgentAddon agentAddon), None)
  | file :: rest =>
      let r := ReadFile fs_ file in
      match r.2 with
      | Some err => (None, Some (ErrExternal err))
      | None => readTemplates fs_ (addTemplateData agentAddon file r.1) rest
      end
  end.

(** BuildTemplateAgentAddon builds a template agentAddon instance.  (The log
    line on a failing [getTemplateFiles] is left out.) *)
Definition BuildTemplateAgentAddon (f : loc) : Call (option AgentAddon * option Err) :=
  x ← loadFactory f;
  match validateSupportedConfigGVRs (SupportedConfigGVRs (agentAddonOptions x)) with
  | Some err => mret (None, Some err)
  | None =>
      let r := getTemplateFiles (fs x) (dir x) in
      match r.2 with
      | Some err => mret (None, Some (ErrExternal err))
      | None =>
          if decide (length r.1 = 0) then mret (None, Some ErrNoTemplateFiles)
          else mret (readTemplates (fs x) (newTemplateAgentAddon f x) r.1)
      end
  end.

End model.
End AddonFactory.

(** ** The run loop of a controller *)
Module Controller.
Import Go Factory.

(** Modelled from the spec: [Run] of the controller is declared in another
    file of the package.  The run loop is the state machine
    constructed, warming-up, running, draining, stopped. *)
Inductive Phase :=
  | constructed
  | warming_up
  | running
  | draining
  | stopped.

(** Modelled from the spec: [Run] is declared in another file of the
    package.  Only the readiness timeout surfaces as a fatal return value of
    a run. *)
Inductive RunError := ReadinessTimeout.

(** Modelled from the spec: the controller's configuration as [Run], declared
    in another file of the package, reads it: the ordered list of readiness
    predicates, the cache-sync timeout in polls, the resync interval. *)
Record Config := {
  cfg_predicates : list InformerSynced;
  cfg_timeout : nat;
  cfg_resync : Z;
}.

(** Modelled from the spec: the state of one [Run], which is declared in
    another file of the package: the phase, the polls that found the sources
    not ready, the keys waiting in the work queue, the keys the sync function
    has been invoked with (oldest first), and what [Run] returned. *)
Record RunState := {
  phase : Phase;
  elapsed : nat;
  queue : list string;
  invoked : list string;
  returned : option (option RunError);
}.

(** Modelled from the spec: what can happen during a [Run], which is declared
    in another file of the package: [Run] is called, the readiness gate polls
    its predicates, a dispatcher enqueues a key, the resync timer fires, a
    worker takes a key and invokes the sync function (which fails or not),
    the cancellation signal fires, the last worker returns. *)
Inductive Event :=
  | run_called
  | poll
  | enqueue (key : string)
  | resync_fired
  | work (failed : bool)
  | cancel
  | drained.

(** Modelled from the spec: [Run] is declared in another file of the package.
    A controller as the factory returns it: constructed, its queue empty, the
    sync function never invoked. *)
Definition initial : RunState :=
  {| phase := constructed; elapsed := 0; queue := []; invoked := []; returned := None |}.

(** Modelled from the spec: the work queue is declared in another file of the
    package.  Enqueuing a key that is already queued is a no-op. *)
Definition add (key : string) (q : list string) : list string :=
  if decide (key ∈ q) then q else q ++ [key].

Section run.
Variable cfg : Config.
(** What each readiness predicate answers at each poll. *)
Variable isSynced : nat -> InformerSynced -> bool.

(** Modelled from the spec: the readiness gate is declared in another file of
    the package.  One poll asks every predicate. *)
Definition allSynced (t : nat) : bool := forallb (isSynced t) (cfg_predicates cfg).

(** Modelled from the spec: [Run] is declared in another file of the package.
    One transition of the run loop; [None] when the event cannot happen in
    the state.  Dispatchers enqueue before readiness completes, and the
    queue accepts nothing once shutdown is signalled; workers take keys only
    while running; a poll that finds every predicate true starts the
    workers, and one that does not after the timeout has elapsed ends the
    run with an error. *)
Definition step (s : RunState) (e : Event) : option RunState :=
  match e, phase s with
  | run_called, constructed =>
      Some {| phase := warming_up; elapsed := 0; queue := queue s;
              invoked := invoked s; returned := None |}
  | poll, warming_up =>
      if allSynced (elapsed s) then
        Some {| phase := running; elapsed := elapsed s; queue := queue s;
                invoked := invoked s; returned := None |}
      else if decide (elapsed s < cfg_timeout cfg) then
        Some {| phase := warming_up; elapsed := S (elapsed s); queue := queue s;
                invoked := invoked s; returned := None |}
      else
        Some {| phase := stopped; elapsed := elapsed s; queue := queue s;
                invoked := invoked s; returned := Some (Some ReadinessTimeout) |}
  | enqueue key, (constructed | warming_up | running) =>
      Some {| phase := phase s; elapsed := elapsed s; queue := add key (queue s);
              invoked := invoked s; returned := returned s |}
  | enqueue key, (draining | stopped) => Some s
  | resync_fired, running =>
      if decide (0 < cfg_resync cfg)%Z then
        Some {| phase := running; elapsed := elapsed s;
                queue := add DefaultQueueKey (queue s);
                invoked := invoked s; returned := None |}
      else None
  | work failed, running =>
      match queue s with
      | [] => None
      | key :: rest =>
          Some {| phase := running; elapsed := elapsed s;
                  queue := if failed then rest ++ [key] else rest;
                  invoked := invoked s ++ [key]; returned := None |}
      end
  | cancel, running =>
      Some {| phase := draining; elapsed := elapsed s; queue := queue s;
              invoked := invoked s; returned := None |}
  | drained, draining =>
      Some {| phase := stopped; elapsed := elapsed s; queue := queue s;
              invoked := invoked s; returned := Some None |}
  | _, _ => None
  end.

(** Modelled from the spec: [Run] is declared in another file of the package.
    A run is a sequence of events from a state. *)
Fixpoint steps (s : RunState) (es : list Event) : option RunState :=
  match es with
  | [] => Some s
  | e :: rest =>
      match step s e with
      | Some s' => steps s' rest
      | None => None
      end
  end.

End run.

(** The polls of the readiness gate among the events of a run. *)
Fixpoint polls (es : list Event) : nat :=
  match es with
  | [] => 0
  | poll :: rest => S (polls rest)
  | _ :: rest => polls rest
  end.

(** What holds of every state a run reaches: before the gate opens the sync
    function has not been invoked and every poll so far found some source
    not ready; once it has opened, the poll that opened it found them all
    ready; and a run that returned the timeout error never saw them all
    ready within the timeout and never invoked the sync function. *)
Definition gated (cfg : Config) (isSynced : nat -> InformerSynced -> bool)
    (s : RunState) : Prop :=
  elapsed s <= cfg_timeout cfg /\
  match phase s with
  | constructed | warming_up =>
      invoked s = [] /\ returned s = None /\
      forall t, t < elapsed s -> allSynced cfg isSynced t = false
  | running | draining =>
      returned s = None /\ allSynced cfg isSynced (elapsed s) = true
  | stopped =>
      (returned s = Some None /\ allSynced cfg isSynced (elapsed s) = true) \/
      (returned s = Some (Some ReadinessTimeout) /\ invoked s = [] /\
       forall t, t <= cfg_timeout cfg -> allSynced cfg isSynced t = false)
  end.

(** The configuration [Run] reads off a controller built by the factory. *)
Definition config_of `{Externals} (w : World) (c : baseController) : Config :=
  {| cfg_predicates := elems (syncedArrays w) (bc_cachesToSync c);
     cfg_timeout := Z.to_nat (bc_cacheSyncTimeout c);
     cfg_resync := bc_resyncEvery c |}.

End Controller.

(** ** What [ToController] is expected to leave behind *)
Module FactorySpec.
Import Go Factory.

Section spec.
Context `{Ext : Externals}.
Implicit Types (w : World) (c f : loc) (x : Factory) (s : slice).

(** The informers behind a list of interface values. *)
Definition refs_of (l : list Informer) : list InformerRef := omap id l.

(** Every registration [ToController] attaches a handler for, in the order
    of its two loops: informer, key function, filter. *)
Definition registrations x : list (Informer * ObjectQueueKeysFunc * EventFilterFunc) :=
  flat_map (fun r => (fun i => (i, qk_queueKeyFn r, qk_filter r)) <$> qk_informers r)
    (informerQueueKeys x) ++
  flat_map (fun r => (fun i => (i, Some DefaultQueueKeysFunc, fi_filter r)) <$> fi_informers r)
    (informers x).

(** Every informer whose readiness the controller waits for, in the order of
    the three loops. *)
Definition sources x : list Informer :=
  ((fun r => r.1.1) <$> registrations x) ++ bareInformers x.

(** One informer is given one handler. *)
Definition subscribe (q : QueueRef)
    (hs : gmap InformerRef (list ResourceEventHandler))
    (r : Informer * ObjectQueueKeysFunc * EventFilterFunc)
    : gmap InformerRef (list ResourceEventHandler) :=
  match r.1.1 with
  | Some i => <[i := default [] (hs !! i) ++ [eventHandler q r.1.2 r.2]]> hs
  | None => hs
  end.

(** The handlers a run over [regs] gives informer [i]. *)
Definition handlers_for (q : QueueRef)
    (regs : list (Informer * ObjectQueueKeysFunc * EventFilterFunc)) (i : InformerRef)
    : list ResourceEventHandler :=
  (fun r => eventHandler q r.1.2 r.2) <$> filter (fun r => r.1.1 = Some i) regs.

Definition is_syncContext (ctx : SyncContext) : bool :=
  match ctx with ctx_syncContext _ => true | _ => false end.

Definition queue_of (ctx : SyncContext) : QueueRef :=
  match ctx with ctx_syncContext q => q | _ => 0 end.

(** The controller under construction: behind [c] is [x0] but for its
    readiness list, which shows [ps] and lives in an array that did not exist
    in [h0]; the arrays of [h0] are as they were. *)
Definition building (h0 : gmap loc (list InformerSynced)) c (x0 : baseController)
    w (ps : list InformerSynced) : Prop :=
  exists s,
    controllers w !! c = Some (set_bc_cachesToSync s x0) /\
    slice_wf (syncedArrays w) s /\
    elems (syncedArrays w) s = ps /\
    (s_cap s = 0 \/ h0 !! s_arr s = None) /\
    (forall l, is_Some (h0 !! l) -> syncedArrays w !! l = h0 !! l).

(** What the loops leave alone. *)
Definition same_rest c w w' : Prop :=
  factories w' = factories w /\
  queues w' = queues w /\
  (forall c', c' <> c -> controllers w' !! c' = controllers w !! c').

(** An interface value that holds an informer. *)
Definition present (i : Informer) : bool :=
  match i with Some _ => true | None => false end.

(** The readiness predicates of a list of informers. *)
Definition synced_of (l : list Informer) : list InformerSynced :=
  HasSynced <$> refs_of l.

(** When the handler loops run through: there is nothing to attach, or the
    controller's sync context is a [syncContext] and no informer is nil. *)
Definition regs_ok (ctx : SyncContext)
    (regs : list (Informer * ObjectQueueKeysFunc * EventFilterFunc)) : bool :=
  match regs with
  | [] => true
  | _ :: _ => is_syncContext ctx && forallb (fun r => present r.1.1) regs
  end.

(** What a handler loop that goes over [regs] does to a controller under
    construction: it runs through exactly when [regs_ok], and then the
    controller waits for the informers of [regs] as well, and each of them
    has its handler. *)
Definition loop_spec (h0 : gmap loc (list InformerSynced)) c (x0 : baseController)
    (L : M PanicValue World unit)
    (regs : list (Informer * ObjectQueueKeysFunc * EventFilterFunc)) : Prop :=
  forall w ps,
    building h0 c x0 w ps ->
    match L w with
    | Ok _ w' =>
        regs_ok (bc_syncContext x0) regs = true /\
        building h0 c x0 w' (ps ++ synced_of ((fun r => r.1.1) <$> regs)) /\
        same_rest c w w' /\
        handlers w' = foldl (subscribe (queue_of (bc_syncContext x0))) (handlers w) regs
    | Panic v => regs_ok (bc_syncContext x0) regs = false /\ v = RuntimeError
    end.

(** The sync context [ToController] gives the controller: the factory's,
    or a new one when the factory has none. *)
Definition controller_ctx x w : SyncContext :=
  match syncContext x with
  | ctx_nil => ctx_syncContext (fresh (dom (queues w)))
  | ctx => ctx
  end.

(** What [ToController(name)] leaves when it returns [c], on a factory that
    was [x] in a store [w]. *)
Definition built x (name : string) w c w' : Prop :=
  factories w' = factories w /\
  controllers w !! c = None /\
  (forall c', c' <> c -> controllers w' !! c' = controllers w !! c') /\
  (exists s,
     controllers w' !! c =
       Some {| bc_name := name; bc_sync := sync x; bc_resyncEvery := resyncInterval x;
               bc_cachesToSync := s; bc_syncContext := controller_ctx x w;
               bc_cacheSyncTimeout := defaultCacheSyncTimeout |} /\
     slice_wf (syncedArrays w') s /\
     elems (syncedArrays w') s
       = elems (syncedArrays w) (cachesToSync x) ++ synced_of (sources x) /\
     (s_cap s = 0 \/ syncedArrays w !! s_arr s = None)) /\
  (forall l, is_Some (syncedArrays w !! l) -> syncedArrays w' !! l = syncedArrays w !! l) /\
  handlers w' = foldl (subscribe (queue_of (controller_ctx x w))) (handlers w)
                  (registrations x).

(** When [ToController] runs through on a factory that is [x]. *)
Definition runs_through x : bool :=
  bool_decide (is_Some (sync x)) &&
  regs_ok (match syncContext x with ctx_nil => ctx_syncContext 0 | ctx => ctx end)
    (registrations x) &&
  forallb present (bareInformers x).

(** A call of one of the factory's configuration methods. *)
Inductive BuilderCall :=
  | call_WithSync (syncFn : SyncFunc)
  | call_WithInformers (l : list Informer)
  | call_WithFilteredEventsInformers (filter : EventFilterFunc) (l : list Informer)
  | call_WithBareInformers (l : list Informer)
  | call_WithInformersQueueKeysFunc (queueKeyFn : ObjectQueueKeysFunc) (l : list Informer)
  | call_WithFilteredEventsInformersQueueKeysFunc (queueKeyFn : ObjectQueueKeysFunc)
      (filter : EventFilterFunc) (l : list Informer)
  | call_ResyncEvery (interval : Duration)
  | call_WithSyncContext (ctx : SyncContext).

Definition run_call f (b : BuilderCall) : M PanicValue World loc :=
  match b with
  | call_WithSync syncFn => WithSync f syncFn
  | call_WithInformers l => WithInformers f l
  | call_WithFilteredEventsInformers filter l => WithFilteredEventsInformers f filter l
  | call_WithBareInformers l => WithBareInformers f l
  | call_WithInformersQueueKeysFunc k l => WithInformersQueueKeysFunc f k l
  | call_WithFilteredEventsInformersQueueKeysFunc k filter l =>
      WithFilteredEventsInformersQueueKeysFunc f k filter l
  | call_ResyncEvery interval => ResyncEvery f interval
  | call_WithSyncContext ctx => WithSyncContext f ctx
  end.

(** A chain [f.WithA(...).WithB(...)]: each call is made on the pointer the
    one before returned. *)
Fixpoint run_calls f (bs : list BuilderCall) : M PanicValue World loc :=
  match bs with
  | [] => mret f
  | b :: rest => g ← run_call f b; run_calls g rest
  end.

(** The informers a call registers, and the handler the controller is
    expected to build for each of them. *)
Definition call_informers (b : BuilderCall) : list Informer :=
  match b with
  | call_WithInformers l
  | call_WithFilteredEventsInformers _ l
  | call_WithBareInformers l
  | call_WithInformersQueueKeysFunc _ l
  | call_WithFilteredEventsInformersQueueKeysFunc _ _ l => l
  | _ => []
  end.

Definition call_handler (q : QueueRef) (b : BuilderCall) : option ResourceEventHandler :=
  match b with
  | call_WithInformers _ => Some (eventHandler q (Some DefaultQueueKeysFunc) None)
  | call_WithFilteredEventsInformers filter _ =>
      Some (eventHandler q (Some DefaultQueueKeysFunc) filter)
  | call_WithInformersQueueKeysFunc k _ => Some (eventHandler q k None)
  | call_WithFilteredEventsInformersQueueKeysFunc k filter _ =>
      Some (eventHandler q k filter)
  | _ => None
  end.

(** What a call does to the factory it is made on. *)
Definition apply_call (b : BuilderCall) x : Factory :=
  match b with
  | call_WithSync syncFn => set_sync syncFn x
  | call_WithInformers l =>
      set_informers (informers x ++ [{| fi_informers := l; fi_filter := None |}]) x
  | call_WithFilteredEventsInformers filter l =>
      set_informers (informers x ++ [{| fi_informers := l; fi_filter := filter |}]) x
  | call_WithBareInformers l => set_bareInformers (bareInformers x ++ l) x
  | call_WithInformersQueueKeysFunc k l =>
      set_informerQueueKeys
        (informerQueueKeys x ++
         [{| qk_informers := l; qk_filter := None; qk_queueKeyFn := k |}]) x
  | call_WithFilteredEventsInformersQueueKeysFunc k filter l =>
      set_informerQueueKeys
        (informerQueueKeys x ++
         [{| qk_informers := l; qk_filter := filter; qk_queueKeyFn := k |}]) x
  | call_ResyncEvery interval => set_resyncInterval interval x
  | call_WithSyncContext ctx => set_syncContext ctx x
  end.







(** The handler registrations and the bare informers a call adds. *)
Definition call_regs (b : BuilderCall)
    : list (Informer * ObjectQueueKeysFunc * EventFilterFunc) :=
  match b with
  | call_WithInformers l => (fun i => (i, Some DefaultQueueKeysFunc, None)) <$> l
  | call_WithFilteredEventsInformers filter l =>
      (fun i => (i, Some DefaultQueueKeysFunc, filter)) <$> l
  | call_WithInformersQueueKeysFunc k l => (fun i => (i, k, None)) <$> l
  | call_WithFilteredEventsInformersQueueKeysFunc k filter l =>
      (fun i => (i, k, filter)) <$> l
  | _ => []
  end.

Definition call_bare (b : BuilderCall) : list Informer :=
  match b with
  | call_WithBareInformers l => l
  | _ => []
  end.

End spec.

(** An instantiation of what the file takes from elsewhere, to run the model
    on examples: objects are strings, sync functions are numbered, the
    timeout is ten minutes, and a grown slice gets twice the capacity it
    needs. *)
Definition example_externals : Externals :=
  {| Object := string; Any := string; SyncFn := nat;
     defaultCacheSyncTimeout := 600000000000;
     growslice_spare := fun _ need => need |}.

#[local] Existing Instance example_externals.

(** A factory as [New] makes it. *)
Definition example_new : Factory :=
  {| sync := None; syncContext := ctx_nil; resyncInterval := 0%Z;
     informers := []; informerQueueKeys := []; bareInformers := [];
     cachesToSync := nil_slice |}.

(** The store after [New()], where the factory is behind pointer 1. *)
Definition example_store_new : World :=
  match New emptyWorld with
  | Ok _ w => w
  | Panic _ => emptyWorld
  end.

(** A configuration: a sync function, two informers under the default key,
    a bare informer, and an informer keyed by the object itself. *)
Definition example_calls : list BuilderCall :=
  [call_WithSync (Some 7);
   call_WithInformers [Some 3; Some 4];
   call_WithBareInformers [Some 9];
   call_WithInformersQueueKeysFunc (Some (fun o : string => [o])) [Some 5]].

Definition example_store_configured : World :=
  match run_calls 1 example_calls example_store_new with
  | Ok _ w => w
  | Panic _ => emptyWorld
  end.

Definition example_store_built : World :=
  match ToController 1 "demo" example_store_configured with
  | Ok _ w => w
  | Panic _ => emptyWorld
  end.



End FactorySpec.

(** ** What a handler does with an event *)
Module Dispatcher.
Import Go Factory FactorySpec.

Section dispatch.
Context `{Ext : Externals}.

(** Modelled from the spec: the notifications of an event source are
    declared in another file of the package.  Section 4.2 names three: an
    object was added, updated (old and new state), or deleted; they reach a
    handler as its [OnAdd], [OnUpdate] and [OnDelete]. *)
Inductive Notification :=
  | OnAdd (obj : Object)
  | OnUpdate (old new : Object)
  | OnDelete (obj : Object).

(** Modelled from the spec: the body of the handler is declared in another
    file of the package.  Section 4.2: on added and deleted the filter is
    applied to the single object, on updated to the new object only. *)
Definition observed (n : Notification) : Object :=
  match n with
  | OnAdd obj => obj
  | OnUpdate _ new => new
  | OnDelete obj => obj
  end.

(** The [interface{}] value a filter is handed for an object. *)
Variable toAny : Object -> Any.

(** Modelled from the spec: the body of the handler is declared in another
    file of the package.  Section 4.1: the filter is a predicate over the
    observed object, and a missing filter is equivalent to accept all. *)
Definition accepts (filter : EventFilterFunc) (obj : Object) : bool :=
  match filter with
  | None => true
  | Some p => p (toAny obj)
  end.

(** Modelled from the spec: the body of the handler that [eventHandler]
    returns is declared in another file of the package.  Section 4.2: the
    filter is applied; if the event is accepted, keys are extracted and each
    is enqueued; an event the filter refuses is dropped before key
    extraction.  The result is the keys put on the handler's queue, in order;
    [None] is the run-time panic of calling a nil key function. *)
Definition dispatch (h : ResourceEventHandler) (n : Notification)
    : option (list string) :=
  if accepts (eh_filter h) (observed n) then
    match eh_queueKeysFunc h with
    | Some queueKeysFunc => Some (queueKeysFunc (observed n))
    | None => None
    end
  else Some [].

End dispatch.

#[local] Existing Instance example_externals.

(** The new factory with a sync function, then with informer 3 registered
    by [WithInformers], then with its controller built. *)
Definition example_sync : Factory :=
  {| sync := Some 7; syncContext := ctx_nil; resyncInterval := 0%Z;
     informers := []; informerQueueKeys := []; bareInformers := [];
     cachesToSync := nil_slice |}.

Definition example_store_sync : World :=
  match WithSync 1 (Some 7) example_store_new with
  | Ok _ w => w
  | Panic _ => emptyWorld
  end.

Definition example_store_informer : World :=
  match WithInformers 1 [Some 3] example_store_sync with
  | Ok _ w => w
  | Panic _ => emptyWorld
  end.

Definition example_store_dispatch : World :=
  match ToController 1 "demo" example_store_informer with
  | Ok _ w => w
  | Panic _ => emptyWorld
  end.

End Dispatcher.

(** ** What the validation of configuration types is expected to accept *)
Module AddonFactorySpec.
Import AddonFactory.

(** An entry the validation lets through, taken alone: it is not the empty
    value, and has a version and a resource. *)
Definition well_formed (gvr : GroupVersionResource) : Prop :=
  GVR_Empty gvr = false /\ Version gvr <> "" /\ Resource gvr <> "".

(** An instantiation of what the file takes from elsewhere, to run the model
    on examples: the file system is a single value, functions are numbered,
    a chart is the directory it was loaded from, a template addon the list
    of the files given to it. *)
Definition example_externals : Externals :=
  {| FS := unit; GetValuesFn := nat; ClusterFilterFn := nat;
     InstallStrategyRest := string; Chart := string; HelmAgentAddon := string;
     TemplateAgentAddon := list string; ExternalError := string |}.

#[local] Existing Instance example_externals.

Definition example_loaders : Loaders :=
  {| loadChart := fun _ d => (d, None);
     getTemplateFiles := fun _ d => ([d +:+ "/deployment.yaml"], None);
     ReadFile := fun _ _ => ([], None);
     newHelmAgentAddon := fun _ _ chart => chart;
     newTemplateAgentAddon := fun _ _ => [];
     addTemplateData := fun a file _ => a ++ [file] |}.

#[local] Existing Instance example_loaders.

Definition example_gvr : GroupVersionResource :=
  GVR "addon.open-cluster-management.io" "v1alpha1" "addondeploymentconfigs".

(** A store with one install strategy, of empty namespace, behind pointer 5,
    and the factory [NewAgentAddonFactory] makes behind pointer 1. *)
Definition example_store_new : World :=
  match NewAgentAddonFactory "helloworld" tt "manifests"
          {| factories := ∅;
             strategies := {[ 5 := {| InstallNamespace := ""; strategy_rest := "Manual" |} ]};
             schemes := ∅ |} with
  | Go.Ok _ w => w
  | Go.Panic _ => {| factories := ∅; strategies := ∅; schemes := ∅ |}
  end.

Definition example_factory_new : AgentAddonFactory :=
  {| scheme := 1; fs := tt; dir := "manifests"; getValuesFuncs := [];
     agentAddonOptions :=
       {| AddonName := "helloworld"; Registration := Go.null; InstallStrategy_ := Go.null;
          HealthProber := Go.null; SupportedConfigGVRs := [];
          HostedModeEnabled := false; AgentDeployTriggerClusterFilter := None |};
     trimCRDDescription := false; hostingCluster := Go.null |}.

(** The same after [WithConfigGVRs(example_gvr)]. *)
Definition example_store_gvr : World :=
  match WithConfigGVRs 1 [example_gvr] example_store_new with
  | Go.Ok _ w => w
  | Go.Panic _ => example_store_new
  end.

Definition example_factory_gvr : AgentAddonFactory :=
  set_agentAddonOptions
    (set_SupportedConfigGVRs [example_gvr] (agentAddonOptions example_factory_new))
    example_factory_new.

(** And after a second [WithConfigGVRs(example_gvr)]. *)
Definition example_store_twice : World :=
  match WithConfigGVRs 1 [example_gvr] example_store_gvr with
  | Go.Ok _ w => w
  | Go.Panic _ => example_store_new
  end.

Definition example_factory_twice : AgentAddonFactory :=
  set_agentAddonOptions
    (set_SupportedConfigGVRs [example_gvr; example_gvr] (agentAddonOptions example_factory_new))
    example_factory_new.

End AddonFactorySpec.

(** ** Further vocabulary for the controller factory *)
Module FactoryExtraSpec.
Import Go Factory FactorySpec.

#[global] Instance InformerSynced_eq_dec : EqDecision InformerSynced.
Proof. solve_decision. Defined.

(** How many times [a] stands in [l]. *)
Definition times {A} `{EqDecision A} (a : A) (l : list A) : nat :=
  length (filter (fun b => b = a) l).

(** The field of the factory a configuration method writes. *)
Inductive Field :=
  | field_sync
  | field_syncContext
  | field_resyncInterval
  | field_informers
  | field_informerQueueKeys
  | field_bareInformers.

Section spec.
Context `{Ext : Externals}.

Definition call_field (b : BuilderCall) : Field :=
  match b with
  | call_WithSync _ => field_sync
  | call_WithInformers _ | call_WithFilteredEventsInformers _ _ => field_informers
  | call_WithBareInformers _ => field_bareInformers
  | call_WithInformersQueueKeysFunc _ _
  | call_WithFilteredEventsInformersQueueKeysFunc _ _ _ => field_informerQueueKeys
  | call_ResyncEvery _ => field_resyncInterval
  | call_WithSyncContext _ => field_syncContext
  end.

(** The methods that assign their argument to a field. *)
Definition is_setter (b : BuilderCall) : bool :=
  match b with
  | call_WithSync _ | call_ResyncEvery _ | call_WithSyncContext _ => true
  | _ => false
  end.

(** The registrations of a factory that name informer [i]. *)
Definition registrations_of x (i : InformerRef)
    : list (Informer * ObjectQueueKeysFunc * EventFilterFunc) :=
  filter (fun r => r.1.1 = Some i) (registrations x).

End spec.

#[local] Existing Instance example_externals.

(** A configuration that registers informer 3 three times: under the default
    key, under a key function of its own, and bare. *)
Definition example_calls_thrice : list BuilderCall :=
  [call_WithSync (Some 7);
   call_WithInformers [Some 3];
   call_WithInformersQueueKeysFunc (Some (fun o : string => [o])) [Some 3];
   call_WithBareInformers [Some 3]].

Definition example_store_thrice : World :=
  match run_calls 1 example_calls_thrice example_store_new with
  | Ok _ w => w
  | Panic _ => emptyWorld
  end.

Definition example_store_thrice_built : World :=
  match ToController 1 "demo" example_store_thrice with
  | Ok _ w => w
  | Panic _ => emptyWorld
  end.

(** A configuration with a sync context of its own, around queue 42. *)
Definition example_calls_shared : list BuilderCall :=
  [call_WithSync (Some 7);
   call_WithSyncContext (ctx_syncContext 42);
   call_WithInformers [Some 3]].

Definition example_store_shared : World :=
  match run_calls 1 example_calls_shared example_store_new with
  | Ok _ w => w
  | Panic _ => emptyWorld
  end.

Definition example_store_shared_built : World :=
  match ToController 1 "demo" example_store_shared with
  | Ok _ w => w
  | Panic _ => emptyWorld
  end.

End FactoryExtraSpec.

(** ** Further vocabulary for the agent-addon factory *)
Module AddonExtraSpec.
Import Go AddonFactory AddonFactorySpec.

Section spec.
Context `{Ext : Externals}.

(** The error the validation reports for an entry it stops at, at position
    [index]: the checks are made in this order. *)
Definition culprit_error (index : nat) (gvr : GroupVersionResource) : Err :=
  if GVR_Empty gvr then ErrConfigTypeEmpty index
  else if decide (Version gvr = "") then ErrConfigVersionRequired index
  else if decide (Resource gvr = "") then ErrConfigResourceRequired index
  else ErrConfigTypeDuplicated (GVR_String gvr).

(** A call of one of the factory's configuration methods. *)
Inductive AddonCall :=
  | call_WithScheme (s : loc)
  | call_WithGetValuesFuncs (getValuesFuncs_ : list GetValuesFunc)
  | call_WithInstallStrategy (strategy : loc)
  | call_WithAgentRegistrationOption (option_ : loc)
  | call_WithAgentHealthProber (prober : loc)
  | call_WithAgentHostedModeEnabledOption
  | call_WithTrimCRDDescription
  | call_WithConfigGVRs (gvrs : list GroupVersionResource)
  | call_WithHostingCluster (cluster : loc)
  | call_WithAgentDeployTriggerClusterFilter (filter : option ClusterFilterFn).

Definition run_addon_call (f : loc) (b : AddonCall) : M PanicValue World loc :=
  match b with
  | call_WithScheme s => WithScheme f s
  | call_WithGetValuesFuncs l => WithGetValuesFuncs f l
  | call_WithInstallStrategy p => WithInstallStrategy f p
  | call_WithAgentRegistrationOption o => WithAgentRegistrationOption f o
  | call_WithAgentHealthProber p => WithAgentHealthProber f p
  | call_WithAgentHostedModeEnabledOption => WithAgentHostedModeEnabledOption f
  | call_WithTrimCRDDescription => WithTrimCRDDescription f
  | call_WithConfigGVRs gvrs => WithConfigGVRs f gvrs
  | call_WithHostingCluster c => WithHostingCluster f c
  | call_WithAgentDeployTriggerClusterFilter fl => WithAgentDeployTriggerClusterFilter f fl
  end.

(** A chain of calls, each made on the pointer the one before returned. *)
Fixpoint run_addon_calls (f : loc) (bs : list AddonCall) : M PanicValue World loc :=
  match bs with
  | [] => mret f
  | b :: rest => g ← run_addon_call f b; run_addon_calls g rest
  end.

(** What no configuration method undoes: the addon name, the file system and
    the directory stay, the configuration types are only added to, and the
    two switches are only turned on. *)
Definition keeps (x y : AgentAddonFactory) : Prop :=
  AddonName (agentAddonOptions y) = AddonName (agentAddonOptions x) /\
  fs y = fs x /\ dir y = dir x /\
  SupportedConfigGVRs (agentAddonOptions x) `prefix_of`
    SupportedConfigGVRs (agentAddonOptions y) /\
  (HostedModeEnabled (agentAddonOptions x) = true ->
   HostedModeEnabled (agentAddonOptions y) = true) /\
  (trimCRDDescription x = true -> trimCRDDescription y = true).

End spec.

#[local] Existing Instance example_externals.
#[local] Existing Instance example_loaders.

(** A type with no version. *)
Definition example_gvr_no_version : GroupVersionResource :=
  GVR "addon.open-cluster-management.io" "" "addondeploymentconfigs".

(** The example factory after a faulty [WithConfigGVRs] and further calls. *)
Definition example_addon_calls : list AddonCall :=
  [call_WithAgentHostedModeEnabledOption;
   call_WithInstallStrategy 5;
   call_WithConfigGVRs [example_gvr];
   call_WithGetValuesFuncs [Some 2]].

Definition example_store_faulty : World :=
  match WithConfigGVRs 1 [example_gvr; example_gvr_no_version] example_store_new with
  | Go.Ok _ w => w
  | Go.Panic _ => example_store_new
  end.

Definition example_factory_faulty : AgentAddonFactory :=
  set_agentAddonOptions
    (set_SupportedConfigGVRs [example_gvr; example_gvr_no_version]
       (agentAddonOptions example_factory_new))
    example_factory_new.

Definition example_store_faulty_later : World :=
  match run_addon_calls 1 example_addon_calls example_store_faulty with
  | Go.Ok _ w => w
  | Go.Panic _ => example_store_new
  end.

End AddonExtraSpec.

(** * Properties *)

(** ** Slices *)
Module GoFacts.
Import Go.

Section slices.
Context {A : Type} (zero : A) (spare : nat -> nat -> nat).
Implicit Types (h : gmap loc (list A)) (s : slice) (xs : list A).

Lemma fresh_loc_unused h : h !! fresh_loc h = None.
Proof.
  apply not_elem_of_dom. unfold fresh_loc.
  pose proof (is_fresh ({[null; zerobase]} ∪ dom h)) as Hf. set_solver.
Qed.

Lemma elems_length h s : slice_wf h s -> length (elems h s) = s_len s.
Proof.
  intros [Hlen [Hcap | (arr & Harr & Hfit)]]; unfold elems.
  - replace (s_len s) with 0 by lia. by rewrite take_0.
  - rewrite Harr. simpl. rewrite length_take, length_drop. lia.
Qed.


Lemma write_at_nil i (arr : list A) : write_at i [] arr = arr.
Proof. unfold write_at. simpl. rewrite Nat.add_0_r. apply take_drop. Qed.

Lemma write_at_length i xs (arr : list A) :
  i + length xs <= length arr -> length (write_at i xs arr) = length arr.
Proof.
  intros Hfit. unfold write_at.
  rewrite !length_app, length_take, length_drop. lia.
Qed.

(** Writing behind the visible part of a slice adds to what it shows. *)
Lemma view_write_at off len xs (arr : list A) :
  off + len + length xs <= length arr ->
  take (len + length xs) (drop off (write_at (off + len) xs arr))
  = take len (drop off arr) ++ xs.
Proof.
  intros Hfit. unfold write_at.
  rewrite drop_app_le by (rewrite length_take; lia).
  rewrite <- take_drop_commute.
  rewrite take_app_add' by (rewrite length_take, length_drop; lia).
  f_equal. by rewrite take_app_length.
Qed.

(** The slice [append] returns shows the old elements, then the new. *)
Lemma append_elems h s xs :
  slice_wf h s ->
  elems (append zero spare s xs h).2 (append zero spare s xs h).1 = elems h s ++ xs.
Proof.
  intros Hwf. unfold append. case_decide as Hfit; simpl.
  - destruct Hwf as [Hlen [Hcap | (arr & Harr & Hin)]].
    + assert (s_len s = 0) as Hl by lia.
      assert (xs = []) as -> by (apply length_zero_iff_nil; lia).
      unfold elems. simpl. rewrite Hl. simpl. by rewrite !take_0.
    + unfold elems. simpl. rewrite lookup_alter_eq, Harr. simpl.
      apply view_write_at. lia.
  - unfold elems at 1. simpl. rewrite lookup_insert_eq. simpl.
    rewrite drop_0.
    assert (length (elems h s) = s_len s) as Hl by by apply elems_length.
    rewrite app_assoc.
    apply take_app_length'. rewrite length_app. lia.
Qed.

Lemma append_wf h s xs :
  slice_wf h s -> slice_wf (append zero spare s xs h).2 (append zero spare s xs h).1.
Proof.
  intros Hwf. pose proof (elems_length h s Hwf) as Hl.
  unfold append. case_decide as Hfit; simpl.
  - destruct Hwf as [Hlen [Hcap | (arr & Harr & Hin)]]; (split; simpl; [lia |]).
    + by left.
    + right. exists (write_at (s_off s + s_len s) xs arr).
      rewrite lookup_alter_eq, Harr. split; [done |].
      rewrite write_at_length; lia.
  - split; simpl; [lia |]. right.
    eexists. rewrite lookup_insert_eq. split; [done |].
    rewrite !length_app, length_replicate. lia.
Qed.

(** [append] writes to the slice's own backing array or to a new one. *)
Lemma append_other h s xs l :
  is_Some (h !! l) -> s_cap s = 0 \/ l <> s_arr s ->
  (append zero spare s xs h).2 !! l = h !! l.
Proof.
  intros Hl Hne. unfold append. case_decide as Hfit; simpl.
  - destruct (decide (l = s_arr s)) as [-> | Hd].
    + destruct Hne as [Hcap | ?]; [| done].
      assert (xs = []) as -> by (apply length_zero_iff_nil; lia).
      rewrite lookup_alter_eq. destruct (h !! s_arr s) as [arr |]; [| done].
      simpl. by rewrite write_at_nil.
    + by rewrite lookup_alter_ne.
  - rewrite lookup_insert_ne; [done |].
    intros <-. rewrite fresh_loc_unused in Hl. by destruct Hl.
Qed.

(** Where the slice [append] returns lives. *)
Lemma append_arr h s xs :
  (s_arr (append zero spare s xs h).1 = s_arr s /\
   s_cap (append zero spare s xs h).1 = s_cap s) \/
  (h !! s_arr (append zero spare s xs h).1 = None /\
   0 < s_cap (append zero spare s xs h).1 + length xs).
Proof.
  unfold append. case_decide as Hfit; simpl.
  - by left.
  - right. split; [apply fresh_loc_unused | lia].
Qed.




End slices.

End GoFacts.

(** ** The controller factory *)
Module FactoryProofs.
Import Go GoFacts Factory FactorySpec Dispatcher.

Section proofs.
Context `{Ext : Externals}.
Implicit Types (w : World) (c f : loc) (x : Factory) (s : slice) (bc : baseController).

Lemma bind_run {A B} (m : M PanicValue World A) (k : A -> M PanicValue World B) w :
  (m ≫= k) w = match m w with Ok a w' => k a w' | Panic v => Panic v end.
Proof. reflexivity. Qed.

Lemma ret_run {A} (a : A) w : (mret a : M PanicValue World A) w = Ok a w.
Proof. reflexivity. Qed.

Lemma same_rest_refl c w : same_rest c w w.
Proof. by repeat split. Qed.

Lemma same_rest_trans c w1 w2 w3 :
  same_rest c w1 w2 -> same_rest c w2 w3 -> same_rest c w1 w3.
Proof.
  intros (? & ? & H1) (? & ? & H2). repeat split; try congruence.
  intros c' Hc. rewrite H2, H1; done.
Qed.

(** One [c.cachesToSync = append(c.cachesToSync, p)]. *)
Lemma appendCachesToSync_run h0 c bc w ps p :
  building h0 c bc w ps ->
  exists w',
    appendCachesToSync c p w = Ok tt w' /\
    building h0 c bc w' (ps ++ [p]) /\
    same_rest c w w' /\ handlers w' = handlers w.
Proof.
  intros (s & Hc & Hwf & Hel & Hown & Hold).
  unfold appendCachesToSync. rewrite bind_run. unfold loadController. rewrite Hc.
  rewrite bind_run. unfold get. rewrite bind_run. unfold put at 1.
  unfold storeController. simpl controllers. rewrite Hc.
  eexists. split; [reflexivity |].
  set (r := append synced_nil growslice_spare s [p] (syncedArrays w)).
  split; [| split; [| done]].
  - exists r.1. simpl. rewrite lookup_insert_eq. split; [done |].
    split; [by apply append_wf |]. split; [by rewrite <- Hel; apply append_elems |].
    split.
    + destruct (append_arr synced_nil growslice_spare (syncedArrays w) s [p])
        as [[Ha Hcap] | [Hnew _]]; fold r in Ha, Hcap || fold r in Hnew.
      * rewrite Ha, Hcap. done.
      * right. destruct (h0 !! s_arr r.1) eqn:E; [| done].
        rewrite <- (Hold (s_arr r.1)), Hnew in E by (by eexists). done.
    + intros l Hl. rewrite <- (Hold l Hl). apply append_other.
      * rewrite (Hold l Hl). done.
      * destruct Hown as [? | Hn]; [by left | right].
        intros ->. rewrite Hn in Hl. by destruct Hl.
  - repeat split; simpl; try done. intros c' Hne. by rewrite lookup_insert_ne.
Qed.

Lemma regs_ok_app ctx (r1 r2 : list (Informer * ObjectQueueKeysFunc * EventFilterFunc)) :
  regs_ok ctx (r1 ++ r2) = regs_ok ctx r1 && regs_ok ctx r2.
Proof.
  destruct r1 as [| a r1]; [done |]. destruct r2 as [| b r2].
  - rewrite app_nil_r. by rewrite andb_true_r.
  - simpl. rewrite forallb_app. simpl. destruct (is_syncContext ctx); simpl; [| done].
    destruct (present a.1.1); simpl; [| done].
    by destruct (forallb _ r1); simpl.
Qed.

Lemma synced_of_app (l1 l2 : list Informer) :
  synced_of (l1 ++ l2) = synced_of l1 ++ synced_of l2.
Proof. unfold synced_of, refs_of. by rewrite omap_app, fmap_app. Qed.

Lemma loop_spec_nil h0 c bc : loop_spec h0 c bc (mret tt) [].
Proof.
  intros w ps Hb. simpl. rewrite app_nil_r.
  split; [done |]. split; [exact Hb |]. split; [apply same_rest_refl | done].
Qed.

Lemma loop_spec_seq h0 c bc (L1 L2 : M PanicValue World unit) r1 r2 :
  loop_spec h0 c bc L1 r1 -> loop_spec h0 c bc L2 r2 ->
  loop_spec h0 c bc (L1 ;; L2) (r1 ++ r2).
Proof.
  intros H1 H2 w ps Hb. rewrite regs_ok_app, bind_run.
  specialize (H1 w ps Hb). destruct (L1 w) as [[] w1 | v].
  - destruct H1 as (-> & Hb1 & Hs1 & Hh1).
    specialize (H2 w1 _ Hb1). destruct (L2 w1) as [[] w2 | v].
    + destruct H2 as (-> & Hb2 & Hs2 & Hh2).
      split; [done |]. rewrite fmap_app, synced_of_app, app_assoc.
      split; [done |]. split; [by eapply same_rest_trans |].
      by rewrite foldl_app, <- Hh1.
    + destruct H2 as [-> ->]. done.
  - destruct H1 as [-> ->]. done.
Qed.

(** The inner loop over the informers of one registration. *)
Lemma attachInformers_run h0 c bc k fl infs :
  loop_spec h0 c bc (attachInformers c k fl infs) ((fun i => (i, k, fl)) <$> infs).
Proof.
  induction infs as [| i infs IH]; [apply loop_spec_nil |].
  intros w ps Hb. pose proof Hb as (s & Hc & _).
  cbn [attachInformers]. rewrite bind_run. unfold loadController at 1. rewrite Hc.
  rewrite bind_run. cbn [fmap list_fmap regs_ok forallb].
  change (bc_syncContext (set_bc_cachesToSync s bc)) with (bc_syncContext bc).
  destruct (bc_syncContext bc) as [| q | n] eqn:Hctx; simpl; try done.
  destruct i as [i |]; simpl; [| done].
  rewrite bind_run. cbn beta iota.
  set (w1 := set_handlers _ w).
  assert (building h0 c bc w1 ps) as Hb1 by exact Hb.
  destruct (appendCachesToSync_run h0 c bc w1 ps (HasSynced i) Hb1)
    as (w2 & Hrun & Hb2 & Hs2 & Hh2).
  rewrite bind_run, ret_run, bind_run, Hrun.
  specialize (IH w2 _ Hb2). rewrite Hctx in IH.
  destruct (attachInformers c k fl infs w2) as [[] w3 | v].
  - destruct IH as (Hok & Hb3 & Hs3 & Hh3).
    split.
    { destruct infs; [done |]. simpl in Hok. exact Hok. }
    split.
    { unfold synced_of, refs_of in *. cbn [fmap list_fmap omap list_omap id] in *.
      by rewrite <- app_assoc in Hb3. }
    split; [eapply same_rest_trans; [| exact Hs3]; exact Hs2 |].
    rewrite Hh3, Hh2. done.
  - destruct IH as [Hok ->]. split; [| done].
    destruct infs; [done |]. simpl in Hok. exact Hok.
Qed.

Lemma attachQueueKeys_run h0 c bc regs :
  loop_spec h0 c bc (attachQueueKeys c regs)
    (flat_map (fun r => (fun i => (i, qk_queueKeyFn r, qk_filter r)) <$> qk_informers r) regs).
Proof.
  induction regs as [| r regs IH]; [apply loop_spec_nil |].
  cbn [attachQueueKeys flat_map]. apply loop_spec_seq; [apply attachInformers_run | exact IH].
Qed.

Lemma attachFiltered_run h0 c bc regs :
  loop_spec h0 c bc (attachFiltered c regs)
    (flat_map (fun r => (fun i => (i, Some DefaultQueueKeysFunc, fi_filter r)) <$> fi_informers r)
       regs).
Proof.
  induction regs as [| r regs IH]; [apply loop_spec_nil |].
  cbn [attachFiltered flat_map]. apply loop_spec_seq; [apply attachInformers_run | exact IH].
Qed.

(** The loop over the bare informers runs through exactly when none of them
    is nil; it attaches nothing. *)
Lemma attachBare_run h0 c bc infs w ps :
  building h0 c bc w ps ->
  match attachBare c infs w with
  | Ok _ w' =>
      forallb present infs = true /\
      building h0 c bc w' (ps ++ synced_of infs) /\
      same_rest c w w' /\ handlers w' = handlers w
  | Panic v => forallb present infs = false /\ v = RuntimeError
  end.
Proof.
  revert w ps. induction infs as [| i infs IH]; intros w ps Hb.
  - simpl. rewrite app_nil_r.
    split; [done |]. split; [exact Hb |]. split; [apply same_rest_refl | done].
  - cbn [attachBare forallb]. rewrite bind_run. destruct i as [i |]; simpl; [| done].
    destruct (appendCachesToSync_run h0 c bc w ps (HasSynced i) Hb)
      as (w2 & Hrun & Hb2 & Hs2 & Hh2).
    rewrite bind_run, Hrun. specialize (IH w2 _ Hb2).
    destruct (attachBare c infs w2) as [[] w3 | v]; [| exact IH].
    destruct IH as (Hok & Hb3 & Hs3 & Hh3).
    split; [exact Hok |]. split.
    { unfold synced_of, refs_of in *. cbn [fmap list_fmap omap list_omap id] in *.
      by rewrite <- app_assoc in Hb3. }
    split; [by eapply same_rest_trans |]. by rewrite Hh3.
Qed.

Lemma regs_ok_ctx ctx ctx' regs :
  is_syncContext ctx = is_syncContext ctx' -> regs_ok ctx regs = regs_ok ctx' regs.
Proof. intros E. destruct regs; [done |]. simpl. by rewrite E. Qed.

(** [ToController] on a factory that is [x]: it returns exactly when
    [runs_through x], and then leaves [built]; without a sync function it
    panics with its own error, otherwise with a run-time error. *)
Lemma ToController_run f name w x :
  factories w !! f = Some x ->
  match ToController f name w with
  | Ok c w' => runs_through x = true /\ built x name w c w'
  | Panic v =>
      runs_through x = false /\
      v = match sync x with None => WithSyncMissing name | Some _ => RuntimeError end
  end.
Proof.
  intros Hf. unfold ToController, runs_through. rewrite bind_run.
  unfold loadFactory at 1. rewrite Hf.
  destruct (sync x) as [fn |] eqn:Hsync; [| done].
  rewrite bool_decide_eq_true_2 by by eexists. cbn [andb].
  rewrite bind_run.
  set (ctx := controller_ctx x w).
  set (w1 := match syncContext x with
             | ctx_nil => set_queues (<[fresh (dom (queues w)) := name]> (queues w)) w
             | _ => w end).
  assert (match syncContext x with
          | ctx_nil => NewSyncContext name
          | ctx_syncContext q => mret (ctx_syncContext q)
          | ctx_foreign n => mret (ctx_foreign n)
          end w = Ok ctx w1) as ->.
  { unfold ctx, controller_ctx, w1. by destruct (syncContext x). }
  rewrite bind_run. unfold get at 1. rewrite bind_run. unfold put at 1.
  rewrite bind_run. unfold newController at 1.
  assert (syncedArrays w1 = syncedArrays w) as Harr by (unfold w1; by destruct (syncContext x)).
  assert (controllers w1 = controllers w) as Hctl by (unfold w1; by destruct (syncContext x)).
  assert (factories w1 = factories w) as Hfac by (unfold w1; by destruct (syncContext x)).
  assert (handlers w1 = handlers w) as Hhan by (unfold w1; by destruct (syncContext x)).
  assert (queue_of ctx = queue_of (controller_ctx x w)) as Hq by done.
  rewrite (regs_ok_ctx _ ctx) by (unfold ctx, controller_ctx; by destruct (syncContext x)).
  set (h0 := syncedArrays w).
  rewrite Harr. fold h0.
  set (r := append synced_nil growslice_spare empty_slice (elems h0 (cachesToSync x)) h0).
  set (w2 := set_syncedArrays r.2 w1).
  change (controllers w2) with (controllers w1). rewrite Hctl.
  set (c := fresh ({[null]} ∪ dom (controllers w))).
  set (bc := {| bc_name := name; bc_sync := Some fn; bc_resyncEvery := resyncInterval x;
                bc_cachesToSync := r.1; bc_syncContext := ctx;
                bc_cacheSyncTimeout := defaultCacheSyncTimeout |}).
  set (w3 := set_controllers (<[c := bc]> (controllers w)) w2).
  assert (controllers w !! c = None) as Hfresh.
  { apply not_elem_of_dom. unfold c.
    pose proof (is_fresh ({[null]} ∪ dom (controllers w))) as Hn. set_solver. }
  assert (slice_wf h0 empty_slice) as Hwf0 by (split; [done | by left]).
  assert (building h0 c bc w3 (elems h0 (cachesToSync x))) as Hb.
  { exists r.1. split; [by apply lookup_insert_eq |].
    split; [by apply append_wf |].
    split.
    { change (syncedArrays w3) with r.2. unfold r. by rewrite append_elems. }
    split.
    { destruct (append_arr synced_nil growslice_spare h0 empty_slice
                  (elems h0 (cachesToSync x))) as [[_ Hc] | [Hn _]]; [by left | by right]. }
    intros l Hl. change (syncedArrays w3) with r.2. apply append_other; [done | by left]. }
  assert (forall c', c' <> c -> controllers w3 !! c' = controllers w !! c') as Hoth.
  { intros c' Hne. cbn. by rewrite lookup_insert_ne. }
  unfold registrations. rewrite regs_ok_app.
  rewrite bind_run.
  pose proof (attachQueueKeys_run h0 c bc (informerQueueKeys x) w3 _ Hb) as H1.
  destruct (attachQueueKeys c (informerQueueKeys x) w3) as [[] w4 | v];
    [| destruct H1 as [H1 ->]; cbn [bc_syncContext bc] in H1; by rewrite H1].
  destruct H1 as (H1 & Hb4 & Hs4 & Hh4). cbn [bc_syncContext bc] in H1, Hh4. rewrite H1.
  rewrite bind_run.
  pose proof (attachFiltered_run h0 c bc (informers x) w4 _ Hb4) as H2.
  destruct (attachFiltered c (informers x) w4) as [[] w5 | v];
    [| destruct H2 as [H2 ->]; cbn [bc_syncContext bc] in H2; by rewrite H2].
  destruct H2 as (H2 & Hb5 & Hs5 & Hh5). cbn [bc_syncContext bc] in H2, Hh5. rewrite H2.
  rewrite bind_run.
  pose proof (attachBare_run h0 c bc (bareInformers x) w5 _ Hb5) as H3.
  destruct (attachBare c (bareInformers x) w5) as [[] w6 | v];
    [| destruct H3 as [H3 ->]; by rewrite H3].
  destruct H3 as (H3 & Hb6 & Hs6 & Hh6). rewrite H3, ret_run.
  split; [done |].
  pose proof (same_rest_trans _ _ _ _ (same_rest_trans _ _ _ _ Hs4 Hs5) Hs6)
    as (Hfac6 & _ & Hoth6).
  destruct Hb6 as (s & Hc6 & Hwf6 & Hel6 & Hown6 & Hold6).
  split; [by rewrite Hfac6 |]. split; [done |].
  split; [intros c' Hne; by rewrite Hoth6, Hoth |].
  split.
  { exists s. split; [rewrite Hc6; unfold bc; rewrite Hsync; reflexivity |].
    split; [exact Hwf6 |]. split; [| exact Hown6].
    rewrite Hel6. unfold sources, registrations.
    by rewrite !fmap_app, !synced_of_app, !app_assoc. }
  split; [exact Hold6 |].
  unfold registrations. rewrite Hh6, Hh5, Hh4, foldl_app, <- Hq. by rewrite <- Hhan.
Qed.


(** *** The configuration methods *)

Lemma set_factories_id w : set_factories (factories w) w = w.
Proof. by destruct w. Qed.

Lemma run_call_ok f b w x :
  factories w !! f = Some x ->
  run_call f b w = Ok f (set_factories (<[f := apply_call b x]> (factories w)) w).
Proof.
  intros Hf.
  destruct b; cbn [run_call apply_call];
    unfold WithSync, WithInformers, WithFilteredEventsInformers, WithBareInformers,
      WithInformersQueueKeysFunc, WithFilteredEventsInformersQueueKeysFunc,
      ResyncEvery, WithSyncContext;
    rewrite ?bind_run; unfold loadFactory; rewrite Hf;
    rewrite ?bind_run; unfold storeFactory; rewrite Hf; reflexivity.
Qed.

Lemma run_call_nil f b w :
  factories w !! f = None -> run_call f b w = Panic RuntimeError.
Proof.
  intros Hf.
  destruct b; cbn [run_call];
    unfold WithSync, WithInformers, WithFilteredEventsInformers, WithBareInformers,
      WithInformersQueueKeysFunc, WithFilteredEventsInformersQueueKeysFunc,
      ResyncEvery, WithSyncContext;
    rewrite ?bind_run; unfold loadFactory; rewrite Hf; reflexivity.
Qed.

Lemma run_calls_ok bs : forall f w x,
  factories w !! f = Some x ->
  run_calls f bs w
  = Ok f (set_factories (<[f := foldl (fun y b => apply_call b y) x bs]> (factories w)) w).
Proof.
  induction bs as [| b bs IH]; intros f w x Hf.
  - cbn. rewrite insert_id by done. by rewrite set_factories_id.
  - cbn [run_calls foldl]. rewrite bind_run, (run_call_ok f b w x Hf).
    rewrite (IH f _ (apply_call b x)) by (cbn; by rewrite lookup_insert_eq).
    cbn. by rewrite insert_insert_eq.
Qed.

(** *** Which informers a factory holds *)

Lemma elem_of_synced_of i (l : list Informer) : HasSynced i ∈ synced_of l <-> Some i ∈ l.
Proof.
  unfold synced_of, refs_of. rewrite list_elem_of_fmap. split.
  - intros (j & [= ->] & Hj). apply list_elem_of_omap in Hj as (o & Ho & Hid).
    unfold id in Hid. by subst.
  - intros Hi. exists i. split; [done |]. apply list_elem_of_omap. by exists (Some i).
Qed.

Lemma flat_map_snoc {A B} (g : A -> list B) (l : list A) (a : A) :
  flat_map g (l ++ [a]) = flat_map g l ++ g a.
Proof. rewrite flat_map_app. simpl. by rewrite app_nil_r. Qed.

Lemma registrations_apply_call x b t :
  t ∈ registrations (apply_call b x) <-> t ∈ registrations x \/ t ∈ call_regs b.
Proof.
  unfold registrations.
  destruct b; cbn [apply_call call_regs informers informerQueueKeys set_sync set_informers
    set_bareInformers set_informerQueueKeys set_resyncInterval set_syncContext];
    rewrite ?flat_map_snoc; cbn [fi_informers fi_filter qk_informers qk_filter qk_queueKeyFn];
    rewrite ?elem_of_app, ?elem_of_nil; tauto.
Qed.

Lemma bare_apply_call x b :
  bareInformers (apply_call b x) = bareInformers x ++ call_bare b.
Proof. destruct b; cbn; by rewrite ?app_nil_r. Qed.

Lemma registrations_apply_calls bs : forall x t,
  t ∈ registrations (foldl (fun y b => apply_call b y) x bs)
  <-> t ∈ registrations x \/ exists b, b ∈ bs /\ t ∈ call_regs b.
Proof.
  induction bs as [| b bs IH]; intros x t; cbn [foldl].
  - split; [by left |]. intros [? | (b & Hb & _)]; [done |]. by apply elem_of_nil in Hb.
  - rewrite IH, registrations_apply_call. split.
    + intros [[? | ?] | (b' & Hb' & Ht)]; [by left | right | right].
      * exists b. split; [left | done].
      * exists b'. split; [by right | done].
    + intros [? | (b' & Hb' & Ht)]; [by left; left |].
      apply elem_of_cons in Hb' as [-> | Hb']; [by left; right |].
      right. by exists b'.
Qed.

Lemma bare_apply_calls bs : forall x i,
  i ∈ bareInformers (foldl (fun y b => apply_call b y) x bs)
  <-> i ∈ bareInformers x \/ exists b, b ∈ bs /\ i ∈ call_bare b.
Proof.
  induction bs as [| b bs IH]; intros x i; cbn [foldl].
  - split; [by left |]. intros [? | (b & Hb & _)]; [done |]. by apply elem_of_nil in Hb.
  - rewrite IH, bare_apply_call, elem_of_app. split.
    + intros [[? | ?] | (b' & Hb' & Ht)]; [by left | right | right].
      * exists b. split; [left | done].
      * exists b'. split; [by right | done].
    + intros [? | (b' & Hb' & Ht)]; [by left; left |].
      apply elem_of_cons in Hb' as [-> | Hb']; [by left; right |].
      right. by exists b'.
Qed.

Lemma elem_of_sources x (i : Informer) :
  i ∈ sources x <-> (exists k fl, (i, k, fl) ∈ registrations x) \/ i ∈ bareInformers x.
Proof.
  unfold sources. rewrite elem_of_app, list_elem_of_fmap. split.
  - intros [([[j k] fl] & -> & Ht) | ?]; [left | by right]. by exists k, fl.
  - intros [(k & fl & Ht) | ?]; [left | by right]. by exists (i, k, fl).
Qed.

Lemma elem_of_tag_fmap (k : ObjectQueueKeysFunc) (fl : EventFilterFunc)
    (l : list Informer) (i : Informer) :
  i ∈ l <-> exists k' fl', (i, k', fl') ∈ (fun j => (j, k, fl)) <$> l.
Proof.
  split.
  - intros Hi. exists k, fl. apply list_elem_of_fmap. by exists i.
  - intros (k' & fl' & (j & [= -> _ _] & Hj)%list_elem_of_fmap). done.
Qed.

Lemma call_informers_split b (i : Informer) :
  i ∈ call_informers b <-> (exists k fl, (i, k, fl) ∈ call_regs b) \/ i ∈ call_bare b.
Proof.
  assert (forall P : Prop, P <-> P \/ i ∈ @nil Informer) as Hr.
  { intros P. rewrite elem_of_nil. tauto. }
  assert (forall P : Prop,
    P <-> (exists (k : ObjectQueueKeysFunc) (fl : EventFilterFunc),
             (i, k, fl) ∈ @nil (Informer * ObjectQueueKeysFunc * EventFilterFunc)) \/ P) as Hl.
  { intros P. split; [by right |]. intros [(? & ? & []%elem_of_nil) | ?]; done. }
  destruct b; cbn [call_informers call_regs call_bare].
  - by rewrite <- Hl.
  - rewrite <- Hr. apply elem_of_tag_fmap.
  - rewrite <- Hr. apply elem_of_tag_fmap.
  - apply Hl.
  - rewrite <- Hr. apply elem_of_tag_fmap.
  - rewrite <- Hr. apply elem_of_tag_fmap.
  - by rewrite <- Hl.
  - by rewrite <- Hl.
Qed.

Lemma snoc_match {A} (a : list A) (h : A) (l : list A) :
  match l with
  | [] => Some (a ++ [h])
  | r :: l' => Some ((a ++ [h]) ++ r :: l')
  end = Some (a ++ h :: l).
Proof. destruct l; [done |]. by rewrite <- app_assoc. Qed.

(** What [i] has after every registration was given its handler. *)
Lemma subscribe_all_lookup q regs : forall hs i,
  foldl (subscribe q) hs regs !! i
  = match handlers_for q regs i with
    | [] => hs !! i
    | added => Some (default [] (hs !! i) ++ added)
    end.
Proof.
  induction regs as [| [[inf k] fl] regs IH]; intros hs i; [done |].
  cbn [foldl]. rewrite IH. unfold handlers_for. rewrite filter_cons.
  unfold subscribe. cbn [fst snd].
  set (added := (fun r : Informer * ObjectQueueKeysFunc * EventFilterFunc =>
                   eventHandler q r.1.2 r.2) <$> filter (fun r => r.1.1 = Some i) regs).
  destruct inf as [j |].
  - destruct (decide (j = i)) as [-> | Hne].
    + rewrite decide_True by done. rewrite lookup_insert_eq.
      cbn [fmap list_fmap default fst snd]. unfold id.
      apply (snoc_match _ _ added).
    + rewrite decide_False by congruence. by rewrite lookup_insert_ne.
  - by rewrite decide_False.
Qed.

Lemma handlers_for_elem q regs i h :
  h ∈ handlers_for q regs i
  <-> exists k fl, (Some i, k, fl) ∈ regs /\ h = eventHandler q k fl.
Proof.
  unfold handlers_for. rewrite list_elem_of_fmap. split.
  - intros ([[j k] fl] & -> & [Hj Ht]%list_elem_of_filter). cbn in Hj. subst.
    by exists k, fl.
  - intros (k & fl & Ht & ->). exists (Some i, k, fl). split; [done |].
    by apply list_elem_of_filter.
Qed.

(** *** The claims about [ToController] *)

Lemma ToController_built f name w x c w' :
  factories w !! f = Some x -> ToController f name w = Ok c w' ->
  runs_through x = true /\ built x name w c w'.
Proof. intros Hf Hrun. pose proof (ToController_run f name w x Hf) as H. by rewrite Hrun in H. Qed.

Lemma run_calls_factory f bs w x w1 :
  factories w !! f = Some x -> run_calls f bs w = Ok f w1 ->
  factories w1 !! f = Some (foldl (fun y b => apply_call b y) x bs) /\
  handlers w1 = handlers w /\ controllers w1 = controllers w /\
  syncedArrays w1 = syncedArrays w.
Proof.
  intros Hf Hrun. rewrite (run_calls_ok bs f w x Hf) in Hrun.
  injection Hrun as <-. cbn. by rewrite lookup_insert_eq.
Qed.

(** C1: the controller [ToController] returns waits for the [HasSynced] of
    every informer the factory holds, those it held before ([sources x]) and
    those of every call of [WithInformers], [WithFilteredEventsInformers],
    [WithInformersQueueKeysFunc], [WithFilteredEventsInformersQueueKeysFunc]
    and [WithBareInformers] made since; an informer that only bare
    registrations mention has, after [ToController], the handlers it had
    before. *)
Theorem C1_cachesToSync_holds_every_registered_informer
    w f x (bs : list BuilderCall) w1 (name : string) c w' :
  factories w !! f = Some x ->
  run_calls f bs w = Ok f w1 ->
  ToController f name w1 = Ok c w' ->
  exists bc,
    controllers w' !! c = Some bc /\
    (forall i, Some i ∈ sources x ->
       HasSynced i ∈ elems (syncedArrays w') (bc_cachesToSync bc)) /\
    (forall b i, b ∈ bs -> Some i ∈ call_informers b ->
       HasSynced i ∈ elems (syncedArrays w') (bc_cachesToSync bc)) /\
    (forall i,
       (forall k fl, (Some i, k, fl) ∉ registrations x) ->
       (forall b, b ∈ bs -> Some i ∈ call_informers b ->
          exists l, b = call_WithBareInformers l) ->
       handlers w' !! i = handlers w1 !! i).
Proof.
  intros Hf Hcalls Hrun.
  destruct (run_calls_factory f bs w x w1 Hf Hcalls) as (Hf1 & _).
  set (x1 := foldl (fun y b => apply_call b y) x bs) in *.
  destruct (ToController_built f name w1 x1 c w' Hf1 Hrun)
    as (_ & _ & _ & _ & (s & Hc & _ & Hel & _) & _ & Hh).
  eexists. split; [exact Hc |]. cbn [bc_cachesToSync]. rewrite Hel.
  split; [| split].
  - intros i Hi. apply elem_of_app. right. apply elem_of_synced_of.
    apply elem_of_sources. apply elem_of_sources in Hi as [(k & fl & Ht) | Hb].
    + left. exists k, fl. apply registrations_apply_calls. by left.
    + right. apply bare_apply_calls. by left.
  - intros b i Hb Hi. apply elem_of_app. right. apply elem_of_synced_of.
    apply elem_of_sources. apply call_informers_split in Hi as [(k & fl & Ht) | Hbare].
    + left. exists k, fl. apply registrations_apply_calls. right. by exists b.
    + right. apply bare_apply_calls. right. by exists b.
  - intros i Hx Hbs. rewrite Hh, subscribe_all_lookup.
    destruct (handlers_for _ (registrations x1) i) as [| h l] eqn:E; [done |].
    assert (h ∈ handlers_for (queue_of (controller_ctx x1 w1)) (registrations x1) i) as Hin
      by (rewrite E; left).
    apply handlers_for_elem in Hin as (k & fl & Ht & _).
    apply registrations_apply_calls in Ht as [Ht | (b & Hb & Ht)].
    + by destruct (Hx k fl).
    + assert (Some i ∈ call_informers b) as Hi.
      { apply call_informers_split. left. by exists k, fl. }
      destruct (Hbs b Hb Hi) as [l' ->]. by apply elem_of_nil in Ht.
Qed.

(** C3: after [ToController], every informer registered by [WithInformers] or
    [WithFilteredEventsInformers] has been given a handler built with
    [DefaultQueueKeysFunc] (and the registration's filter), and every
    informer registered by [WithInformersQueueKeysFunc] or
    [WithFilteredEventsInformersQueueKeysFunc] one built with the call's
    [queueKeyFn]; the handlers an informer is given are those of its
    registrations and no other. *)
Theorem C3_handlers_built_with_default_or_supplied_key_function
    w f x (bs : list BuilderCall) w1 (name : string) c w' :
  factories w !! f = Some x ->
  run_calls f bs w = Ok f w1 ->
  ToController f name w1 = Ok c w' ->
  exists bc,
    controllers w' !! c = Some bc /\
    forall b i h,
      b ∈ bs -> Some i ∈ call_informers b ->
      call_handler (queue_of (bc_syncContext bc)) b = Some h ->
      bc_syncContext bc = ctx_syncContext (queue_of (bc_syncContext bc)) /\
      exists added,
        handlers w' !! i = Some (default [] (handlers w1 !! i) ++ added) /\
        h ∈ added /\
        forall h', h' ∈ added ->
          exists k fl,
            h' = eventHandler (queue_of (bc_syncContext bc)) k fl /\
            ((Some i, k, fl) ∈ registrations x \/
             exists b', b' ∈ bs /\ (Some i, k, fl) ∈ call_regs b').
Proof.
  intros Hf Hcalls Hrun.
  destruct (run_calls_factory f bs w x w1 Hf Hcalls) as (Hf1 & _).
  set (x1 := foldl (fun y b => apply_call b y) x bs) in *.
  destruct (ToController_built f name w1 x1 c w' Hf1 Hrun)
    as (Hthrough & _ & _ & _ & (s & Hc & _) & _ & Hh).
  eexists. split; [exact Hc |]. cbn [bc_syncContext].
  set (q := queue_of (controller_ctx x1 w1)) in *.
  intros b i h Hb Hi Hcall.
  assert (exists k fl, (Some i, k, fl) ∈ call_regs b /\ h = eventHandler q k fl)
    as (k & fl & Ht & ->).
  { destruct b; cbn [call_handler] in Hcall; try discriminate; injection Hcall as <-;
      cbn [call_informers call_regs] in *; do 2 eexists;
      (split; [apply list_elem_of_fmap; by eexists | done]). }
  assert ((Some i, k, fl) ∈ registrations x1) as Hreg.
  { apply registrations_apply_calls. right. by exists b. }
  split.
  - unfold runs_through in Hthrough.
    apply andb_true_iff in Hthrough as [[_ Hok]%andb_true_iff _].
    unfold q, controller_ctx.
    destruct (registrations x1) as [| t regs]; [by apply elem_of_nil in Hreg |].
    cbn in Hok. apply andb_true_iff in Hok as [Hctx _].
    by destruct (syncContext x1).
  - exists (handlers_for q (registrations x1) i).
    assert (eventHandler q k fl ∈ handlers_for q (registrations x1) i) as Hin.
    { apply handlers_for_elem. by exists k, fl. }
    split; [| split; [exact Hin |]].
    + rewrite Hh, subscribe_all_lookup. fold q.
      destruct (handlers_for q (registrations x1) i); [by apply elem_of_nil in Hin | done].
    + intros h' (k' & fl' & Ht' & ->)%handlers_for_elem. exists k', fl'.
      split; [done |]. by apply registrations_apply_calls.
Qed.

(** C4: whatever the object, [DefaultQueueKeysFunc] returns the list whose
    one element is the constant key "key". *)
Theorem C4_DefaultQueueKeysFunc_constant (o : Object) :
  DefaultQueueKeysFunc o = ["key"] /\ DefaultQueueKeysFunc o = [DefaultQueueKey].
Proof. split; reflexivity. Qed.

(** What the dispatcher does with a handler that has no filter: every
    notification is accepted and its keys are enqueued; with a filter, the
    notifications the filter refuses enqueue nothing. *)
Lemma dispatch_unfiltered (toAny : Object -> Any) q (k : Object -> list string) n :
  dispatch toAny (eventHandler q (Some k) None) n = Some (k (observed n)).
Proof. reflexivity. Qed.

Lemma dispatch_filtered (toAny : Object -> Any) q (k : Object -> list string)
    (p : Any -> bool) n :
  dispatch toAny (eventHandler q (Some k) (Some p)) n
  = Some (if p (toAny (observed n)) then k (observed n) else []).
Proof. unfold dispatch. cbn. by destruct (p _). Qed.

(** C7: on every store and for every list of informers, [WithInformers]
    does what [WithFilteredEventsInformers] does with a nil filter: the same
    result and the same store.  On a factory that is [x] both return the
    factory, which is [x] with one more registration behind those it had, of
    these informers under the nil filter, and nothing else in the store is
    changed.  Such a registration accepts all events: the handler that
    [ToController] then gives each of these informers has no filter, and
    whatever the notification, it is accepted and the default key is
    enqueued. *)
Theorem C7_WithInformers_is_nil_filter f (l : list Informer) w :
  WithInformers f l w = WithFilteredEventsInformers f None l w /\
  forall x, factories w !! f = Some x ->
    exists w1,
      WithInformers f l w = Ok f w1 /\
      factories w1
      = <[f := {| sync := sync x; syncContext := syncContext x;
                  resyncInterval := resyncInterval x;
                  informers := informers x ++ [{| fi_informers := l; fi_filter := None |}];
                  informerQueueKeys := informerQueueKeys x;
                  bareInformers := bareInformers x;
                  cachesToSync := cachesToSync x |}]> (factories w) /\
      controllers w1 = controllers w /\ syncedArrays w1 = syncedArrays w /\
      handlers w1 = handlers w /\ queues w1 = queues w /\
      forall (name : string) c w2,
        ToController f name w1 = Ok c w2 ->
        forall i, Some i ∈ l ->
          exists h given,
            handlers w2 !! i = Some (default [] (handlers w !! i) ++ given) /\
            h ∈ given /\
            eh_filter h = None /\
            eh_queueKeysFunc h = Some DefaultQueueKeysFunc /\
            forall (toAny : Object -> Any) n,
              accepts toAny (eh_filter h) (observed n) = true /\
              dispatch toAny h n = Some [DefaultQueueKey].
Proof.
  split.
  - unfold WithInformers, WithFilteredEventsInformers. rewrite !bind_run.
    unfold loadFactory. destruct (factories w !! f) as [x |] eqn:Hf; [| done].
    rewrite !bind_run. unfold storeFactory. by rewrite Hf.
  - intros x Hf. eexists. split.
    { unfold WithInformers, WithFilteredEventsInformers. rewrite !bind_run.
      unfold loadFactory. rewrite Hf. rewrite !bind_run. unfold storeFactory.
      rewrite Hf. reflexivity. }
    cbn [factories controllers syncedArrays handlers queues set_factories].
    do 5 (split; [reflexivity |]).
    intros name c w2 Hrun i Hi.
    set (x1 := set_informers
                 (informers x ++ [{| fi_informers := l; fi_filter := None |}]) x).
    set (w1 := set_factories (<[f := x1]> (factories w)) w) in *.
    assert (factories w1 !! f = Some x1) as Hf1 by apply lookup_insert_eq.
    destruct (ToController_built f name w1 x1 c w2 Hf1 Hrun)
      as (_ & _ & _ & _ & _ & _ & Hh).
    set (q := queue_of (controller_ctx x1 w1)) in *.
    assert ((Some i, Some DefaultQueueKeysFunc, @None (Any -> bool)) ∈ registrations x1)
      as Hreg.
    { apply (registrations_apply_call x (call_WithInformers l)). right.
      cbn [call_regs]. apply list_elem_of_fmap. by exists (Some i). }
    assert (eventHandler q (Some DefaultQueueKeysFunc) None
            ∈ handlers_for q (registrations x1) i) as Hin.
    { apply handlers_for_elem. by eexists _, _. }
    exists (eventHandler q (Some DefaultQueueKeysFunc) None),
      (handlers_for q (registrations x1) i).
    split; [| split; [exact Hin |]].
    + rewrite Hh, subscribe_all_lookup.
      destruct (handlers_for q (registrations x1) i); [by apply elem_of_nil in Hin | done].
    + do 2 (split; [reflexivity |]). intros toAny n. split; reflexivity.
Qed.

Lemma sync_apply_calls bs : forall x,
  (forall b, b ∈ bs -> forall fn, b <> call_WithSync fn) ->
  sync (foldl (fun y b => apply_call b y) x bs) = sync x.
Proof.
  induction bs as [| b bs IH]; intros x Hbs; [done |].
  cbn [foldl]. rewrite IH by (intros b' Hb'; apply Hbs; by right).
  destruct b; try done. by destruct (Hbs (call_WithSync syncFn) ltac:(left) syncFn).
Qed.


Lemma New_factory w f w1 :
  New w = Ok f w1 ->
  factories w1 !! f
  = Some {| sync := None; syncContext := ctx_nil; resyncInterval := 0%Z;
            informers := []; informerQueueKeys := []; bareInformers := [];
            cachesToSync := nil_slice |}.
Proof. unfold New. intros [= <- <-]. cbn. by rewrite lookup_insert_eq. Qed.

Lemma forallb_present (l : list Informer) :
  (forall i, i ∈ l -> is_Some i) -> forallb present l = true.
Proof.
  intros Hl. apply forallb_forall. intros i Hi%list_elem_of_In.
  by destruct (Hl i Hi) as [? ->].
Qed.

(** C2, amended: without a sync function [ToController] panics with its
    [WithSync] error and returns no controller, and so it does on a factory
    made by [New] on which [WithSync] was never called; with a sync function
    it returns a new controller provided no informer the factory holds is
    nil and, when there is an informer to attach a handler to, the factory's
    sync context is not of a foreign type. *)
Theorem C2_ToController_needs_sync_and_returns
    w f x (name : string) :
  factories w !! f = Some x ->
  (sync x = None -> ToController f name w = Panic (WithSyncMissing name)) /\
  (forall w0 w1 bs,
     New w0 = Ok f w1 -> run_calls f bs w1 = Ok f w ->
     (forall b, b ∈ bs -> forall fn, b <> call_WithSync fn) ->
     ToController f name w = Panic (WithSyncMissing name)) /\
  (is_Some (sync x) ->
   (forall i, i ∈ sources x -> is_Some i) ->
   (registrations x = [] \/ forall n, syncContext x <> ctx_foreign n) ->
   exists c w' bc,
     ToController f name w = Ok c w' /\
     controllers w !! c = None /\ controllers w' !! c = Some bc).
Proof.
  intros Hf. pose proof (ToController_run f name w x Hf) as Hrun.
  assert (sync x = None -> ToController f name w = Panic (WithSyncMissing name)) as Hnone.
  { intros Hs. destruct (ToController f name w) as [c w' | v].
    - destruct Hrun as [Hthrough _]. unfold runs_through in Hthrough.
      rewrite Hs in Hthrough. rewrite bool_decide_eq_false_2 in Hthrough; [done |].
      by intros [? ?].
    - destruct Hrun as [_ ->]. by rewrite Hs. }
  split; [exact Hnone |]. split.
  - intros w0 w1 bs Hnew Hcalls Hbs. apply Hnone.
    destruct (run_calls_factory f bs w1 _ w (New_factory w0 f w1 Hnew) Hcalls) as (Hf1 & _).
    rewrite Hf in Hf1. injection Hf1 as ->. by rewrite sync_apply_calls.
  - intros Hs Hpresent Hctx.
    assert (runs_through x = true) as Hthrough.
    { unfold runs_through. rewrite bool_decide_eq_true_2 by done. cbn [andb].
      apply andb_true_iff. split.
      - destruct (registrations x) as [| t regs] eqn:E; [done |].
        destruct Hctx as [? | Hctx]; [done |]. cbn [regs_ok].
        apply andb_true_iff. split.
        + destruct (syncContext x) as [| q | n]; try done. by destruct (Hctx n).
        + rewrite <- E. apply forallb_forall. intros [[i k] fl] Ht%list_elem_of_In.
          cbn. assert (is_Some i) as [? ->]; [| done].
          apply Hpresent, elem_of_sources. left. by exists k, fl.
      - apply forallb_present. intros i Hi. apply Hpresent, elem_of_sources. by right. }
    destruct (ToController f name w) as [c w' | v].
    + destruct Hrun as (_ & _ & Hnew & _ & (s & Hc & _) & _).
      exists c, w'. eexists. split; [done |]. split; [exact Hnew | exact Hc].
    + destruct Hrun as [Hno _]. by rewrite Hthrough in Hno.
Qed.

(** *** A built controller and later changes to factories *)









End proofs.

#[local] Existing Instance example_externals.

(** A nil informer among the bare ones makes [ToController] panic as well,
    at the method value [HasSynced]. *)
Example ToController_nil_informer_panics :
  exists f w,
    (g ← New;
     WithSync g (Some 7);;
     WithBareInformers g [None]) emptyWorld = Ok f w /\
    ToController f "demo" w = Panic RuntimeError.
Proof. do 2 eexists. split; [vm_compute; reflexivity |]. vm_compute. reflexivity. Qed.

(** C2 as stated fails: a factory with a sync function, a sync context of a
    foreign type and one informer to attach a handler to makes
    [ToController] panic at its type assertion. *)
Lemma C2_counterexample_foreign_sync_context :
  exists f w,
    (g ← New;
     WithSync g (Some 7);;
     WithSyncContext g (ctx_foreign 0);;
     WithInformers g [Some 3]) emptyWorld = Ok f w /\
    sync <$> factories w !! f = Some (Some 7) /\
    ToController f "demo" w = Panic RuntimeError.
Proof. do 2 eexists. split; [vm_compute; reflexivity |]. split; vm_compute; reflexivity. Qed.


Lemma example_new_factory : factories example_store_new !! 1 = Some example_new.
Proof. vm_compute. reflexivity. Qed.

Lemma example_configured_run :
  run_calls 1 example_calls example_store_new = Ok 1 example_store_configured.
Proof. vm_compute. reflexivity. Qed.

Lemma example_built_run :
  ToController 1 "demo" example_store_configured = Ok 1 example_store_built.
Proof. vm_compute. reflexivity. Qed.


(** C1 on the example: the controller waits for the bare informer 9 and for
    informer 3, and informer 9 has been given no handler. *)
Lemma C1_witness :
  factories example_store_new !! 1 = Some example_new /\
  run_calls 1 example_calls example_store_new = Ok 1 example_store_configured /\
  ToController 1 "demo" example_store_configured = Ok 1 example_store_built /\
  exists bc,
    controllers example_store_built !! 1 = Some bc /\
    HasSynced 9 ∈ elems (syncedArrays example_store_built) (bc_cachesToSync bc) /\
    HasSynced 3 ∈ elems (syncedArrays example_store_built) (bc_cachesToSync bc) /\
    handlers example_store_built !! 9 = handlers example_store_configured !! 9.
Proof.
  split; [exact example_new_factory |]. split; [exact example_configured_run |].
  split; [exact example_built_run |].
  destruct (C1_cachesToSync_holds_every_registered_informer
              example_store_new 1 example_new example_calls example_store_configured
              "demo" 1 example_store_built
              example_new_factory example_configured_run example_built_run)
    as (bc & Hc & _ & Hcalls & Hbare).
  exists bc. split; [exact Hc |]. split; [| split].
  - apply (Hcalls (call_WithBareInformers [Some 9]) 9).
    + apply list_elem_of_In. simpl. tauto.
    + apply list_elem_of_In. simpl. tauto.
  - apply (Hcalls (call_WithInformers [Some 3; Some 4]) 3).
    + apply list_elem_of_In. simpl. tauto.
    + apply list_elem_of_In. simpl. tauto.
  - apply Hbare.
    + intros k fl Hin. apply list_elem_of_In in Hin. exact Hin.
    + intros b Hb Hi. apply list_elem_of_In in Hb. apply list_elem_of_In in Hi.
      simpl in Hb. destruct Hb as [<- | [<- | [<- | [<- | []]]]]; simpl in Hi.
      * destruct Hi.
      * destruct Hi as [Hi | [Hi | []]]; discriminate Hi.
      * by eexists.
      * destruct Hi as [Hi | []]; discriminate Hi.
Defined.

(** C2 on the example: on the factory as [New] made it [ToController] panics
    with the [WithSync] error, on the configured one it returns. *)
Lemma C2_witness :
  factories example_store_new !! 1 = Some example_new /\
  ToController 1 "none" example_store_new = Panic (WithSyncMissing "none") /\
  factories example_store_configured !! 1
  = Some (foldl (fun y b => apply_call b y) example_new example_calls) /\
  exists c w' bc,
    ToController 1 "demo" example_store_configured = Ok c w' /\
    controllers example_store_configured !! c = None /\ controllers w' !! c = Some bc.
Proof.
  assert (factories example_store_configured !! 1
          = Some (foldl (fun y b => apply_call b y) example_new example_calls)) as Hf
    by (vm_compute; reflexivity).
  split; [exact example_new_factory |]. split; [| split; [exact Hf |]].
  - apply (C2_ToController_needs_sync_and_returns example_store_new 1 example_new "none"
             example_new_factory). reflexivity.
  - apply (C2_ToController_needs_sync_and_returns example_store_configured 1 _ "demo" Hf).
    + by eexists.
    + intros i Hi. apply list_elem_of_In in Hi. simpl in Hi.
      destruct Hi as [<- | [<- | [<- | [<- | []]]]]; by eexists.
    + right. intros n. discriminate.
Defined.

(** C3 on the example: informer 3, registered by [WithInformers], has been
    given a handler with the default key function and no filter; informer 5
    one with the key function of its call. *)
Lemma C3_witness :
  factories example_store_new !! 1 = Some example_new /\
  run_calls 1 example_calls example_store_new = Ok 1 example_store_configured /\
  ToController 1 "demo" example_store_configured = Ok 1 example_store_built /\
  (exists added,
     handlers example_store_built !! 3 = Some added /\
     eventHandler 0 (Some DefaultQueueKeysFunc) None ∈ added) /\
  (exists added,
     handlers example_store_built !! 5 = Some added /\
     eventHandler 0 (Some (fun o : string => [o])) None ∈ added).
Proof.
  split; [exact example_new_factory |]. split; [exact example_configured_run |].
  split; [exact example_built_run |].
  destruct (C3_handlers_built_with_default_or_supplied_key_function
              example_store_new 1 example_new example_calls example_store_configured
              "demo" 1 example_store_built
              example_new_factory example_configured_run example_built_run)
    as (bc & Hc & Hall).
  assert (queue_of (bc_syncContext bc) = 0) as Hq.
  { vm_compute in Hc. injection Hc as <-. reflexivity. }
  rewrite Hq in Hall. split.
  - assert (call_WithInformers [Some 3; Some 4] ∈ example_calls) as Hb
      by (apply list_elem_of_In; simpl; tauto).
    assert (Some 3 ∈ call_informers (call_WithInformers [Some 3; Some 4])) as Hi
      by (apply list_elem_of_In; simpl; tauto).
    destruct (Hall _ 3 _ Hb Hi eq_refl) as (_ & added & Hh & Hin & _).
    eexists. split; [exact Hh |]. apply elem_of_app. by right.
  - assert (call_WithInformersQueueKeysFunc (Some (fun o : string => [o])) [Some 5]
            ∈ example_calls) as Hb
      by (apply list_elem_of_In; simpl; tauto).
    assert (Some 5 ∈ call_informers
              (call_WithInformersQueueKeysFunc (Some (fun o : string => [o])) [Some 5]))
      as Hi by (apply list_elem_of_In; simpl; tauto).
    destruct (Hall _ 5 _ Hb Hi eq_refl) as (_ & added & Hh & Hin & _).
    eexists. split; [exact Hh |]. apply elem_of_app. by right.
Defined.


Lemma example_sync_factory : factories example_store_sync !! 1 = Some example_sync.
Proof. vm_compute. reflexivity. Qed.

Lemma example_informer_run :
  WithInformers 1 [Some 3] example_store_sync = Ok 1 example_store_informer.
Proof. vm_compute. reflexivity. Qed.

Lemma example_dispatch_run :
  ToController 1 "demo" example_store_informer = Ok 1 example_store_dispatch.
Proof. vm_compute. reflexivity. Qed.

(** C7 on the example: [WithInformers] registers informer 3 on the factory
    that has a sync function; the handler the controller gives it enqueues
    the default key for an added, an updated and a deleted object. *)
Lemma C7_witness :
  factories example_store_sync !! 1 = Some example_sync /\
  WithInformers 1 [Some 3] example_store_sync
  = WithFilteredEventsInformers 1 None [Some 3] example_store_sync /\
  WithInformers 1 [Some 3] example_store_sync = Ok 1 example_store_informer /\
  informers <$> factories example_store_informer !! 1
  = Some [{| fi_informers := [Some 3]; fi_filter := None |}] /\
  ToController 1 "demo" example_store_informer = Ok 1 example_store_dispatch /\
  exists h,
    h ∈ default [] (handlers example_store_dispatch !! 3) /\
    dispatch id h (OnAdd "pod-a") = Some ["key"] /\
    dispatch id h (OnUpdate "pod-a" "pod-b") = Some ["key"] /\
    dispatch id h (OnDelete "pod-b") = Some ["key"].
Proof.
  destruct (C7_WithInformers_is_nil_filter 1 [Some 3] example_store_sync) as [Heq Hst].
  destruct (Hst example_sync example_sync_factory)
    as (w1 & Hrun & Hfac & _ & _ & _ & _ & Hgiven).
  rewrite example_informer_run in Hrun. injection Hrun as <-.
  split; [exact example_sync_factory |]. split; [exact Heq |].
  split; [exact example_informer_run |].
  split; [rewrite Hfac; vm_compute; reflexivity |].
  split; [exact example_dispatch_run |].
  destruct (Hgiven "demo" 1 example_store_dispatch example_dispatch_run 3)
    as (h & given & Hlook & Hin & _ & _ & Hall).
  { apply list_elem_of_In. simpl. tauto. }
  exists h. split.
  - match goal with
    | |- _ ∈ default [] ?o =>
        replace o with (Some (default [] (handlers example_store_sync !! 3) ++ given))
          by (symmetry; exact Hlook)
    end.
    cbn [default]. apply elem_of_app. by right.
  - split; [apply (Hall id) |]. split; apply (Hall id).
Defined.

End FactoryProofs.

(** ** The agent-addon factory *)
Module AddonFactoryProofs.
Import Go AddonFactory AddonFactorySpec.

Section proofs.
Context `{Ext : Externals}.
Implicit Types (w : World) (f p : loc) (x : AgentAddonFactory)
  (gvr : GroupVersionResource) (gvrs : list GroupVersionResource).

Lemma addon_bind_run {A B} (m : M PanicValue World A) (k : A -> M PanicValue World B) w :
  (m ≫= k) w = match m w with Ok a w' => k a w' | Panic v => Panic v end.
Proof. reflexivity. Qed.

Lemma validateFrom_head index (m : gmap GroupVersionResource bool) gvr gvrs :
  validateFrom index m (gvr :: gvrs) = None <->
  well_formed gvr /\ m !! gvr = None /\
  validateFrom (S index) (<[gvr := true]> m) gvrs = None.
Proof.
  cbn [validateFrom]. unfold well_formed.
  destruct (GVR_Empty gvr); [split; [done | by intros [[? _] _]] |].
  destruct (decide (Version gvr = "")) as [Hv | Hv];
    [split; [done | by intros [(_ & ? & _) _]] |].
  destruct (decide (Resource gvr = "")) as [Hr | Hr];
    [split; [done | by intros [(_ & _ & ?) _]] |].
  destruct (m !! gvr); [split; [done | by intros (_ & ? & _)] |].
  split; [by intros -> | by intros (_ & _ & ->)].
Qed.

(** The loop goes through exactly on well-formed entries that are pairwise
    distinct and not in the map yet. *)
Lemma validateFrom_None gvrs : forall index (m : gmap GroupVersionResource bool),
  validateFrom index m gvrs = None <->
  Forall well_formed gvrs /\ NoDup gvrs /\ forall gvr, gvr ∈ gvrs -> m !! gvr = None.
Proof.
  induction gvrs as [| g gvrs IH]; intros index m.
  - split; [| done]. intros _. split; [constructor |]. split; [constructor |].
    by intros gvr ?%elem_of_nil.
  - rewrite validateFrom_head, IH, Forall_cons, NoDup_cons. split.
    + intros (Hg & Hm & Hall & Hnd & Hfresh). split; [done |].
      assert (g ∉ gvrs) as Hnotin.
      { intros Hin. specialize (Hfresh g Hin). by rewrite lookup_insert_eq in Hfresh. }
      split; [done |]. intros gvr [-> | Hin]%elem_of_cons; [done |].
      specialize (Hfresh gvr Hin). rewrite lookup_insert_ne in Hfresh; [done |].
      by intros ->.
    + intros ([Hg Hall] & [Hnotin Hnd] & Hfresh). split; [done |].
      split; [apply Hfresh; left |]. split; [done |]. split; [done |].
      intros gvr Hin. rewrite lookup_insert_ne by (by intros ->).
      apply Hfresh. by right.
Qed.

Lemma validate_None gvrs :
  validateSupportedConfigGVRs gvrs = None <->
  gvrs = [] \/ (Forall well_formed gvrs /\ NoDup gvrs).
Proof.
  unfold validateSupportedConfigGVRs. case_decide as Hlen.
  - split; [| done]. intros _. left. by apply length_zero_iff_nil.
  - rewrite validateFrom_None. split.
    + intros (? & ? & _). by right.
    + intros [-> | [? ?]]; [done |]. by repeat split.
Qed.

(** A list that holds an entry twice does not pass. *)
Lemma validate_duplicate (old new : list GroupVersionResource) gvr :
  gvr ∈ old -> gvr ∈ new -> validateSupportedConfigGVRs (old ++ new) <> None.
Proof.
  intros Hold Hnew [E | [_ Hnd]]%validate_None.
  - apply app_eq_nil in E as [-> _]. by apply elem_of_nil in Hold.
  - apply NoDup_app in Hnd as (_ & Hdisj & _). by apply (Hdisj gvr).
Qed.

Context {Ld : Loaders}.

Lemma Build_invalid f w x err :
  factories w !! f = Some x ->
  validateSupportedConfigGVRs (SupportedConfigGVRs (agentAddonOptions x)) = Some err ->
  BuildHelmAgentAddon f w = Ok (None, Some err) w /\
  BuildTemplateAgentAddon f w = Ok (None, Some err) w.
Proof.
  intros Hf Hv. unfold BuildHelmAgentAddon, BuildTemplateAgentAddon.
  rewrite !addon_bind_run. unfold loadFactory. rewrite Hf, Hv. done.
Qed.

(** C8: the validation passes exactly on the empty list and on the lists
    whose entries are all non-empty, with a version and a resource, and
    pairwise distinct; and when it fails on the factory's accumulated list,
    both builders return its error and no addon. *)
Theorem C8_validateSupportedConfigGVRs_nil_iff gvrs :
  (validateSupportedConfigGVRs gvrs = None <->
   gvrs = [] \/
   (Forall (fun gvr => GVR_Empty gvr = false /\ Version gvr <> "" /\ Resource gvr <> "") gvrs /\
    NoDup gvrs)) /\
  (forall f w x err,
     factories w !! f = Some x ->
     SupportedConfigGVRs (agentAddonOptions x) = gvrs ->
     validateSupportedConfigGVRs gvrs = Some err ->
     BuildHelmAgentAddon f w = Ok (None, Some err) w /\
     BuildTemplateAgentAddon f w = Ok (None, Some err) w).
Proof.
  split; [apply validate_None |].
  intros f w x err Hf <- Hv. by apply (Build_invalid f w x err).
Qed.

Lemma addon_ret_run {A} (a : A) w : (mret a : M PanicValue World A) w = Ok a w.
Proof. reflexivity. Qed.

Lemma storeFactory_run f x (y : AgentAddonFactory) w :
  factories w !! f = Some x ->
  (storeFactory f y;; mret f) w = Ok f (set_factories (<[f := y]> (factories w)) w).
Proof. intros Hf. rewrite addon_bind_run. unfold storeFactory. by rewrite Hf. Qed.

(** C9: on a factory and a strategy that exist, [WithInstallStrategy] makes
    the strategy's [InstallNamespace] the default
    "open-cluster-management-agent-addon" when it is the empty string and
    leaves the strategy as it is otherwise, and the factory's options then
    point to that strategy; the strategy is read first, so on a nil strategy
    the call panics and stores nothing. *)
Theorem C9_WithInstallStrategy_defaults_namespace f p w x (s : InstallStrategy) :
  factories w !! f = Some x ->
  strategies w !! p = Some s ->
  AddonDefaultInstallNamespace = "open-cluster-management-agent-addon" /\
  WithInstallStrategy f p w
  = Ok f
      {| factories :=
           <[f := {| scheme := scheme x; fs := fs x; dir := dir x;
                     getValuesFuncs := getValuesFuncs x;
                     agentAddonOptions :=
                       {| AddonName := AddonName (agentAddonOptions x);
                          Registration := Registration (agentAddonOptions x);
                          InstallStrategy_ := p;
                          HealthProber := HealthProber (agentAddonOptions x);
                          SupportedConfigGVRs := SupportedConfigGVRs (agentAddonOptions x);
                          HostedModeEnabled := HostedModeEnabled (agentAddonOptions x);
                          AgentDeployTriggerClusterFilter :=
                            AgentDeployTriggerClusterFilter (agentAddonOptions x) |};
                     trimCRDDescription := trimCRDDescription x;
                     hostingCluster := hostingCluster x |}]> (factories w);
         strategies :=
           if decide (InstallNamespace s = "")
           then <[p := {| InstallNamespace := AddonDefaultInstallNamespace;
                          strategy_rest := strategy_rest s |}]> (strategies w)
           else strategies w;
         schemes := schemes w |} /\
  (forall q, strategies w !! q = None -> WithInstallStrategy f q w = Panic RuntimeError).
Proof.
  intros Hf Hp. split; [reflexivity |]. split.
  - unfold WithInstallStrategy. rewrite addon_bind_run. unfold loadStrategy. rewrite Hp.
    rewrite addon_bind_run. case_decide as Hns.
    + unfold storeStrategy. rewrite Hp. rewrite addon_bind_run. unfold loadFactory.
      cbn [factories set_strategies]. rewrite Hf.
      rewrite (storeFactory_run f x) by exact Hf. reflexivity.
    + rewrite addon_ret_run, addon_bind_run. unfold loadFactory. rewrite Hf.
      rewrite (storeFactory_run f x) by exact Hf. reflexivity.
  - intros q Hq. unfold WithInstallStrategy. rewrite addon_bind_run. unfold loadStrategy.
    by rewrite Hq.
Qed.

(** C10: [WithConfigGVRs] puts its arguments behind the factory's list of
    supported configuration types and changes nothing else, so that a second
    call adds to the first, and a type that was already there makes both
    builders fail afterwards; [WithGetValuesFuncs] replaces the whole list of
    functions and changes nothing else; both return the factory they were
    called on. *)
Theorem C10_WithConfigGVRs_appends_WithGetValuesFuncs_replaces
    f w x gvrs (more : list GroupVersionResource) (fns : list GetValuesFunc) :
  factories w !! f = Some x ->
  let with_gvrs (l : list GroupVersionResource) :=
    {| scheme := scheme x; fs := fs x; dir := dir x;
       getValuesFuncs := getValuesFuncs x;
       agentAddonOptions :=
         {| AddonName := AddonName (agentAddonOptions x);
            Registration := Registration (agentAddonOptions x);
            InstallStrategy_ := InstallStrategy_ (agentAddonOptions x);
            HealthProber := HealthProber (agentAddonOptions x);
            SupportedConfigGVRs := l;
            HostedModeEnabled := HostedModeEnabled (agentAddonOptions x);
            AgentDeployTriggerClusterFilter :=
              AgentDeployTriggerClusterFilter (agentAddonOptions x) |};
       trimCRDDescription := trimCRDDescription x;
       hostingCluster := hostingCluster x |} in
  let stored (y : AgentAddonFactory) :=
    {| factories := <[f := y]> (factories w); strategies := strategies w;
       schemes := schemes w |} in
  WithConfigGVRs f gvrs w
  = Ok f (stored (with_gvrs (SupportedConfigGVRs (agentAddonOptions x) ++ gvrs))) /\
  (g ← WithConfigGVRs f gvrs; WithConfigGVRs g more) w
  = Ok f (stored (with_gvrs ((SupportedConfigGVRs (agentAddonOptions x) ++ gvrs) ++ more))) /\
  (forall gvr,
     gvr ∈ SupportedConfigGVRs (agentAddonOptions x) -> gvr ∈ gvrs ->
     exists w' err,
       WithConfigGVRs f gvrs w = Ok f w' /\
       BuildHelmAgentAddon f w' = Ok (None, Some err) w' /\
       BuildTemplateAgentAddon f w' = Ok (None, Some err) w') /\
  WithGetValuesFuncs f fns w
  = Ok f (stored {| scheme := scheme x; fs := fs x; dir := dir x;
                    getValuesFuncs := fns;
                    agentAddonOptions := agentAddonOptions x;
                    trimCRDDescription := trimCRDDescription x;
                    hostingCluster := hostingCluster x |}).
Proof.
  intros Hf with_gvrs stored.
  assert (forall w1 y l, factories w1 !! f = Some y ->
            WithConfigGVRs f l w1
            = Ok f (set_factories
                      (<[f := set_agentAddonOptions
                                (set_SupportedConfigGVRs
                                   (SupportedConfigGVRs (agentAddonOptions y) ++ l)
                                   (agentAddonOptions y)) y]> (factories w1)) w1)) as Hrun.
  { intros w1 y l Hy. unfold WithConfigGVRs. rewrite addon_bind_run. unfold loadFactory.
    rewrite Hy. by apply (storeFactory_run f y). }
  split; [by rewrite (Hrun w x gvrs Hf) |]. split; [| split].
  - rewrite addon_bind_run, (Hrun w x gvrs Hf).
    erewrite Hrun by (cbn; apply lookup_insert_eq).
    unfold stored, with_gvrs. cbn. by rewrite insert_insert_eq.
  - intros gvr Hold Hnew. rewrite (Hrun w x gvrs Hf).
    destruct (validateSupportedConfigGVRs (SupportedConfigGVRs (agentAddonOptions x) ++ gvrs))
      as [err |] eqn:Hv; [| by destruct (validate_duplicate _ _ gvr Hold Hnew)].
    eexists. exists err. split; [done |].
    eapply Build_invalid; [cbn; apply lookup_insert_eq | exact Hv].
  - unfold WithGetValuesFuncs. rewrite addon_bind_run. unfold loadFactory. rewrite Hf.
    by rewrite (storeFactory_run f x).
Qed.

End proofs.

#[local] Existing Instance example_externals.
#[local] Existing Instance example_loaders.

Lemma addon_example_new : factories example_store_new !! 1 = Some example_factory_new.
Proof. vm_compute. reflexivity. Qed.

Lemma addon_example_gvr : factories example_store_gvr !! 1 = Some example_factory_gvr.
Proof. vm_compute. reflexivity. Qed.

Lemma addon_example_twice : factories example_store_twice !! 1 = Some example_factory_twice.
Proof. vm_compute. reflexivity. Qed.

(** C8 on the example: the list that holds the same type twice is refused,
    and both builders return the error. *)
Lemma C8_witness :
  factories example_store_twice !! 1 = Some example_factory_twice /\
  validateSupportedConfigGVRs [example_gvr; example_gvr]
  = Some (ErrConfigTypeDuplicated
            "addon.open-cluster-management.io/v1alpha1, Resource=addondeploymentconfigs") /\
  BuildHelmAgentAddon 1 example_store_twice
  = Ok (None, Some (ErrConfigTypeDuplicated
                      "addon.open-cluster-management.io/v1alpha1, Resource=addondeploymentconfigs"))
      example_store_twice /\
  BuildTemplateAgentAddon 1 example_store_twice
  = Ok (None, Some (ErrConfigTypeDuplicated
                      "addon.open-cluster-management.io/v1alpha1, Resource=addondeploymentconfigs"))
      example_store_twice /\
  validateSupportedConfigGVRs [example_gvr] = None.
Proof.
  assert (validateSupportedConfigGVRs [example_gvr; example_gvr]
          = Some (ErrConfigTypeDuplicated
                    "addon.open-cluster-management.io/v1alpha1, Resource=addondeploymentconfigs"))
    as Hv by (vm_compute; reflexivity).
  split; [exact addon_example_twice |]. split; [exact Hv |].
  destruct (C8_validateSupportedConfigGVRs_nil_iff [example_gvr; example_gvr]) as [_ Hbuild].
  destruct (Hbuild 1 example_store_twice example_factory_twice _ addon_example_twice eq_refl Hv)
    as [Hhelm Htemplate].
  split; [exact Hhelm |]. split; [exact Htemplate |].
  apply (C8_validateSupportedConfigGVRs_nil_iff [example_gvr]). right.
  split; [| apply NoDup_singleton].
  apply Forall_singleton. repeat split; discriminate.
Defined.

(** C9 on the example: the strategy behind pointer 5 has the empty
    namespace and gets the default one. *)
Lemma C9_witness :
  factories example_store_new !! 1 = Some example_factory_new /\
  strategies example_store_new !! 5
  = Some {| InstallNamespace := ""; strategy_rest := "Manual" |} /\
  exists w',
    WithInstallStrategy 1 5 example_store_new = Ok 1 w' /\
    strategies w' !! 5
    = Some {| InstallNamespace := "open-cluster-management-agent-addon";
              strategy_rest := "Manual" |} /\
    InstallStrategy_ <$> (agentAddonOptions <$> factories w' !! 1) = Some 5.
Proof.
  assert (strategies example_store_new !! 5
          = Some {| InstallNamespace := ""; strategy_rest := "Manual" |}) as Hp
    by (vm_compute; reflexivity).
  split; [exact addon_example_new |]. split; [exact Hp |].
  destruct (C9_WithInstallStrategy_defaults_namespace 1 5 example_store_new
              example_factory_new _ addon_example_new Hp) as (_ & Hrun & _).
  eexists. split; [exact Hrun |]. split; vm_compute; reflexivity.
Defined.

(** C10 on the example: a second [WithConfigGVRs] of the same type adds it
    again, and both builders fail afterwards. *)
Lemma C10_witness :
  factories example_store_gvr !! 1 = Some example_factory_gvr /\
  WithConfigGVRs 1 [example_gvr] example_store_gvr = Ok 1 example_store_twice /\
  SupportedConfigGVRs <$> (agentAddonOptions <$> factories example_store_twice !! 1)
  = Some [example_gvr; example_gvr] /\
  (exists err,
     BuildHelmAgentAddon 1 example_store_twice = Ok (None, Some err) example_store_twice /\
     BuildTemplateAgentAddon 1 example_store_twice = Ok (None, Some err) example_store_twice) /\
  getValuesFuncs <$>
    (match WithGetValuesFuncs 1 [Some 2; Some 3] example_store_gvr with
     | Ok _ w => factories w !! 1
     | Panic _ => None
     end) = Some [Some 2; Some 3].
Proof.
  destruct (C10_WithConfigGVRs_appends_WithGetValuesFuncs_replaces
              1 example_store_gvr example_factory_gvr [example_gvr] [] [Some 2; Some 3]
              addon_example_gvr) as (Hrun & _ & Hdup & Hfns).
  assert (WithConfigGVRs 1 [example_gvr] example_store_gvr = Ok 1 example_store_twice) as Hrun'
    by (vm_compute; reflexivity).
  split; [exact addon_example_gvr |]. split; [exact Hrun' |].
  split; [vm_compute; reflexivity |]. split.
  - destruct (Hdup example_gvr) as (w' & err & Hw' & Hhelm & Htemplate).
    + apply list_elem_of_In. simpl. tauto.
    + apply list_elem_of_In. simpl. tauto.
    + rewrite Hrun' in Hw'. injection Hw' as <-. by exists err.
  - rewrite Hfns. cbn. by rewrite lookup_insert_eq.
Defined.

End AddonFactoryProofs.

(** ** The run loop *)
Module ControllerProofs.
Import Go Factory Controller.

Section proofs.
Variable cfg : Config.
Variable isSynced : nat -> InformerSynced -> bool.
Implicit Types (s : RunState) (e : Event) (es : list Event).

Lemma steps_app es1 : forall s es2,
  steps cfg isSynced s (es1 ++ es2)
  = match steps cfg isSynced s es1 with
    | Some s1 => steps cfg isSynced s1 es2
    | None => None
    end.
Proof.
  induction es1 as [| e es1 IH]; intros s es2; [done |].
  cbn [steps app]. destruct (step cfg isSynced s e); [apply IH | done].
Qed.

Lemma gated_initial : gated cfg isSynced initial.
Proof. split; cbn; [lia |]. repeat split. intros t Ht. lia. Qed.

(** Every transition keeps the gate's invariant. *)
Lemma step_gated s e s' :
  gated cfg isSynced s -> step cfg isSynced s e = Some s' -> gated cfg isSynced s'.
Proof.
  intros [Hle Hinv] Hstep. unfold step in Hstep.
  destruct e, (phase s) eqn:Hph; try discriminate.
  - (* Run is called *)
    injection Hstep as <-. split; cbn; [lia |].
    destruct Hinv as (? & _ & _). repeat split; [done |]. intros t Ht. lia.
  - (* a poll *)
    destruct Hinv as (Hinv & Hret & Hnot).
    destruct (allSynced cfg isSynced (elapsed s)) eqn:Hall.
    + injection Hstep as <-. by split.
    + case_decide as Hlt; injection Hstep as <-; (split; cbn; [lia |]).
      * repeat split; try done. intros t Ht.
        destruct (decide (t = elapsed s)) as [-> | ?]; [done | apply Hnot; lia].
      * right. repeat split; try done. intros t Ht.
        destruct (decide (t = elapsed s)) as [-> | ?]; [done | apply Hnot; lia].
  - (* a dispatcher enqueues before the workers start *)
    injection Hstep as <-. by split.
  - injection Hstep as <-. by split.
  - injection Hstep as <-. by split.
  - (* and is ignored after shutdown *)
    injection Hstep as <-. split; [done |]. by rewrite Hph.
  - injection Hstep as <-. split; [done |]. by rewrite Hph.
  - (* the resync timer *)
    case_decide; [| done]. destruct Hinv as [_ Hall]. injection Hstep as <-.
    split; [done |]. by split.
  - (* a worker takes a key *)
    destruct (queue s); [done |]. destruct Hinv as [_ Hall]. injection Hstep as <-.
    split; [done |]. by split.
  - (* cancellation *)
    destruct Hinv as [_ Hall]. injection Hstep as <-. split; [done |]. by split.
  - (* the last worker returns *)
    destruct Hinv as [_ Hall]. injection Hstep as <-. split; [done |]. by left.
Qed.

Lemma steps_gated es : forall s s',
  gated cfg isSynced s -> steps cfg isSynced s es = Some s' -> gated cfg isSynced s'.
Proof.
  induction es as [| e es IH]; intros s s' Hs Hrun.
  - by injection Hrun as <-.
  - cbn [steps] in Hrun. destruct (step cfg isSynced s e) as [s1 |] eqn:He; [| done].
    eapply IH; [| exact Hrun]. by eapply step_gated.
Qed.

(** Only a running controller invokes the sync function. *)
Lemma work_running s failed s' :
  step cfg isSynced s (work failed) = Some s' ->
  phase s = running /\ exists key, invoked s' = invoked s ++ [key].
Proof.
  unfold step. destruct (phase s); try discriminate.
  destruct (queue s) as [| key rest]; [done |]. intros [= <-]. split; [done |].
  by exists key.
Qed.

Lemma polls_app es1 es2 : polls (es1 ++ es2) = polls es1 + polls es2.
Proof.
  induction es1 as [| e es1 IH]; [done |]. destruct e; cbn; by rewrite ?IH.
Qed.

Section never_ready.
Hypothesis Hnever : forall t, t <= cfg_timeout cfg -> allSynced cfg isSynced t = false.

(** While the sources never get ready, the polls made so far are the time
    elapsed, and the workers are never started. *)
Lemma polls_counted es : forall s,
  steps cfg isSynced initial es = Some s ->
  match phase s with
  | constructed => polls es = 0
  | warming_up => polls es = elapsed s
  | stopped => polls es = S (cfg_timeout cfg)
  | running | draining => False
  end.
Proof.
  induction es as [| e es IH] using rev_ind; intros s Hrun.
  - by injection Hrun as <-.
  - rewrite steps_app in Hrun.
    destruct (steps cfg isSynced initial es) as [s1 |] eqn:Hes; [| done].
    specialize (IH s1 eq_refl).
    pose proof (steps_gated es initial s1 gated_initial Hes) as [Hle _].
    cbn [steps] in Hrun. destruct (step cfg isSynced s1 e) as [s2 |] eqn:He; [| done].
    injection Hrun as <-. rewrite polls_app. unfold step in He.
    destruct e, (phase s1) eqn:Hph; try discriminate; try done.
    + injection He as <-. cbn. lia.
    + rewrite Hnever in He by done. case_decide; injection He as <-; cbn; lia.
    + injection He as <-. cbn. lia.
    + injection He as <-. cbn. lia.
    + injection He as <-. rewrite Hph. cbn. lia.
Qed.

(** From any moment of the warm-up, polling on ends the run with the timeout
    error, at the poll that finds the timeout elapsed. *)
Lemma warm_up_times_out n : forall s,
  phase s = warming_up -> elapsed s + n = cfg_timeout cfg ->
  exists s',
    steps cfg isSynced s (replicate (S n) poll) = Some s' /\
    phase s' = stopped /\ returned s' = Some (Some ReadinessTimeout) /\
    invoked s' = invoked s.
Proof.
  induction n as [| n IH]; intros s Hph Hn.
  - cbn. unfold step. rewrite Hph, Hnever by lia. rewrite decide_False by lia.
    eexists. by repeat split.
  - change (replicate (S (S n)) poll) with (poll :: replicate (S n) poll).
    cbn [steps]. unfold step at 1. rewrite Hph, Hnever by lia.
    rewrite decide_True by lia.
    match goal with |- context [steps _ _ ?s1 _] => destruct (IH s1) as (s' & ? & ? & ? & ?) end;
      [done | cbn; lia |]. by exists s'.
Qed.

End never_ready.

(** C5: in every run, each invocation of the sync function comes after a poll
    that found every readiness predicate true, within the timeout; and when
    they are never all true within the timeout, no run invokes the sync
    function, a run that returns returns the timeout error, and the run
    returns it at the latest at poll number timeout + 1, which every run
    that keeps polling reaches. *)
Theorem C5_no_sync_before_ready es s :
  steps cfg isSynced initial es = Some s ->
  (forall pre failed post,
     es = pre ++ work failed :: post ->
     exists s1,
       steps cfg isSynced initial pre = Some s1 /\ phase s1 = running /\
       elapsed s1 <= cfg_timeout cfg /\ allSynced cfg isSynced (elapsed s1) = true) /\
  (invoked s <> [] ->
   exists t, t <= cfg_timeout cfg /\ allSynced cfg isSynced t = true) /\
  ((forall t, t <= cfg_timeout cfg -> allSynced cfg isSynced t = false) ->
   invoked s = [] /\
   (forall r, returned s = Some r -> r = Some ReadinessTimeout) /\
   polls es <= S (cfg_timeout cfg) /\
   (polls es = S (cfg_timeout cfg) -> returned s = Some (Some ReadinessTimeout)) /\
   exists s_end,
     steps cfg isSynced initial (run_called :: replicate (S (cfg_timeout cfg)) poll)
     = Some s_end /\
     returned s_end = Some (Some ReadinessTimeout) /\ invoked s_end = []).
Proof.
  intros Hrun. pose proof (steps_gated es initial s gated_initial Hrun) as Hg.
  split; [| split].
  - intros pre failed post ->. rewrite steps_app in Hrun.
    destruct (steps cfg isSynced initial pre) as [s1 |] eqn:Hpre; [| done].
    cbn [steps] in Hrun.
    destruct (step cfg isSynced s1 (work failed)) as [s2 |] eqn:Hw; [| done].
    destruct (work_running s1 failed s2 Hw) as [Hph _].
    pose proof (steps_gated pre initial s1 gated_initial Hpre) as [Hle Hinv].
    rewrite Hph in Hinv. exists s1. by destruct Hinv.
  - intros Hinvoked. destruct Hg as [Hle Hinv]. exists (elapsed s). split; [done |].
    destruct (phase s); try (by destruct Hinv); try (by destruct Hinv as [? _]).
    destruct Hinv as [[_ ?] | (_ & ? & _)]; done.
  - intros Hnever. pose proof (polls_counted Hnever es s Hrun) as Hp.
    destruct Hg as [Hle Hinv].
    assert (invoked s = [] /\
            (forall r, returned s = Some r -> r = Some ReadinessTimeout) /\
            (phase s = stopped -> returned s = Some (Some ReadinessTimeout)))
      as (Hnone & Hret & Hstop).
    { destruct (phase s); try done.
      - destruct Hinv as (? & -> & _). by repeat split.
      - destruct Hinv as (? & -> & _). by repeat split.
      - destruct Hinv as [[_ Hall] | (-> & ? & _)].
        + by rewrite Hnever in Hall.
        + repeat split; [done |]. by intros r [= <-]. }
    split; [done |]. split; [done |]. split; [| split].
    + destruct (phase s); try done; lia.
    + intros E. apply Hstop. destruct (phase s) eqn:Hph; try done; [| lia].
      rewrite E in Hp. lia.
    + destruct (warm_up_times_out Hnever (cfg_timeout cfg)
                  {| phase := warming_up; elapsed := 0; queue := []; invoked := [];
                     returned := None |} eq_refl eq_refl)
        as (s_end & Hend & _ & ? & ?).
      exists s_end. by repeat split.
Qed.

End proofs.

(** C5 on an example: one source that never gets ready and a timeout of one
    poll.  The run ends at the second poll with the timeout error; the key a
    dispatcher enqueued meanwhile is never handed to the sync function. *)
Lemma C5_witness :
  let cfg := {| cfg_predicates := [HasSynced 3]; cfg_timeout := 1; cfg_resync := 0 |} in
  let never := fun (_ : nat) (_ : InformerSynced) => false in
  let es := [run_called; enqueue "ns/a"; poll; poll] in
  let s := {| phase := stopped; elapsed := 1; queue := ["ns/a"]; invoked := [];
              returned := Some (Some ReadinessTimeout) |} in
  steps cfg never initial es = Some s /\
  (forall t, t <= cfg_timeout cfg -> allSynced cfg never t = false) /\
  invoked s = [] /\
  polls es <= 2 /\
  (forall r, returned s = Some r -> r = Some ReadinessTimeout).
Proof.
  intros cfg never es s.
  assert (steps cfg never initial es = Some s) as Hrun by reflexivity.
  assert (forall t, t <= cfg_timeout cfg -> allSynced cfg never t = false) as Hnever
    by (intros t _; reflexivity).
  destruct (C5_no_sync_before_ready cfg never es s Hrun) as (_ & _ & Hgate).
  destruct (Hgate Hnever) as (Hnone & Hret & Hpolls & _).
  split; [exact Hrun |]. split; [exact Hnever |]. split; [exact Hnone |].
  split; [exact Hpolls | exact Hret].
Defined.

(** The other way round: a source that is ready from the second poll on; the
    worker gets the key once the gate has opened, and not before. *)
Example run_opens_at_second_poll :
  let cfg := {| cfg_predicates := [HasSynced 3]; cfg_timeout := 5; cfg_resync := 0 |} in
  let late := fun (t : nat) (_ : InformerSynced) => bool_decide (1 <= t) in
  steps cfg late initial [run_called; enqueue "ns/a"; poll; poll; work false; cancel; drained]
  = Some {| phase := stopped; elapsed := 1; queue := []; invoked := ["ns/a"];
            returned := Some None |} /\
  steps cfg late initial [run_called; enqueue "ns/a"; poll; work false] = None.
Proof. split; reflexivity. Qed.

End ControllerProofs.

(** ** More about the controller factory *)
Module FactoryExtras.
Import Go GoFacts Factory FactorySpec FactoryProofs FactoryExtraSpec.

Section proofs.
Context `{Ext : Externals}.
Implicit Types (w : World) (c f : loc) (x : Factory) (s : slice).

(** [runs_through], spelled out. *)
Lemma runs_through_iff x :
  runs_through x = true <->
  is_Some (sync x) /\
  (forall i, i ∈ sources x -> is_Some i) /\
  (registrations x = [] \/ forall n, syncContext x <> ctx_foreign n).
Proof.
  unfold runs_through. rewrite !andb_true_iff, bool_decide_eq_true. split.
  - intros [[Hs Hregs] Hbare]. split; [done |].
    assert (forall i, i ∈ bareInformers x -> is_Some i) as Hb.
    { intros i Hi%list_elem_of_In. rewrite forallb_forall in Hbare.
      specialize (Hbare i Hi). destruct i; [by eexists | done]. }
    destruct (registrations x) as [| t regs] eqn:E.
    + split; [| by left]. intros i [(k & fl & Ht) | ?]%elem_of_sources; [| by apply Hb].
      rewrite E in Ht. by apply elem_of_nil in Ht.
    + cbn [regs_ok] in Hregs. apply andb_true_iff in Hregs as [Hctx Hall]. split.
      * intros i [(k & fl & Ht) | ?]%elem_of_sources; [| by apply Hb].
        rewrite E in Ht. rewrite forallb_forall in Hall.
        apply list_elem_of_In in Ht. specialize (Hall _ Ht). cbn in Hall.
        destruct i; [by eexists | done].
      * right. intros n Hn. by rewrite Hn in Hctx.
  - intros (Hs & Hpresent & Hctx). split; [split; [done |] |].
    + destruct (registrations x) as [| t regs] eqn:E; [done |].
      destruct Hctx as [? | Hctx]; [done |]. cbn [regs_ok].
      apply andb_true_iff. split.
      * destruct (syncContext x) as [| q | n]; try done. by destruct (Hctx n).
      * rewrite <- E. apply forallb_forall. intros [[i k] fl] Ht%list_elem_of_In.
        cbn. assert (is_Some i) as [? ->]; [| done].
        apply Hpresent, elem_of_sources. left. by exists k, fl.
    + apply forallb_present. intros i Hi. apply Hpresent, elem_of_sources. by right.
Qed.

(** X1: on a factory that exists, [ToController] returns a controller exactly
    when there is a sync function, no informer the factory holds is nil, and
    the sync context is not of a foreign type unless there is no informer to
    attach a handler to; when it does not return, the panic is the [WithSync]
    error if the sync function is missing, whatever else is wrong, and a
    run-time error otherwise. *)
Theorem X1_ToController_returns_exactly_when w f x (name : string) :
  factories w !! f = Some x ->
  ((exists c w', ToController f name w = Ok c w') <->
   is_Some (sync x) /\
   (forall i, i ∈ sources x -> is_Some i) /\
   (registrations x = [] \/ forall n, syncContext x <> ctx_foreign n)) /\
  (forall v, ToController f name w = Panic v ->
     v = match sync x with None => WithSyncMissing name | Some _ => RuntimeError end).
Proof.
  intros Hf. pose proof (ToController_run f name w x Hf) as Hrun.
  rewrite <- runs_through_iff. split; [split |].
  - intros (c & w' & E). rewrite E in Hrun. by destruct Hrun.
  - intros Hthrough. destruct (ToController f name w) as [c w' | v]; [by eauto |].
    destruct Hrun as [Hno _]. by rewrite Hthrough in Hno.
  - intros v E. rewrite E in Hrun. by destruct Hrun.
Qed.

Lemma subscribe_all_default q regs hs i :
  default [] (foldl (subscribe q) hs regs !! i)
  = default [] (hs !! i) ++ handlers_for q regs i.
Proof.
  rewrite subscribe_all_lookup.
  destruct (handlers_for q regs i); [by rewrite app_nil_r | done].
Qed.

Lemma handlers_for_length q regs i :
  length (handlers_for q regs i) = length (filter (fun r => r.1.1 = Some i) regs).
Proof. unfold handlers_for. by rewrite length_fmap. Qed.

Lemma times_app {A} `{EqDecision A} (a : A) (l k : list A) :
  times a (l ++ k) = times a l + times a k.
Proof. unfold times. by rewrite filter_app, length_app. Qed.

Lemma times_synced_of i (l : list Informer) :
  times (HasSynced i) (synced_of l) = times (Some i) l.
Proof.
  unfold times, synced_of, refs_of.
  induction l as [| [j |] l IH]; [done | |].
  - cbn [omap list_omap id fmap list_fmap]. rewrite !filter_cons.
    destruct (decide (j = i)) as [-> | Hne].
    + rewrite !decide_True by done. cbn. by rewrite <- IH.
    + rewrite !decide_False by congruence. exact IH.
  - cbn [omap list_omap id]. rewrite filter_cons, decide_False by done. exact IH.
Qed.

(** X3: nothing is deduplicated.  [ToController] gives an informer one
    handler for every registration that names it, and the controller's
    readiness list gets the informer's [HasSynced] once for every time the
    factory holds it, bare registrations included. *)
Theorem X3_one_handler_and_one_predicate_per_registration
    w f x (name : string) c w' (i : InformerRef) :
  factories w !! f = Some x ->
  ToController f name w = Ok c w' ->
  length (default [] (handlers w' !! i))
  = length (default [] (handlers w !! i)) + length (registrations_of x i) /\
  exists bc,
    controllers w' !! c = Some bc /\
    times (HasSynced i) (elems (syncedArrays w') (bc_cachesToSync bc))
    = times (HasSynced i) (elems (syncedArrays w) (cachesToSync x))
      + times (Some i) (sources x).
Proof.
  intros Hf Hrun.
  destruct (ToController_built f name w x c w' Hf Hrun)
    as (_ & _ & _ & _ & (s & Hc & _ & Hel & _) & _ & Hh).
  split.
  - rewrite Hh, subscribe_all_default, length_app, handlers_for_length. done.
  - eexists. split; [exact Hc |]. cbn [bc_cachesToSync].
    by rewrite Hel, times_app, times_synced_of.
Qed.

(** X2: [ToController] leaves the factory as it is, so it can be called
    again: the second call returns as the first did, with a controller of its
    own that has the same sync function and resync interval, the first
    controller is still there, and every registered informer has by then been
    given its handlers twice. *)
Theorem X2_ToController_can_be_repeated
    w f x (name1 name2 : string) c1 w1 :
  factories w !! f = Some x ->
  ToController f name1 w = Ok c1 w1 ->
  exists c2 w2 bc1 bc2,
    ToController f name2 w1 = Ok c2 w2 /\
    c2 <> c1 /\
    factories w2 = factories w /\
    controllers w2 !! c1 = Some bc1 /\ controllers w1 !! c1 = Some bc1 /\
    controllers w2 !! c2 = Some bc2 /\
    bc_name bc1 = name1 /\ bc_name bc2 = name2 /\
    bc_sync bc2 = bc_sync bc1 /\ bc_resyncEvery bc2 = bc_resyncEvery bc1 /\
    forall i,
      length (default [] (handlers w2 !! i))
      = length (default [] (handlers w !! i)) + 2 * length (registrations_of x i).
Proof.
  intros Hf Hrun.
  destruct (ToController_built f name1 w x c1 w1 Hf Hrun)
    as (Hthrough & Hfac1 & _ & _ & (s1 & Hc1 & _) & _ & Hh1).
  assert (factories w1 !! f = Some x) as Hf1 by by rewrite Hfac1.
  pose proof (ToController_run f name2 w1 x Hf1) as Hrun2.
  destruct (ToController f name2 w1) as [c2 w2 | v];
    [| destruct Hrun2 as [Hno _]; by rewrite Hthrough in Hno].
  destruct Hrun2 as (_ & Hfac2 & Hnew2 & Hoth2 & (s2 & Hc2 & _) & _ & Hh2).
  assert (c1 <> c2) as Hne by (intros ->; by rewrite Hc1 in Hnew2).
  exists c2, w2. do 2 eexists. split; [done |]. split; [done |].
  split; [by rewrite Hfac2 |]. split; [rewrite Hoth2 by done; exact Hc1 |].
  split; [exact Hc1 |]. split; [exact Hc2 |]. repeat split.
  intros i. rewrite Hh2, subscribe_all_default, Hh1, subscribe_all_default.
  rewrite !length_app, !handlers_for_length. unfold registrations_of. lia.
Qed.

Lemma run_calls_nil f b bs w :
  factories w !! f = None -> run_calls f (b :: bs) w = Panic RuntimeError.
Proof. intros Hf. cbn [run_calls]. by rewrite bind_run, run_call_nil. Qed.

(** X4: of two calls that assign the same field ([WithSync], [ResyncEvery],
    [WithSyncContext]) only the second counts, so that [WithSync(nil)] takes
    back an earlier [WithSync] and [ToController] panics for the missing sync
    function; two calls of [WithBareInformers] are one call with both lists. *)
Theorem X4_later_assignment_wins f (b1 b2 : BuilderCall) w :
  is_setter b2 = true -> call_field b1 = call_field b2 ->
  run_calls f [b1; b2] w = run_calls f [b2] w /\
  (forall x fn name,
     factories w !! f = Some x ->
     (g ← run_calls f [call_WithSync (Some fn); call_WithSync None];
      ToController g name) w
     = Panic (WithSyncMissing name)) /\
  (forall l1 l2,
     run_calls f [call_WithBareInformers l1; call_WithBareInformers l2] w
     = run_calls f [call_WithBareInformers (l1 ++ l2)] w).
Proof.
  intros Hset Hfield.
  destruct (factories w !! f) as [x |] eqn:Hf; cycle 1.
  { split; [by rewrite !run_calls_nil |]. split; [done |].
    intros l1 l2. by rewrite !run_calls_nil. }
  split; [| split].
  - rewrite !(run_calls_ok _ f w x Hf). cbn [foldl]. do 3 f_equal.
    destruct b2; try discriminate Hset; destruct b1; try discriminate Hfield; reflexivity.
  - intros y fn name [= <-]. rewrite bind_run, (run_calls_ok _ f w x Hf).
    cbn [foldl apply_call].
    match goal with |- ToController f name ?w1 = _ =>
      pose proof (ToController_run f name w1 _ ltac:(cbn; apply lookup_insert_eq)) as Hrun;
      destruct (ToController f name w1) as [c w' | v] end.
    + destruct Hrun as [Hthrough _]. unfold runs_through in Hthrough.
      cbn [sync set_sync] in Hthrough.
      rewrite bool_decide_eq_false_2 in Hthrough; [done | by intros [? ?]].
    + by destruct Hrun as [_ ->].
  - intros l1 l2. rewrite !(run_calls_ok _ f w x Hf). cbn [foldl apply_call].
    do 3 f_equal. cbn. by rewrite app_assoc.
Qed.

(** X5: calls that write different fields of the factory can be made in
    either order. *)
Theorem X5_calls_on_different_fields_commute f (b1 b2 : BuilderCall) w :
  call_field b1 <> call_field b2 ->
  run_calls f [b1; b2] w = run_calls f [b2; b1] w.
Proof.
  intros Hfield.
  destruct (factories w !! f) as [x |] eqn:Hf; [| by rewrite !run_calls_nil].
  rewrite !(run_calls_ok _ f w x Hf). cbn [foldl]. do 3 f_equal.
  destruct b1, b2; try reflexivity; by destruct Hfield.
Qed.

(** The queues after [ToController]: one more, named after the controller,
    when the factory has no sync context, and the same ones otherwise. *)
Lemma ToController_queues f name w x :
  factories w !! f = Some x ->
  match ToController f name w with
  | Ok c w' =>
      queues w' = match syncContext x with
                  | ctx_nil => <[fresh (dom (queues w)) := name]> (queues w)
                  | _ => queues w
                  end
  | Panic _ => True
  end.
Proof.
  intros Hf. unfold ToController. rewrite bind_run.
  unfold loadFactory at 1. rewrite Hf.
  destruct (sync x) as [fn |] eqn:Hsync; [| done].
  rewrite bind_run.
  set (ctx := controller_ctx x w).
  set (w1 := match syncContext x with
             | ctx_nil => set_queues (<[fresh (dom (queues w)) := name]> (queues w)) w
             | _ => w end).
  assert (match syncContext x with
          | ctx_nil => NewSyncContext name
          | ctx_syncContext q => mret (ctx_syncContext q)
          | ctx_foreign n => mret (ctx_foreign n)
          end w = Ok ctx w1) as ->.
  { unfold ctx, controller_ctx, w1. by destruct (syncContext x). }
  rewrite bind_run. unfold get at 1. rewrite bind_run. unfold put at 1.
  rewrite bind_run. unfold newController at 1.
  assert (syncedArrays w1 = syncedArrays w) as Harr by (unfold w1; by destruct (syncContext x)).
  assert (controllers w1 = controllers w) as Hctl by (unfold w1; by destruct (syncContext x)).
  assert (queues w1 = match syncContext x with
                      | ctx_nil => <[fresh (dom (queues w)) := name]> (queues w)
                      | _ => queues w
                      end) as Hqs by (unfold w1; by destruct (syncContext x)).
  set (h0 := syncedArrays w).
  rewrite Harr. fold h0.
  set (r := append synced_nil growslice_spare empty_slice (elems h0 (cachesToSync x)) h0).
  set (w2 := set_syncedArrays r.2 w1).
  change (controllers w2) with (controllers w1). rewrite Hctl.
  set (c := fresh ({[null]} ∪ dom (controllers w))).
  set (bc := {| bc_name := name; bc_sync := Some fn; bc_resyncEvery := resyncInterval x;
                bc_cachesToSync := r.1; bc_syncContext := ctx;
                bc_cacheSyncTimeout := defaultCacheSyncTimeout |}).
  set (w3 := set_controllers (<[c := bc]> (controllers w)) w2).
  assert (slice_wf h0 empty_slice) as Hwf0 by (split; [done | by left]).
  assert (building h0 c bc w3 (elems h0 (cachesToSync x))) as Hb.
  { exists r.1. split; [by apply lookup_insert_eq |].
    split; [by apply append_wf |].
    split.
    { change (syncedArrays w3) with r.2. unfold r. by rewrite append_elems. }
    split.
    { destruct (append_arr synced_nil growslice_spare h0 empty_slice
                  (elems h0 (cachesToSync x))) as [[_ Hc] | [Hn _]]; [by left | by right]. }
    intros l Hl. change (syncedArrays w3) with r.2. apply append_other; [done | by left]. }
  rewrite bind_run.
  pose proof (attachQueueKeys_run h0 c bc (informerQueueKeys x) w3 _ Hb) as H1.
  destruct (attachQueueKeys c (informerQueueKeys x) w3) as [[] w4 | v]; [| done].
  destruct H1 as (_ & Hb4 & Hs4 & _). rewrite bind_run.
  pose proof (attachFiltered_run h0 c bc (informers x) w4 _ Hb4) as H2.
  destruct (attachFiltered c (informers x) w4) as [[] w5 | v]; [| done].
  destruct H2 as (_ & Hb5 & Hs5 & _). rewrite bind_run.
  pose proof (attachBare_run h0 c bc (bareInformers x) w5 _ Hb5) as H3.
  destruct (attachBare c (bareInformers x) w5) as [[] w6 | v]; [| done].
  destruct H3 as (_ & _ & Hs6 & _). rewrite ret_run.
  destruct (same_rest_trans _ _ _ _ (same_rest_trans _ _ _ _ Hs4 Hs5) Hs6) as (_ & -> & _).
  exact Hqs.
Qed.

(** X6: a factory that was given a sync context hands it to every controller
    it builds: [ToController] makes no queue, the controller has the
    factory's context, and every handler it attaches feeds the queue of that
    context. *)
Theorem X6_given_sync_context_is_used w f x (name : string) c w' :
  factories w !! f = Some x ->
  syncContext x <> ctx_nil ->
  ToController f name w = Ok c w' ->
  queues w' = queues w /\
  exists bc,
    controllers w' !! c = Some bc /\
    bc_syncContext bc = syncContext x /\
    forall i h,
      h ∈ default [] (handlers w' !! i) ->
      h ∈ default [] (handlers w !! i) \/ syncContext x = ctx_syncContext (eh_queue h).
Proof.
  intros Hf Hctx Hrun.
  pose proof (ToController_queues f name w x Hf) as Hq. rewrite Hrun in Hq.
  destruct (ToController_built f name w x c w' Hf Hrun)
    as (Hthrough & _ & _ & _ & (s & Hc & _) & _ & Hh).
  assert (controller_ctx x w = syncContext x) as Hcc
    by (unfold controller_ctx; by destruct (syncContext x)).
  split; [by destruct (syncContext x) |].
  eexists. split; [exact Hc |]. split; [exact Hcc |].
  intros i h Hin. rewrite Hh, subscribe_all_default, Hcc in Hin.
  apply elem_of_app in Hin as [? | Hin]; [by left | right].
  apply handlers_for_elem in Hin as (k & fl & Ht & ->). cbn [eh_queue eventHandler].
  unfold runs_through in Hthrough.
  apply andb_true_iff in Hthrough as [[_ Hok]%andb_true_iff _].
  destruct (registrations x) as [| t regs]; [by apply elem_of_nil in Ht |].
  cbn in Hok. apply andb_true_iff in Hok as [Hsc _].
  by destruct (syncContext x).
Qed.

End proofs.

#[local] Existing Instance example_externals.

Lemma example_thrice_factory :
  factories example_store_thrice !! 1
  = Some (foldl (fun y b => apply_call b y) example_new example_calls_thrice).
Proof. vm_compute. reflexivity. Qed.

Lemma example_thrice_built_run :
  ToController 1 "demo" example_store_thrice = Ok 1 example_store_thrice_built.
Proof. vm_compute. reflexivity. Qed.

(** X1 on the example: the configured factory meets the three conditions,
    and [ToController] returns. *)
Lemma X1_witness :
  factories example_store_thrice !! 1
  = Some (foldl (fun y b => apply_call b y) example_new example_calls_thrice) /\
  exists c w', ToController 1 "demo" example_store_thrice = Ok c w'.
Proof.
  split; [exact example_thrice_factory |].
  apply (X1_ToController_returns_exactly_when example_store_thrice 1 _ "demo"
           example_thrice_factory).
  split; [by eexists |]. split.
  - intros i Hi. apply list_elem_of_In in Hi. simpl in Hi.
    destruct Hi as [<- | [<- | [<- | []]]]; by eexists.
  - right. intros n. discriminate.
Defined.

(** X2 on the example: after a second [ToController] informer 3, registered
    twice with a handler, has four handlers. *)
Lemma X2_witness :
  factories example_store_thrice !! 1
  = Some (foldl (fun y b => apply_call b y) example_new example_calls_thrice) /\
  ToController 1 "demo" example_store_thrice = Ok 1 example_store_thrice_built /\
  exists c2 w2,
    ToController 1 "again" example_store_thrice_built = Ok c2 w2 /\ c2 <> 1 /\
    length (default [] (handlers w2 !! 3)) = 4.
Proof.
  split; [exact example_thrice_factory |]. split; [exact example_thrice_built_run |].
  destruct (X2_ToController_can_be_repeated example_store_thrice 1 _ "demo" "again" 1
              example_store_thrice_built example_thrice_factory example_thrice_built_run)
    as (c2 & w2 & bc1 & bc2 & Hrun & Hne & _ & _ & _ & _ & _ & _ & _ & _ & Hlen).
  exists c2, w2. split; [exact Hrun |]. split; [exact Hne |]. exact (Hlen 3).
Defined.

(** X3 on the example: informer 3 is registered three times, twice with a
    handler; it gets two handlers and is waited for three times. *)
Lemma X3_witness :
  factories example_store_thrice !! 1
  = Some (foldl (fun y b => apply_call b y) example_new example_calls_thrice) /\
  ToController 1 "demo" example_store_thrice = Ok 1 example_store_thrice_built /\
  length (default [] (handlers example_store_thrice_built !! 3)) = 2 /\
  exists bc,
    controllers example_store_thrice_built !! 1 = Some bc /\
    times (HasSynced 3) (elems (syncedArrays example_store_thrice_built) (bc_cachesToSync bc))
    = 3.
Proof.
  split; [exact example_thrice_factory |]. split; [exact example_thrice_built_run |].
  destruct (X3_one_handler_and_one_predicate_per_registration
              example_store_thrice 1 _ "demo" 1 example_store_thrice_built 3
              example_thrice_factory example_thrice_built_run)
    as (Hlen & bc & Hc & Htimes).
  split; [exact Hlen |]. exists bc. split; [exact Hc | exact Htimes].
Defined.

(** X4 on an example: a resync interval set twice. *)
Lemma X4_witness :
  is_setter (call_ResyncEvery 9%Z) = true /\
  call_field (call_ResyncEvery 5%Z) = call_field (call_ResyncEvery 9%Z) /\
  run_calls 1 [call_ResyncEvery 5%Z; call_ResyncEvery 9%Z] example_store_new
  = run_calls 1 [call_ResyncEvery 9%Z] example_store_new.
Proof.
  split; [reflexivity |]. split; [reflexivity |].
  destruct (X4_later_assignment_wins 1 (call_ResyncEvery 5%Z) (call_ResyncEvery 9%Z)
              example_store_new eq_refl eq_refl) as [Hlast _].
  exact Hlast.
Defined.

(** X5 on an example: a sync function and a bare informer, in both orders. *)
Lemma X5_witness :
  call_field (call_WithSync (Some 7)) <> call_field (call_WithBareInformers [Some 9]) /\
  run_calls 1 [call_WithSync (Some 7); call_WithBareInformers [Some 9]] example_store_new
  = run_calls 1 [call_WithBareInformers [Some 9]; call_WithSync (Some 7)] example_store_new.
Proof.
  assert (call_field (call_WithSync (Some 7)) <> call_field (call_WithBareInformers [Some 9]))
    as Hne by discriminate.
  split; [exact Hne |].
  exact (X5_calls_on_different_fields_commute 1 _ _ example_store_new Hne).
Defined.

Lemma example_shared_factory :
  factories example_store_shared !! 1
  = Some (foldl (fun y b => apply_call b y) example_new example_calls_shared).
Proof. vm_compute. reflexivity. Qed.

Lemma example_shared_built_run :
  ToController 1 "demo" example_store_shared = Ok 1 example_store_shared_built.
Proof. vm_compute. reflexivity. Qed.

(** X6 on the example: the controller has the context around queue 42, and
    no queue was made. *)
Lemma X6_witness :
  factories example_store_shared !! 1
  = Some (foldl (fun y b => apply_call b y) example_new example_calls_shared) /\
  ToController 1 "demo" example_store_shared = Ok 1 example_store_shared_built /\
  queues example_store_shared_built = queues example_store_shared /\
  exists bc,
    controllers example_store_shared_built !! 1 = Some bc /\
    bc_syncContext bc = ctx_syncContext 42.
Proof.
  split; [exact example_shared_factory |]. split; [exact example_shared_built_run |].
  destruct (X6_given_sync_context_is_used example_store_shared 1 _ "demo" 1
              example_store_shared_built example_shared_factory ltac:(discriminate)
              example_shared_built_run) as (Hq & bc & Hc & Hctx & _).
  split; [exact Hq |]. exists bc. split; [exact Hc | exact Hctx].
Defined.

End FactoryExtras.

(** ** More about the agent-addon factory *)
Module AddonFactoryExtras.
Import Go AddonFactory AddonFactorySpec AddonFactoryProofs AddonExtraSpec.

Section proofs.
Context `{Ext : Externals}.
Implicit Types (w : World) (f p : loc) (x : AgentAddonFactory)
  (gvr : GroupVersionResource) (gvrs : list GroupVersionResource).

Lemma well_formed_culprit index gvr :
  well_formed gvr -> culprit_error index gvr = ErrConfigTypeDuplicated (GVR_String gvr).
Proof.
  intros (He & Hv & Hr). unfold culprit_error. rewrite He.
  by rewrite !decide_False.
Qed.

(** One round of the loop: it stops at the entry, or goes on behind it. *)
Lemma validateFrom_cons index (m : gmap GroupVersionResource bool) gvr gvrs err :
  validateFrom index m (gvr :: gvrs) = Some err <->
  ((~ well_formed gvr \/ is_Some (m !! gvr)) /\ err = culprit_error index gvr) \/
  (well_formed gvr /\ m !! gvr = None /\
   validateFrom (S index) (<[gvr := true]> m) gvrs = Some err).
Proof.
  cbn [validateFrom]. unfold culprit_error, well_formed.
  destruct (GVR_Empty gvr) eqn:He.
  { split; [intros [= <-]; left; split; [left; by intros [? _] | done] |].
    intros [[_ ->] | [[? _] _]]; done. }
  destruct (decide (Version gvr = "")) as [Hv | Hv].
  { split; [intros [= <-]; left; split; [left; by intros (_ & ? & _) | done] |].
    intros [[_ ->] | [(_ & ? & _) _]]; done. }
  destruct (decide (Resource gvr = "")) as [Hr | Hr].
  { split; [intros [= <-]; left; split; [left; by intros (_ & _ & ?) | done] |].
    intros [[_ ->] | [(_ & _ & ?) _]]; done. }
  destruct (m !! gvr) as [b |] eqn:Hm.
  { split; [intros [= <-]; left; split; [right; by eexists | done] |].
    intros [[_ ->] | (_ & ? & _)]; done. }
  split; [intros E; right; by repeat split |].
  intros [[[Hn | [? ?]] _] | (_ & _ & E)]; [| done | done].
  destruct Hn. by repeat split.
Qed.

(** Where the loop stops, and with which error: at the first entry that is
    not well formed, or was seen before. *)
Lemma validateFrom_Some gvrs : forall index (m : gmap GroupVersionResource bool) err,
  validateFrom index m gvrs = Some err <->
  exists i gvr,
    gvrs !! i = Some gvr /\
    Forall well_formed (take i gvrs) /\ NoDup (take i gvrs) /\
    (forall g, g ∈ take i gvrs -> m !! g = None) /\
    (~ well_formed gvr \/ gvr ∈ take i gvrs \/ is_Some (m !! gvr)) /\
    err = culprit_error (index + i) gvr.
Proof.
  induction gvrs as [| g gvrs IH]; intros index m err.
  { split; [done |]. by intros (i & gvr & ? & _). }
  rewrite validateFrom_cons, IH. split.
  - intros [[Hstop ->] | (Hwf & Hm & i & gvr & Hi & Hall & Hnd & Hfresh & Hbad & ->)].
    + exists 0, g. cbn. rewrite Nat.add_0_r.
      split; [done |]. split; [constructor |]. split; [constructor |].
      split; [by intros ? ?%elem_of_nil |]. split; [| done].
      destruct Hstop; [by left | by right; right].
    + exists (S i), gvr. cbn [take lookup list_lookup].
      assert (g ∉ take i gvrs) as Hnotin.
      { intros Hin. specialize (Hfresh g Hin). by rewrite lookup_insert_eq in Hfresh. }
      split; [done |]. split; [by constructor |]. split; [by constructor |].
      split.
      { intros g' [-> | Hin]%elem_of_cons; [done |].
        specialize (Hfresh g' Hin). rewrite lookup_insert_ne in Hfresh; [done |].
        by intros ->. }
      split; [| f_equal; lia].
      destruct Hbad as [? | [? | Hsome]]; [by left | right; left; by right |].
      destruct (decide (gvr = g)) as [-> | Hne]; [right; left; left |].
      rewrite lookup_insert_ne in Hsome by done. by right; right.
  - intros ([| i] & gvr & Hi & Hall & Hnd & Hfresh & Hbad & ->).
    + cbn in Hi. injection Hi as ->. left. rewrite Nat.add_0_r. split; [| done].
      destruct Hbad as [? | [?%elem_of_nil | ?]]; [by left | done | by right].
    + cbn [take lookup list_lookup] in *.
      apply Forall_cons in Hall as [Hwf Hall]. apply NoDup_cons in Hnd as [Hnotin Hnd].
      right. split; [done |]. split; [apply Hfresh; left |].
      exists i, gvr. split; [done |]. split; [done |]. split; [done |]. split.
      { intros g' Hin. rewrite lookup_insert_ne by (by intros ->). apply Hfresh. by right. }
      split; [| f_equal; lia].
      destruct Hbad as [? | [[-> | ?]%elem_of_cons | Hsome]];
        [by left | | right; by left |].
      * right; right. rewrite lookup_insert_eq. by eexists.
      * right; right. destruct (decide (g = gvr)) as [-> | Hne].
        -- rewrite lookup_insert_eq. by eexists.
        -- by rewrite lookup_insert_ne.
Qed.

(** X7: when the validation fails, its error is that of the first entry that
    is empty, lacks a version or a resource, or repeats an earlier entry, and
    it tells which of these it is, in this order: an entry with neither
    version nor resource is reported for its version, and a repeated entry is
    reported by its name, not its position. *)
Theorem X7_validation_reports_first_faulty_entry gvrs (err : Err) :
  validateSupportedConfigGVRs gvrs = Some err <->
  exists i gvr,
    gvrs !! i = Some gvr /\
    Forall well_formed (take i gvrs) /\ NoDup (take i gvrs) /\
    (~ well_formed gvr \/ gvr ∈ take i gvrs) /\
    err = (if GVR_Empty gvr then ErrConfigTypeEmpty i
           else if decide (Version gvr = "") then ErrConfigVersionRequired i
           else if decide (Resource gvr = "") then ErrConfigResourceRequired i
           else ErrConfigTypeDuplicated (GVR_String gvr)).
Proof.
  unfold validateSupportedConfigGVRs. case_decide as Hlen.
  - apply length_zero_iff_nil in Hlen as ->. split; [done |]. by intros (i & gvr & ? & _).
  - rewrite validateFrom_Some. split.
    + intros (i & gvr & Hi & Hall & Hnd & _ & Hbad & ->). exists i, gvr.
      repeat split; try done.
      destruct Hbad as [? | [? | [? Hsome]]]; [by left | by right |].
      by rewrite lookup_empty in Hsome.
    + intros (i & gvr & Hi & Hall & Hnd & Hbad & ->). exists i, gvr.
      repeat split; try done.
      destruct Hbad; [by left | right; by left].
Qed.

Lemma validateFrom_app gvrs : forall index (m : gmap GroupVersionResource bool) err more,
  validateFrom index m gvrs = Some err ->
  validateFrom index m (gvrs ++ more) = Some err.
Proof.
  induction gvrs as [| g gvrs IH]; intros index m err more; [done |].
  cbn [validateFrom app]. repeat case_match; try done. apply IH.
Qed.

(** X8: a list the validation refuses stays refused, with the same error,
    whatever is put behind it. *)
Theorem X8_refused_list_stays_refused gvrs (more : list GroupVersionResource) (err : Err) :
  validateSupportedConfigGVRs gvrs = Some err ->
  validateSupportedConfigGVRs (gvrs ++ more) = Some err.
Proof.
  unfold validateSupportedConfigGVRs. case_decide as Hlen; [done |].
  intros Hv. rewrite decide_False by (rewrite length_app; lia).
  by apply validateFrom_app.
Qed.

Lemma keeps_refl x : keeps x x.
Proof. by repeat split. Qed.

Lemma keeps_trans x y z : keeps x y -> keeps y z -> keeps x z.
Proof.
  intros (? & ? & ? & Hp1 & ? & ?) (? & ? & ? & Hp2 & ? & ?).
  repeat split; try congruence; try tauto. by etrans.
Qed.

Lemma assign_run f x (y : AgentAddonFactory) w g w' :
  factories w !! f = Some x ->
  (storeFactory f y;; mret f) w = Ok g w' ->
  g = f /\ w' = set_factories (<[f := y]> (factories w)) w.
Proof. intros Hf. rewrite (storeFactory_run f x) by done. by intros [= <- <-]. Qed.

(** One call: it returns the pointer it was made on, the factory behind it is
    still there, and no other factory is touched. *)
Lemma run_addon_call_keeps f (b : AddonCall) w x g w' :
  factories w !! f = Some x ->
  run_addon_call f b w = Ok g w' ->
  g = f /\
  (exists y, factories w' !! f = Some y /\ keeps x y) /\
  (forall f', f' <> f -> factories w' !! f' = factories w !! f').
Proof.
  intros Hf Hrun.
  assert (forall y, keeps x y ->
            forall w1, factories w1 = <[f := y]> (factories w) ->
            (exists y', factories w1 !! f = Some y' /\ keeps x y') /\
            (forall f', f' <> f -> factories w1 !! f' = factories w !! f')) as Hdone.
  { intros y Hk w1 ->. split; [exists y; by rewrite lookup_insert_eq |].
    intros f' Hne. by rewrite lookup_insert_ne. }
  destruct b; cbn [run_addon_call] in Hrun.
  - (* WithScheme *)
    unfold WithScheme in Hrun. rewrite addon_bind_run in Hrun.
    unfold loadFactory in Hrun. rewrite Hf in Hrun.
    rewrite addon_bind_run in Hrun. unfold storeFactory in Hrun. rewrite Hf in Hrun.
    rewrite addon_bind_run in Hrun. unfold AddToScheme at 1 in Hrun.
    cbn [schemes set_factories] in Hrun.
    destruct (schemes w !! s) as [bs |]; [| done].
    rewrite addon_bind_run in Hrun. unfold AddToScheme at 1 in Hrun.
    cbn [schemes set_schemes] in Hrun. rewrite lookup_insert_eq in Hrun.
    rewrite addon_bind_run in Hrun. unfold AddToScheme at 1 in Hrun.
    cbn [schemes set_schemes] in Hrun. rewrite lookup_insert_eq in Hrun.
    injection Hrun as <- <-. split; [done |].
    apply (Hdone (set_scheme s x)); [by repeat split | done].
  - unfold WithGetValuesFuncs in Hrun. rewrite addon_bind_run in Hrun.
    unfold loadFactory in Hrun. rewrite Hf in Hrun.
    destruct (assign_run _ _ _ _ _ _ Hf Hrun) as [-> ->]. split; [done |].
    apply (Hdone (set_getValuesFuncs getValuesFuncs_ x)); [by repeat split | done].
  - (* WithInstallStrategy *)
    unfold WithInstallStrategy in Hrun. rewrite addon_bind_run in Hrun.
    unfold loadStrategy in Hrun.
    destruct (strategies w !! strategy) as [st |] eqn:Hst; [| done].
    rewrite addon_bind_run in Hrun. case_decide.
    + unfold storeStrategy in Hrun. rewrite Hst in Hrun.
      rewrite addon_bind_run in Hrun. unfold loadFactory in Hrun.
      cbn [factories set_strategies] in Hrun. rewrite Hf in Hrun.
      eapply assign_run in Hrun; [| exact Hf]. destruct Hrun as [-> ->].
      split; [done |]. eapply Hdone; [| done]. by repeat split.
    + rewrite addon_ret_run, addon_bind_run in Hrun. unfold loadFactory in Hrun.
      rewrite Hf in Hrun.
      destruct (assign_run _ _ _ _ _ _ Hf Hrun) as [-> ->]. split; [done |].
      eapply Hdone; [| done]. by repeat split.
  - unfold WithAgentRegistrationOption in Hrun. rewrite addon_bind_run in Hrun.
    unfold loadFactory in Hrun. rewrite Hf in Hrun.
    destruct (assign_run _ _ _ _ _ _ Hf Hrun) as [-> ->]. split; [done |].
    eapply Hdone; [| done]. by repeat split.
  - unfold WithAgentHealthProber in Hrun. rewrite addon_bind_run in Hrun.
    unfold loadFactory in Hrun. rewrite Hf in Hrun.
    destruct (assign_run _ _ _ _ _ _ Hf Hrun) as [-> ->]. split; [done |].
    eapply Hdone; [| done]. by repeat split.
  - unfold WithAgentHostedModeEnabledOption in Hrun. rewrite addon_bind_run in Hrun.
    unfold loadFactory in Hrun. rewrite Hf in Hrun.
    destruct (assign_run _ _ _ _ _ _ Hf Hrun) as [-> ->]. split; [done |].
    eapply Hdone; [| done]. by repeat split.
  - unfold WithTrimCRDDescription in Hrun. rewrite addon_bind_run in Hrun.
    unfold loadFactory in Hrun. rewrite Hf in Hrun.
    destruct (assign_run _ _ _ _ _ _ Hf Hrun) as [-> ->]. split; [done |].
    eapply Hdone; [| done]. by repeat split.
  - unfold WithConfigGVRs in Hrun. rewrite addon_bind_run in Hrun.
    unfold loadFactory in Hrun. rewrite Hf in Hrun.
    destruct (assign_run _ _ _ _ _ _ Hf Hrun) as [-> ->]. split; [done |].
    eapply Hdone; [| done]. repeat split; try done. cbn. by apply prefix_app_r.
  - unfold WithHostingCluster in Hrun. rewrite addon_bind_run in Hrun.
    unfold loadFactory in Hrun. rewrite Hf in Hrun.
    destruct (assign_run _ _ _ _ _ _ Hf Hrun) as [-> ->]. split; [done |].
    eapply Hdone; [| done]. by repeat split.
  - unfold WithAgentDeployTriggerClusterFilter in Hrun. rewrite addon_bind_run in Hrun.
    unfold loadFactory in Hrun. rewrite Hf in Hrun.
    destruct (assign_run _ _ _ _ _ _ Hf Hrun) as [-> ->]. split; [done |].
    eapply Hdone; [| done]. by repeat split.
Qed.

Lemma run_addon_calls_keeps f (bs : list AddonCall) : forall w x g w',
  factories w !! f = Some x ->
  run_addon_calls f bs w = Ok g w' ->
  g = f /\
  (exists y, factories w' !! f = Some y /\ keeps x y) /\
  (forall f', f' <> f -> factories w' !! f' = factories w !! f').
Proof.
  induction bs as [| b bs IH]; intros w x g w' Hf Hrun.
  - injection Hrun as <- <-. split; [done |]. split; [| done].
    exists x. split; [done | apply keeps_refl].
  - cbn [run_addon_calls] in Hrun. rewrite addon_bind_run in Hrun.
    destruct (run_addon_call f b w) as [g1 w1 |] eqn:Hb; [| done].
    destruct (run_addon_call_keeps f b w x g1 w1 Hf Hb) as (-> & (y & Hy & Hk) & Hoth).
    destruct (IH w1 y g w' Hy Hrun) as (-> & (z & Hz & Hk') & Hoth').
    split; [done |]. split.
    + exists z. split; [done |]. by apply (keeps_trans x y z).
    + intros f' Hne. by rewrite Hoth', Hoth.
Qed.

(** X11: whatever configuration methods are called on a factory, in whatever
    order, they return the factory they were called on, they leave its addon
    name, file system and directory alone, its configuration types are only
    added to, and hosted mode and the trimming of CRD descriptions, once on,
    stay on; no other factory is touched. *)
Theorem X11_configuration_only_grows f (bs : list AddonCall) w x g w' :
  factories w !! f = Some x ->
  run_addon_calls f bs w = Ok g w' ->
  g = f /\
  (exists y,
     factories w' !! f = Some y /\
     AddonName (agentAddonOptions y) = AddonName (agentAddonOptions x) /\
     fs y = fs x /\ dir y = dir x /\
     (exists added,
        SupportedConfigGVRs (agentAddonOptions y)
        = SupportedConfigGVRs (agentAddonOptions x) ++ added) /\
     (HostedModeEnabled (agentAddonOptions x) = true ->
      HostedModeEnabled (agentAddonOptions y) = true) /\
     (trimCRDDescription x = true -> trimCRDDescription y = true)) /\
  (forall f', f' <> f -> factories w' !! f' = factories w !! f').
Proof.
  intros Hf Hrun.
  destruct (run_addon_calls_keeps f bs w x g w' Hf Hrun) as (-> & (y & Hy & Hk) & Hoth).
  split; [done |]. split; [| done]. exists y. split; [done |].
  destruct Hk as (? & ? & ? & [k Hk] & ? & ?). repeat split; try done. by exists k.
Qed.

(** X14: [WithInstallStrategy] never leaves the strategy it was given with an
    empty install namespace, keeps the rest of that strategy and every other
    strategy, and a second call with the same strategy changes nothing. *)
Theorem X14_WithInstallStrategy_settles f p w x (s : InstallStrategy) :
  factories w !! f = Some x ->
  strategies w !! p = Some s ->
  exists w1,
    WithInstallStrategy f p w = Ok f w1 /\
    WithInstallStrategy f p w1 = Ok f w1 /\
    (exists s1,
       strategies w1 !! p = Some s1 /\
       InstallNamespace s1 <> "" /\
       strategy_rest s1 = strategy_rest s /\
       (InstallNamespace s <> "" -> s1 = s)) /\
    (forall q, q <> p -> strategies w1 !! q = strategies w !! q) /\
    schemes w1 = schemes w.
Proof.
  intros Hf Hp.
  assert (forall w0 y t, factories w0 !! f = Some y -> strategies w0 !! p = Some t ->
            InstallNamespace t <> "" ->
            WithInstallStrategy f p w0
            = Ok f (set_factories
                      (<[f := set_agentAddonOptions
                                (set_InstallStrategy p (agentAddonOptions y)) y]>
                         (factories w0)) w0)) as Hset.
  { intros w0 y t Hy Ht Hns. unfold WithInstallStrategy.
    rewrite addon_bind_run. unfold loadStrategy. rewrite Ht.
    rewrite addon_bind_run, decide_False by done.
    rewrite addon_ret_run, addon_bind_run. unfold loadFactory. rewrite Hy.
    by rewrite (storeFactory_run f y). }
  destruct (decide (InstallNamespace s = "")) as [Hns | Hns].
  - eexists. split.
    { unfold WithInstallStrategy. rewrite addon_bind_run. unfold loadStrategy. rewrite Hp.
      rewrite addon_bind_run, decide_True by done.
      unfold storeStrategy. rewrite Hp. rewrite addon_bind_run. unfold loadFactory.
      cbn [factories set_strategies]. rewrite Hf.
      rewrite (storeFactory_run f x) by exact Hf. reflexivity. }
    split.
    { erewrite Hset; cycle 1.
      - cbn. apply lookup_insert_eq.
      - cbn. apply lookup_insert_eq.
      - done.
      - unfold set_factories. cbn. by rewrite insert_insert_eq. }
    split; [| split; [| done]].
    + eexists. split; [cbn; apply lookup_insert_eq |]. by repeat split.
    + intros q Hq. cbn. by rewrite lookup_insert_ne.
  - eexists. split; [by apply (Hset w x s) |]. split.
    { erewrite Hset; cycle 1.
      - cbn. apply lookup_insert_eq.
      - exact Hp.
      - done.
      - unfold set_factories. cbn. by rewrite insert_insert_eq. }
    split; [| done]. exists s. by repeat split.
Qed.

(** X15: [WithScheme] makes the factory use the scheme it is given and
    registers the three type groups on that scheme (the caller's object), in
    the order of the source and behind what the scheme already held; no other
    scheme is touched, the old one included; on a nil scheme it panics. *)
Theorem X15_WithScheme_registers_on_given_scheme f s w x :
  factories w !! f = Some x ->
  match schemes w !! s with
  | None => WithScheme f s w = Panic RuntimeError
  | Some bs =>
      exists w',
        WithScheme f s w = Ok f w' /\
        (exists y, factories w' !! f = Some y /\ scheme y = s /\ keeps x y) /\
        schemes w' !! s
        = Some (bs ++ [kubernetes_scheme; apiextensions_v1; apiextensions_v1beta1]) /\
        (forall s', s' <> s -> schemes w' !! s' = schemes w !! s') /\
        strategies w' = strategies w
  end.
Proof.
  intros Hf. destruct (schemes w !! s) as [bs |] eqn:Hs.
  2: { unfold WithScheme. rewrite addon_bind_run. unfold loadFactory. rewrite Hf.
       rewrite addon_bind_run. unfold storeFactory. rewrite Hf.
       rewrite addon_bind_run. unfold AddToScheme at 1. cbn [schemes set_factories].
       by rewrite Hs. }
  eexists. split.
  { unfold WithScheme. rewrite addon_bind_run. unfold loadFactory. rewrite Hf.
    rewrite addon_bind_run. unfold storeFactory. rewrite Hf.
    rewrite addon_bind_run. unfold AddToScheme at 1. cbn [schemes set_factories].
    rewrite Hs.
    rewrite addon_bind_run. unfold AddToScheme at 1.
    cbn [schemes set_schemes]. rewrite lookup_insert_eq.
    rewrite addon_bind_run. unfold AddToScheme at 1.
    cbn [schemes set_schemes]. rewrite lookup_insert_eq. reflexivity. }
  cbn. repeat split.
  - eexists. split; [apply lookup_insert_eq |]. by repeat split.
  - rewrite lookup_insert_eq. by rewrite <- !app_assoc.
  - intros s' Hne. by rewrite !lookup_insert_ne.
Qed.

(** X13: [NewAgentAddonFactory] never panics; it returns a pointer that is not
    nil and was not in use, to a factory with the given name, file system and
    directory and a scheme of its own, new as well, on which exactly the three
    type groups are registered; nothing that existed is changed; the new
    factory passes the validation, so that [BuildHelmAgentAddon] on it fails
    only if the chart cannot be loaded. *)
Theorem X13_NewAgentAddonFactory_is_fresh_and_valid
    {Ld : Loaders} (addonName : string) (fs_ : FS) (dir_ : string) w :
  exists f s x w',
    NewAgentAddonFactory addonName fs_ dir_ w = Ok f w' /\
    f <> null /\ factories w !! f = None /\
    s <> null /\ schemes w !! s = None /\
    factories w' = <[f := x]> (factories w) /\
    schemes w'
    = <[s := [kubernetes_scheme; apiextensions_v1; apiextensions_v1beta1]]> (schemes w) /\
    strategies w' = strategies w /\
    scheme x = s /\ AddonName (agentAddonOptions x) = addonName /\
    fs x = fs_ /\ dir x = dir_ /\
    BuildHelmAgentAddon f w'
    = Ok (match (loadChart fs_ dir_).2 with
          | Some e => (None, Some (ErrExternal e))
          | None => (Some (helmAgentAddon (newHelmAgentAddon f x (loadChart fs_ dir_).1)), None)
          end) w'.
Proof.
  unfold NewAgentAddonFactory. rewrite addon_bind_run. unfold NewScheme.
  set (s := fresh ({[null]} ∪ dom (schemes w))).
  assert (s <> null /\ schemes w !! s = None) as [Hs0 Hs].
  { pose proof (is_fresh ({[null]} ∪ dom (schemes w))) as Hfr. fold s in Hfr.
    split; [set_solver | apply not_elem_of_dom; set_solver]. }
  rewrite addon_bind_run. unfold AddToScheme at 1.
  cbn [schemes set_schemes]. rewrite lookup_insert_eq.
  rewrite addon_bind_run. unfold AddToScheme at 1.
  cbn [schemes set_schemes]. rewrite lookup_insert_eq.
  rewrite addon_bind_run. unfold AddToScheme at 1.
  cbn [schemes set_schemes]. rewrite lookup_insert_eq.
  unfold newFactory. cbn [factories set_schemes].
  set (f := fresh ({[null]} ∪ dom (factories w))).
  assert (f <> null /\ factories w !! f = None) as [Hf0 Hf].
  { pose proof (is_fresh ({[null]} ∪ dom (factories w))) as Hfr. fold f in Hfr.
    split; [set_solver | apply not_elem_of_dom; set_solver]. }
  eexists f, s, _, _. split; [reflexivity |].
  repeat (split; [done |]). split; [cbn; by rewrite !insert_insert_eq |].
  repeat (split; [done |]).
  unfold BuildHelmAgentAddon. rewrite addon_bind_run. unfold loadFactory.
  cbn [factories set_factories]. rewrite lookup_insert_eq. cbn.
  by destruct (loadChart fs_ dir_).2.
Qed.

Context {Ld : Loaders}.

(** X12: no configuration method repairs a factory whose configuration types
    the validation refuses: after any further calls both builders return the
    very same error, and no addon. *)
Theorem X12_refused_factory_cannot_be_repaired
    f (bs : list AddonCall) w x (err : Err) g w' :
  factories w !! f = Some x ->
  validateSupportedConfigGVRs (SupportedConfigGVRs (agentAddonOptions x)) = Some err ->
  run_addon_calls f bs w = Ok g w' ->
  BuildHelmAgentAddon g w' = Ok (None, Some err) w' /\
  BuildTemplateAgentAddon g w' = Ok (None, Some err) w'.
Proof.
  intros Hf Hv Hrun.
  destruct (run_addon_calls_keeps f bs w x g w' Hf Hrun) as (-> & (y & Hy & Hk) & _).
  destruct Hk as (_ & _ & _ & [k Hk] & _). apply (Build_invalid f w' y err Hy).
  rewrite Hk. revert Hv. unfold validateSupportedConfigGVRs.
  case_decide as Hlen; [done |]. intros Hv.
  rewrite decide_False by (rewrite length_app; lia). by apply validateFrom_app.
Qed.

Lemma readTemplates_one_of fs_ files : forall a,
  (readTemplates fs_ a files).1 = None <-> is_Some (readTemplates fs_ a files).2.
Proof.
  induction files as [| file files IH]; intros a; cbn [readTemplates].
  - cbn. split; [done | by intros [? ?]].
  - destruct (ReadFile fs_ file).2; [| apply IH]. cbn. split; [by eexists | done].
Qed.

Lemma readTemplates_all fs_ files : forall a,
  Forall (fun file => (ReadFile fs_ file).2 = None) files ->
  readTemplates fs_ a files
  = (Some (templateAgentAddon
             (foldl (fun acc file => addTemplateData acc file (ReadFile fs_ file).1) a files)),
     None).
Proof.
  induction files as [| file files IH]; intros a Hall; [done |].
  apply Forall_cons in Hall as [Hfile Hall]. cbn [readTemplates foldl].
  rewrite Hfile. by apply IH.
Qed.

Lemma readTemplates_first fs_ files : forall a i file e,
  files !! i = Some file ->
  Forall (fun file => (ReadFile fs_ file).2 = None) (take i files) ->
  (ReadFile fs_ file).2 = Some e ->
  readTemplates fs_ a files = (None, Some (ErrExternal e)).
Proof.
  induction files as [| file0 files IH]; intros a i file e Hi Hall He; [done |].
  destruct i as [| i]; cbn [readTemplates].
  - injection Hi as ->. by rewrite He.
  - cbn in Hi, Hall. apply Forall_cons in Hall as [Hfile Hall].
    rewrite Hfile. by apply (IH _ i file e).
Qed.

Lemma BuildHelmAgentAddon_one_of f w x :
  factories w !! f = Some x ->
  exists r, BuildHelmAgentAddon f w = Ok r w /\ (r.1 = None <-> is_Some r.2).
Proof.
  intros Hf. unfold BuildHelmAgentAddon. rewrite addon_bind_run.
  unfold loadFactory. rewrite Hf.
  destruct (validateSupportedConfigGVRs _).
  { eexists. split; [reflexivity |]. cbn. split; [by eexists | done]. }
  cbn zeta. destruct (loadChart (fs x) (dir x)).2.
  { eexists. split; [reflexivity |]. cbn. split; [by eexists | done]. }
  eexists. split; [reflexivity |]. cbn. split; [done | by intros [? ?]].
Qed.

Lemma BuildTemplateAgentAddon_one_of f w x :
  factories w !! f = Some x ->
  exists r, BuildTemplateAgentAddon f w = Ok r w /\ (r.1 = None <-> is_Some r.2).
Proof.
  intros Hf. unfold BuildTemplateAgentAddon. rewrite addon_bind_run.
  unfold loadFactory. rewrite Hf.
  destruct (validateSupportedConfigGVRs _).
  { eexists. split; [reflexivity |]. cbn. split; [by eexists | done]. }
  cbn zeta. destruct (getTemplateFiles (fs x) (dir x)).2.
  { eexists. split; [reflexivity |]. cbn. split; [by eexists | done]. }
  case_decide.
  { eexists. split; [reflexivity |]. cbn. split; [by eexists | done]. }
  eexists. split; [reflexivity |]. apply readTemplates_one_of.
Qed.

(** X9: whatever a builder returns, it was called on a factory that is not
    nil, and of its two results exactly one is there: an addon without an
    error, or an error without an addon.  What [BuildHelmAgentAddon] returns
    carries an error exactly when the validation refuses the configuration
    types, and then that error, or when the validation passes and the chart
    cannot be loaded, and then the loader's.  On a nil factory both builders
    panic, at their first statement. *)
Theorem X9_builders_return_addon_or_error f w :
  (forall r w',
     BuildHelmAgentAddon f w = Ok r w' \/ BuildTemplateAgentAddon f w = Ok r w' ->
     is_Some (factories w !! f) /\ (r.1 = None <-> is_Some r.2)) /\
  (forall x r w' (err : Err),
     factories w !! f = Some x ->
     BuildHelmAgentAddon f w = Ok r w' ->
     r.2 = Some err <->
     validateSupportedConfigGVRs (SupportedConfigGVRs (agentAddonOptions x)) = Some err \/
     (validateSupportedConfigGVRs (SupportedConfigGVRs (agentAddonOptions x)) = None /\
      exists e, (loadChart (fs x) (dir x)).2 = Some e /\ err = ErrExternal e)) /\
  (factories w !! f = None ->
   BuildHelmAgentAddon f w = Panic RuntimeError /\
   BuildTemplateAgentAddon f w = Panic RuntimeError).
Proof.
  split; [| split].
  - intros r w' Hret. destruct (factories w !! f) as [x |] eqn:Hf.
    + split; [by eexists |].
      destruct (BuildHelmAgentAddon_one_of f w x Hf) as (rh & Hh & Hh1).
      destruct (BuildTemplateAgentAddon_one_of f w x Hf) as (rt & Ht & Ht1).
      destruct Hret as [Hret | Hret].
      * rewrite Hh in Hret. by injection Hret as <- <-.
      * rewrite Ht in Hret. by injection Hret as <- <-.
    + exfalso. unfold BuildHelmAgentAddon, BuildTemplateAgentAddon in Hret.
      rewrite !addon_bind_run in Hret. unfold loadFactory in Hret. rewrite Hf in Hret.
      by destruct Hret.
  - intros x r w' err Hf. unfold BuildHelmAgentAddon. rewrite addon_bind_run.
    unfold loadFactory. rewrite Hf.
    destruct (validateSupportedConfigGVRs _) as [verr |].
    { intros [= <- <-]. cbn. split.
      - intros [= <-]. by left.
      - intros [[= <-] | [[=] _]]. done. }
    cbn zeta. destruct (loadChart (fs x) (dir x)).2 as [e |].
    { intros [= <- <-]. cbn. split.
      - intros [= <-]. right. split; [done |]. by exists e.
      - intros [[=] | (_ & e' & [= <-] & ->)]. done. }
    intros [= <- <-]. cbn. split; [done |].
    intros [[=] | (_ & e' & [=] & _)].
  - intros Hf. unfold BuildHelmAgentAddon, BuildTemplateAgentAddon.
    rewrite !addon_bind_run. unfold loadFactory. by rewrite Hf.
Qed.

(** X10: on a factory that passes the validation, [BuildTemplateAgentAddon]
    returns the error of the file listing if there is one, the error "there
    is no template files" on an empty listing, the error of the first file
    that cannot be read if there is one, and otherwise the new template addon
    with the data of every listed file added, in the order of the listing. *)
Theorem X10_template_addon_collects_every_file f w x :
  factories w !! f = Some x ->
  validateSupportedConfigGVRs (SupportedConfigGVRs (agentAddonOptions x)) = None ->
  (forall e,
     (getTemplateFiles (fs x) (dir x)).2 = Some e ->
     BuildTemplateAgentAddon f w = Ok (None, Some (ErrExternal e)) w) /\
  (forall files,
     getTemplateFiles (fs x) (dir x) = (files, None) ->
     (files = [] ->
      BuildTemplateAgentAddon f w = Ok (None, Some ErrNoTemplateFiles) w) /\
     (files <> [] ->
      Forall (fun file => (ReadFile (fs x) file).2 = None) files ->
      BuildTemplateAgentAddon f w
      = Ok (Some (templateAgentAddon
                    (foldl (fun acc file =>
                              addTemplateData acc file (ReadFile (fs x) file).1)
                       (newTemplateAgentAddon f x) files)),
            None) w) /\
     (forall i file e,
        files !! i = Some file ->
        Forall (fun file => (ReadFile (fs x) file).2 = None) (take i files) ->
        (ReadFile (fs x) file).2 = Some e ->
        BuildTemplateAgentAddon f w = Ok (None, Some (ErrExternal e)) w)).
Proof.
  intros Hf Hv. unfold BuildTemplateAgentAddon. rewrite addon_bind_run.
  unfold loadFactory. rewrite Hf, Hv. split.
  - intros e He. by rewrite He.
  - intros files Hfiles. rewrite Hfiles. cbn [fst snd]. split; [| split].
    + intros ->. done.
    + intros Hne Hall. rewrite decide_False by (by destruct files).
      cbn. by rewrite readTemplates_all.
    + intros i file e Hi Hall He.
      rewrite decide_False by (destruct files; [done | cbn; lia]).
      cbn. by rewrite (readTemplates_first _ _ _ i file e).
Qed.

End proofs.

#[local] Existing Instance example_externals.
#[local] Existing Instance example_loaders.

Lemma addon_example_faulty :
  factories example_store_faulty !! 1 = Some example_factory_faulty.
Proof. vm_compute. reflexivity. Qed.

Lemma addon_example_faulty_refused :
  validateSupportedConfigGVRs (SupportedConfigGVRs (agentAddonOptions example_factory_faulty))
  = Some (ErrConfigVersionRequired 1).
Proof. vm_compute. reflexivity. Qed.

Lemma addon_example_faulty_later :
  run_addon_calls 1 example_addon_calls example_store_faulty
  = Ok 1 example_store_faulty_later.
Proof. vm_compute. reflexivity. Qed.

(** X8 on the example: the type with no version is reported at index 1, also
    with a good type behind it. *)
Lemma X8_witness :
  validateSupportedConfigGVRs [example_gvr; example_gvr_no_version]
  = Some (ErrConfigVersionRequired 1) /\
  validateSupportedConfigGVRs ([example_gvr; example_gvr_no_version] ++ [example_gvr])
  = Some (ErrConfigVersionRequired 1).
Proof.
  assert (validateSupportedConfigGVRs [example_gvr; example_gvr_no_version]
          = Some (ErrConfigVersionRequired 1)) as Hv by (vm_compute; reflexivity).
  split; [exact Hv |].
  exact (X8_refused_list_stays_refused _ [example_gvr] _ Hv).
Defined.

(** X9 on the example: the factory with the type of no version gets the
    validation's error from [BuildHelmAgentAddon], and no addon. *)
Lemma X9_witness :
  factories example_store_faulty !! 1 = Some example_factory_faulty /\
  exists r,
    BuildHelmAgentAddon 1 example_store_faulty = Ok r example_store_faulty /\
    r.2 = Some (ErrConfigVersionRequired 1) /\ r.1 = None.
Proof.
  split; [exact addon_example_faulty |].
  destruct (BuildHelmAgentAddon 1 example_store_faulty) as [r w' |] eqn:Hrun;
    [| vm_compute in Hrun; discriminate Hrun].
  assert (w' = example_store_faulty) as ->
    by (vm_compute in Hrun; injection Hrun as _ <-; reflexivity).
  destruct (X9_builders_return_addon_or_error 1 example_store_faulty)
    as (Hone & Herr & _).
  assert (r.2 = Some (ErrConfigVersionRequired 1)) as Hr.
  { apply (Herr example_factory_faulty r example_store_faulty _
             addon_example_faulty Hrun).
    left. exact addon_example_faulty_refused. }
  exists r. split; [reflexivity |]. split; [exact Hr |].
  destruct (Hone r example_store_faulty (or_introl Hrun)) as [_ [_ Hback]].
  apply Hback. rewrite Hr. by eexists.
Defined.

(** X10 on the example: the template addon of the factory with one
    configuration type holds the one listed file. *)
Lemma X10_witness :
  factories example_store_gvr !! 1 = Some example_factory_gvr /\
  validateSupportedConfigGVRs (SupportedConfigGVRs (agentAddonOptions example_factory_gvr))
  = None /\
  BuildTemplateAgentAddon 1 example_store_gvr
  = Ok (Some (templateAgentAddon ["manifests/deployment.yaml"]), None) example_store_gvr.
Proof.
  assert (validateSupportedConfigGVRs
            (SupportedConfigGVRs (agentAddonOptions example_factory_gvr)) = None) as Hv
    by (vm_compute; reflexivity).
  split; [exact addon_example_gvr |]. split; [exact Hv |].
  destruct (X10_template_addon_collects_every_file 1 example_store_gvr example_factory_gvr
              addon_example_gvr Hv) as (_ & Hfiles).
  destruct (Hfiles ["manifests/deployment.yaml"] eq_refl) as (_ & Hall & _).
  rewrite Hall; [reflexivity | done |]. by repeat constructor.
Defined.

(** X11 on the example: after four more calls the factory has its name and
    its two configuration types in front of the added one. *)
Lemma X11_witness :
  factories example_store_faulty !! 1 = Some example_factory_faulty /\
  run_addon_calls 1 example_addon_calls example_store_faulty
  = Ok 1 example_store_faulty_later /\
  exists y,
    factories example_store_faulty_later !! 1 = Some y /\
    AddonName (agentAddonOptions y) = "helloworld" /\
    exists added,
      SupportedConfigGVRs (agentAddonOptions y)
      = [example_gvr; example_gvr_no_version] ++ added.
Proof.
  split; [exact addon_example_faulty |]. split; [exact addon_example_faulty_later |].
  destruct (X11_configuration_only_grows 1 example_addon_calls example_store_faulty
              example_factory_faulty 1 example_store_faulty_later
              addon_example_faulty addon_example_faulty_later)
    as (_ & (y & Hy & Hname & _ & _ & Hadded & _) & _).
  exists y. split; [exact Hy |]. split; [exact Hname | exact Hadded].
Defined.

(** X12 on the example: the type with no version is still reported after the
    four calls, by both builders. *)
Lemma X12_witness :
  factories example_store_faulty !! 1 = Some example_factory_faulty /\
  validateSupportedConfigGVRs (SupportedConfigGVRs (agentAddonOptions example_factory_faulty))
  = Some (ErrConfigVersionRequired 1) /\
  run_addon_calls 1 example_addon_calls example_store_faulty
  = Ok 1 example_store_faulty_later /\
  BuildHelmAgentAddon 1 example_store_faulty_later
  = Ok (None, Some (ErrConfigVersionRequired 1)) example_store_faulty_later /\
  BuildTemplateAgentAddon 1 example_store_faulty_later
  = Ok (None, Some (ErrConfigVersionRequired 1)) example_store_faulty_later.
Proof.
  split; [exact addon_example_faulty |]. split; [exact addon_example_faulty_refused |].
  split; [exact addon_example_faulty_later |].
  exact (X12_refused_factory_cannot_be_repaired 1 example_addon_calls example_store_faulty
           example_factory_faulty _ 1 example_store_faulty_later
           addon_example_faulty addon_example_faulty_refused addon_example_faulty_later).
Defined.

(** X14 on the example: the strategy of empty namespace gets the default one,
    and the second call changes nothing. *)
Lemma X14_witness :
  factories example_store_new !! 1 = Some example_factory_new /\
  strategies example_store_new !! 5
  = Some {| InstallNamespace := ""; strategy_rest := "Manual" |} /\
  exists w1,
    WithInstallStrategy 1 5 example_store_new = Ok 1 w1 /\
    WithInstallStrategy 1 5 w1 = Ok 1 w1 /\
    exists s1,
      strategies w1 !! 5 = Some s1 /\ InstallNamespace s1 <> "" /\
      strategy_rest s1 = "Manual".
Proof.
  assert (strategies example_store_new !! 5
          = Some {| InstallNamespace := ""; strategy_rest := "Manual" |}) as Hp
    by (vm_compute; reflexivity).
  split; [exact addon_example_new |]. split; [exact Hp |].
  destruct (X14_WithInstallStrategy_settles 1 5 example_store_new example_factory_new _
              addon_example_new Hp)
    as (w1 & Hrun & Hagain & (s1 & Hs1 & Hns & Hrest & _) & _).
  exists w1. split; [exact Hrun |]. split; [exact Hagain |].
  exists s1. split; [exact Hs1 |]. split; [exact Hns | exact Hrest].
Defined.

(** X15 on the example: giving the factory its own scheme again registers the
    three type groups on it a second time. *)
Lemma X15_witness :
  factories example_store_new !! 1 = Some example_factory_new /\
  exists w',
    WithScheme 1 1 example_store_new = Ok 1 w' /\
    schemes w' !! 1
    = Some ([kubernetes_scheme; apiextensions_v1; apiextensions_v1beta1]
            ++ [kubernetes_scheme; apiextensions_v1; apiextensions_v1beta1]).
Proof.
  split; [exact addon_example_new |].
  pose proof (X15_WithScheme_registers_on_given_scheme 1 1 example_store_new
                example_factory_new addon_example_new) as Hcall.
  match type of Hcall with
  | match ?o with _ => _ end =>
      assert (o = Some [kubernetes_scheme; apiextensions_v1; apiextensions_v1beta1]) as Hs
        by (vm_compute; reflexivity);
      rewrite Hs in Hcall
  end.
  destruct Hcall as (w' & Hrun & _ & Hs' & _).
  exists w'. split; [exact Hrun | exact Hs'].
Defined.

End AddonFactoryExtras.
